(** * libvirt-exporter: the per-scrape collection engine

    A shallow embedding of [libvirt_exporter.go] and [pkg/utils/utils.go].

    - Go integers are [Z] (signed) or [N] (the [uint64]/[uint32] counters).
    - [float64] values are IEEE-754 binary64 numbers ([spec_float] with
      precision 53 and maximal exponent 1024, round-to-nearest-even).
    - The hypervisor, the proc file system and the Go libraries used by the
      exporter are oracles: records that give the result of each call.
    - The effects of a scrape (metrics sent on the channel, log lines,
      released handles, the two package-level variables) are threaded
      through a small monad [M]. *)

From Stdlib Require Import ZArith NArith QArith Lia Lqa List String Ascii.
From Stdlib Require Import SpecFloat Decimal DecimalString DecimalZ.
From stdpp Require Import base option list strings gmap.

Local Open Scope Z_scope.
Local Open Scope string_scope.
Local Open Scope list_scope.

(** ** float64 *)

Module F64.
Definition prec : Z := 53.
Definition emax : Z := 1024.

Definition t : Type := spec_float.

(** [float64(n)] for an integer [n]. *)
Definition of_Z (z : Z) : t := binary_normalize prec emax z 0 false.
Definition of_N (n : N) : t := of_Z (Z.of_N n).

Definition zero : t := S754_zero false.
Definition sub : t -> t -> t := SFsub prec emax.
Definition mul : t -> t -> t := SFmul prec emax.
Definition div : t -> t -> t := SFdiv prec emax.
Definition ltb : t -> t -> bool := SFltb.
Definition leb : t -> t -> bool := SFleb.
End F64.

(** The arithmetic a float64 expression needs, so that one definition can be
    read both in binary64 (what the program computes) and in exact rational
    arithmetic (what the formula denotes). *)
Record arith (F : Type) : Type := Arith {
  a_of_N : N -> F;
  a_zero : F;
  a_sub : F -> F -> F;
  a_div : F -> F -> F
}.
Arguments a_of_N {F}.
Arguments a_zero {F}.
Arguments a_sub {F}.
Arguments a_div {F}.

Definition binary64 : arith F64.t :=
  {| a_of_N := F64.of_N; a_zero := F64.zero; a_sub := F64.sub; a_div := F64.div |}.

Definition exactQ : arith Q :=
  {| a_of_N := fun n => inject_Z (Z.of_N n); a_zero := 0%Q;
     a_sub := Qminus; a_div := Qdiv |}.

(** The end of [binary_round_aux]: a rounded mantissa that has reached 2^53
    is brought back to 53 digits. *)
Definition finish (m : Z) (e : Z) : spec_float :=
  let '(mrs, e') := shr_fexp 53 1024 m e loc_Exact in
  match shr_m mrs with
  | Z0 => S754_zero false
  | Zpos m => if Z.leb e' (1024 - 53) then S754_finite false m e' else S754_infinity false
  | _ => S754_nan
  end.

(** The location that [SFdiv_core_binary] gives the remainder [r] of a
    division by [m2]: below, at or above the half. *)
Definition division_location (m2 r : Z) : location :=
  if Z.eqb r 0 then loc_Exact else loc_Inexact (Z.compare (2 * r) m2).

(** ** Go values: errors and results *)

(** [libvirt.ErrorNumber] values named by the exporter (libvirt's
    [virErrorNumber]). *)
Definition ERR_OK : Z := 0.
Definition ERR_OPERATION_INVALID : Z := 55.
Definition ERR_OPERATION_UNSUPPORTED : Z := 84.

(** A Go [error] value: either a [libvirt.Error] (with its [Code]) or an
    error of another dynamic type.  [text] is what [err.Error()] returns. *)
Inductive error : Type :=
| LibvirtError (Code : Z) (text : string)
| OtherError (text : string).

Definition Error_ (err : error) : string :=
  match err with LibvirtError _ text => text | OtherError text => text end.

(** [lverr, ok := err.(libvirt.Error)]: on failure [lverr] is the zero
    [libvirt.Error], whose [Code] is 0. *)
Definition as_libvirt_Error (err : error) : Z * bool :=
  match err with
  | LibvirtError Code _ => (Code, true)
  | OtherError _ => (ERR_OK, false)
  end.

(** A call that returns [(value, error)]. *)
Inductive result (A : Type) : Type :=
| Ok (a : A)
| Fail (err : error).
Arguments Ok {A}.
Arguments Fail {A}.

#[global] Instance error_eq_dec : EqDecision error.
Proof. solve_decision. Defined.

(** ** strconv, strings, path/filepath *)

(** [strconv.Itoa] and [strconv.FormatInt(_, 10)]. *)
Definition Itoa (z : Z) : string := NilEmpty.string_of_int (Z.to_int z).
Definition FormatInt (z : Z) : string := Itoa z.

(** [strings.Contains]. *)
Fixpoint strings_Contains (s substr : string) : bool :=
  if String.prefix substr s then true
  else match s with
       | EmptyString => false
       | String _ s' => strings_Contains s' substr
       end.

(** [strings.Join]. *)
Fixpoint strings_Join (elems : list string) (sep : string) : string :=
  match elems with
  | [] => ""
  | [e] => e
  | e :: rest => e +:+ sep +:+ strings_Join rest sep
  end.

(** ** Prometheus descriptors and metrics *)

Record Desc : Type := { fqName : string; variableLabels : list string }.

Inductive ValueType : Type := CounterValue | GaugeValue.

(** What [prometheus.MustNewConstMetric(desc, valueType, value, labels...)]
    builds. *)
Record Metric : Type := MustNewConstMetric {
  desc : Desc;
  valueType : ValueType;
  value : F64.t;
  labelValues : list string
}.

(** The descriptors of [libvirt_exporter.go], with the name
    [prometheus.BuildFQName] gives each and its label names. *)
Definition libvirtUpDesc : Desc :=
  {| fqName := "libvirt_up"; variableLabels := [] |}.
Definition libvirtPoolInfoCapacity : Desc :=
  {| fqName := "libvirt_pool_info_capacity_bytes"; variableLabels := ["pool"] |}.
Definition libvirtPoolInfoAllocation : Desc :=
  {| fqName := "libvirt_pool_info_allocation_bytes"; variableLabels := ["pool"] |}.
Definition libvirtPoolInfoAvailable : Desc :=
  {| fqName := "libvirt_pool_info_available_bytes"; variableLabels := ["pool"] |}.
Definition libvirtVersionsInfoDesc : Desc :=
  {| fqName := "libvirt_versions_info"; variableLabels := ["hypervisor_running"; "libvirtd_running"; "libvirt_library"] |}.
Definition libvirtDomainInfoMetaDesc : Desc :=
  {| fqName := "libvirt_domain_info_meta"; variableLabels := ["domain"; "uuid"; "instance_name"; "flavor"; "user_name"; "user_uuid"; "project_name"; "project_uuid"; "root_type"; "root_uuid"] |}.
Definition libvirtDomainInfoMaxMemBytesDesc : Desc :=
  {| fqName := "libvirt_domain_info_maximum_memory_bytes"; variableLabels := ["domain"] |}.
Definition libvirtDomainInfoMemoryUsageBytesDesc : Desc :=
  {| fqName := "libvirt_domain_info_memory_usage_bytes"; variableLabels := ["domain"] |}.
Definition libvirtDomainInfoNrVirtCPUDesc : Desc :=
  {| fqName := "libvirt_domain_info_virtual_cpus"; variableLabels := ["domain"] |}.
Definition libvirtDomainInfoCPUTimeDesc : Desc :=
  {| fqName := "libvirt_domain_info_cpu_time_seconds_total"; variableLabels := ["domain"] |}.
Definition libvirtDomainInfoVirDomainState : Desc :=
  {| fqName := "libvirt_domain_info_vstate"; variableLabels := ["domain"] |}.
Definition libvirtDomainVcpuTimeDesc : Desc :=
  {| fqName := "libvirt_domain_vcpu_time_seconds_total"; variableLabels := ["domain"; "vcpu"] |}.
Definition libvirtDomainVcpuDelayDesc : Desc :=
  {| fqName := "libvirt_domain_vcpu_delay_seconds_total"; variableLabels := ["domain"; "vcpu"] |}.
Definition libvirtDomainVcpuStateDesc : Desc :=
  {| fqName := "libvirt_domain_vcpu_state"; variableLabels := ["domain"; "vcpu"] |}.
Definition libvirtDomainVcpuCPUDesc : Desc :=
  {| fqName := "libvirt_domain_vcpu_cpu"; variableLabels := ["domain"; "vcpu"] |}.
Definition libvirtDomainVcpuWaitDesc : Desc :=
  {| fqName := "libvirt_domain_vcpu_wait_seconds_total"; variableLabels := ["domain"; "vcpu"] |}.
Definition libvirtDomainMetaBlockDesc : Desc :=
  {| fqName := "libvirt_domain_block_meta"; variableLabels := ["domain"; "target_device"; "source_file"; "serial"; "bus"; "disk_type"; "driver_type"; "cache"; "discard"] |}.
Definition libvirtDomainBlockRdBytesDesc : Desc :=
  {| fqName := "libvirt_domain_block_stats_read_bytes_total"; variableLabels := ["domain"; "target_device"] |}.
Definition libvirtDomainBlockRdReqDesc : Desc :=
  {| fqName := "libvirt_domain_block_stats_read_requests_total"; variableLabels := ["domain"; "target_device"] |}.
Definition libvirtDomainBlockRdTotalTimeSecondsDesc : Desc :=
  {| fqName := "libvirt_domain_block_stats_read_time_seconds_total"; variableLabels := ["domain"; "target_device"] |}.
Definition libvirtDomainBlockWrBytesDesc : Desc :=
  {| fqName := "libvirt_domain_block_stats_write_bytes_total"; variableLabels := ["domain"; "target_device"] |}.
Definition libvirtDomainBlockWrReqDesc : Desc :=
  {| fqName := "libvirt_domain_block_stats_write_requests_total"; variableLabels := ["domain"; "target_device"] |}.
Definition libvirtDomainBlockWrTotalTimesDesc : Desc :=
  {| fqName := "libvirt_domain_block_stats_write_time_seconds_total"; variableLabels := ["domain"; "target_device"] |}.
Definition libvirtDomainBlockFlushReqDesc : Desc :=
  {| fqName := "libvirt_domain_block_stats_flush_requests_total"; variableLabels := ["domain"; "target_device"] |}.
Definition libvirtDomainBlockFlushTotalTimeSecondsDesc : Desc :=
  {| fqName := "libvirt_domain_block_stats_flush_time_seconds_total"; variableLabels := ["domain"; "target_device"] |}.
Definition libvirtDomainBlockAllocationDesc : Desc :=
  {| fqName := "libvirt_domain_block_stats_allocation"; variableLabels := ["domain"; "target_device"] |}.
Definition libvirtDomainBlockCapacityBytesDesc : Desc :=
  {| fqName := "libvirt_domain_block_stats_capacity_bytes"; variableLabels := ["domain"; "target_device"] |}.
Definition libvirtDomainBlockPhysicalSizeBytesDesc : Desc :=
  {| fqName := "libvirt_domain_block_stats_physicalsize_bytes"; variableLabels := ["domain"; "target_device"] |}.
Definition libvirtDomainBlockTotalBytesSecDesc : Desc :=
  {| fqName := "libvirt_domain_block_stats_limit_total_bytes"; variableLabels := ["domain"; "target_device"] |}.
Definition libvirtDomainBlockWriteBytesSecDesc : Desc :=
  {| fqName := "libvirt_domain_block_stats_limit_write_bytes"; variableLabels := ["domain"; "target_device"] |}.
Definition libvirtDomainBlockReadBytesSecDesc : Desc :=
  {| fqName := "libvirt_domain_block_stats_limit_read_bytes"; variableLabels := ["domain"; "target_device"] |}.
Definition libvirtDomainBlockTotalIopsSecDesc : Desc :=
  {| fqName := "libvirt_domain_block_stats_limit_total_requests"; variableLabels := ["domain"; "target_device"] |}.
Definition libvirtDomainBlockWriteIopsSecDesc : Desc :=
  {| fqName := "libvirt_domain_block_stats_limit_write_requests"; variableLabels := ["domain"; "target_device"] |}.
Definition libvirtDomainBlockReadIopsSecDesc : Desc :=
  {| fqName := "libvirt_domain_block_stats_limit_read_requests"; variableLabels := ["domain"; "target_device"] |}.
Definition libvirtDomainBlockTotalBytesSecMaxDesc : Desc :=
  {| fqName := "libvirt_domain_block_stats_limit_burst_total_bytes"; variableLabels := ["domain"; "target_device"] |}.
Definition libvirtDomainBlockWriteBytesSecMaxDesc : Desc :=
  {| fqName := "libvirt_domain_block_stats_limit_burst_write_bytes"; variableLabels := ["domain"; "target_device"] |}.
Definition libvirtDomainBlockReadBytesSecMaxDesc : Desc :=
  {| fqName := "libvirt_domain_block_stats_limit_burst_read_bytes"; variableLabels := ["domain"; "target_device"] |}.
Definition libvirtDomainBlockTotalIopsSecMaxDesc : Desc :=
  {| fqName := "libvirt_domain_block_stats_limit_burst_total_requests"; variableLabels := ["domain"; "target_device"] |}.
Definition libvirtDomainBlockWriteIopsSecMaxDesc : Desc :=
  {| fqName := "libvirt_domain_block_stats_limit_burst_write_requests"; variableLabels := ["domain"; "target_device"] |}.
Definition libvirtDomainBlockReadIopsSecMaxDesc : Desc :=
  {| fqName := "libvirt_domain_block_stats_limit_burst_read_requests"; variableLabels := ["domain"; "target_device"] |}.
Definition libvirtDomainBlockTotalBytesSecMaxLengthDesc : Desc :=
  {| fqName := "libvirt_domain_block_stats_limit_burst_total_bytes_length_seconds"; variableLabels := ["domain"; "target_device"] |}.
Definition libvirtDomainBlockWriteBytesSecMaxLengthDesc : Desc :=
  {| fqName := "libvirt_domain_block_stats_limit_burst_write_bytes_length_seconds"; variableLabels := ["domain"; "target_device"] |}.
Definition libvirtDomainBlockReadBytesSecMaxLengthDesc : Desc :=
  {| fqName := "libvirt_domain_block_stats_limit_burst_read_bytes_length_seconds"; variableLabels := ["domain"; "target_device"] |}.
Definition libvirtDomainBlockTotalIopsSecMaxLengthDesc : Desc :=
  {| fqName := "libvirt_domain_block_stats_limit_burst_length_total_requests_seconds"; variableLabels := ["domain"; "target_device"] |}.
Definition libvirtDomainBlockWriteIopsSecMaxLengthDesc : Desc :=
  {| fqName := "libvirt_domain_block_stats_limit_burst_length_write_requests_seconds"; variableLabels := ["domain"; "target_device"] |}.
Definition libvirtDomainBlockReadIopsSecMaxLengthDesc : Desc :=
  {| fqName := "libvirt_domain_block_stats_limit_burst_length_read_requests_seconds"; variableLabels := ["domain"; "target_device"] |}.
Definition libvirtDomainBlockSizeIopsSecDesc : Desc :=
  {| fqName := "libvirt_domain_block_stats_size_iops_bytes"; variableLabels := ["domain"; "target_device"] |}.
Definition libvirtDomainMetaInterfacesDesc : Desc :=
  {| fqName := "libvirt_domain_interface_meta"; variableLabels := ["domain"; "source_bridge"; "target_device"; "virtual_interface"] |}.
Definition libvirtDomainInterfaceRxBytesDesc : Desc :=
  {| fqName := "libvirt_domain_interface_stats_receive_bytes_total"; variableLabels := ["domain"; "target_device"] |}.
Definition libvirtDomainInterfaceRxPacketsDesc : Desc :=
  {| fqName := "libvirt_domain_interface_stats_receive_packets_total"; variableLabels := ["domain"; "target_device"] |}.
Definition libvirtDomainInterfaceRxErrsDesc : Desc :=
  {| fqName := "libvirt_domain_interface_stats_receive_errors_total"; variableLabels := ["domain"; "target_device"] |}.
Definition libvirtDomainInterfaceRxDropDesc : Desc :=
  {| fqName := "libvirt_domain_interface_stats_receive_drops_total"; variableLabels := ["domain"; "target_device"] |}.
Definition libvirtDomainInterfaceTxBytesDesc : Desc :=
  {| fqName := "libvirt_domain_interface_stats_transmit_bytes_total"; variableLabels := ["domain"; "target_device"] |}.
Definition libvirtDomainInterfaceTxPacketsDesc : Desc :=
  {| fqName := "libvirt_domain_interface_stats_transmit_packets_total"; variableLabels := ["domain"; "target_device"] |}.
Definition libvirtDomainInterfaceTxErrsDesc : Desc :=
  {| fqName := "libvirt_domain_interface_stats_transmit_errors_total"; variableLabels := ["domain"; "target_device"] |}.
Definition libvirtDomainInterfaceTxDropDesc : Desc :=
  {| fqName := "libvirt_domain_interface_stats_transmit_drops_total"; variableLabels := ["domain"; "target_device"] |}.
Definition libvirtDomainMemoryStatMajorFaultTotalDesc : Desc :=
  {| fqName := "libvirt_domain_memory_stats_major_fault_total"; variableLabels := ["domain"] |}.
Definition libvirtDomainMemoryStatMinorFaultTotalDesc : Desc :=
  {| fqName := "libvirt_domain_memory_stats_minor_fault_total"; variableLabels := ["domain"] |}.
Definition libvirtDomainMemoryStatUnusedBytesDesc : Desc :=
  {| fqName := "libvirt_domain_memory_stats_unused_bytes"; variableLabels := ["domain"] |}.
Definition libvirtDomainMemoryStatAvailableBytesDesc : Desc :=
  {| fqName := "libvirt_domain_memory_stats_available_bytes"; variableLabels := ["domain"] |}.
Definition libvirtDomainMemoryStatActualBaloonBytesDesc : Desc :=
  {| fqName := "libvirt_domain_memory_stats_actual_balloon_bytes"; variableLabels := ["domain"] |}.
Definition libvirtDomainMemoryStatRssBytesDesc : Desc :=
  {| fqName := "libvirt_domain_memory_stats_rss_bytes"; variableLabels := ["domain"] |}.
Definition libvirtDomainMemoryStatUsableBytesDesc : Desc :=
  {| fqName := "libvirt_domain_memory_stats_usable_bytes"; variableLabels := ["domain"] |}.
Definition libvirtDomainMemoryStatDiskCachesBytesDesc : Desc :=
  {| fqName := "libvirt_domain_memory_stats_disk_cache_bytes"; variableLabels := ["domain"] |}.
Definition libvirtDomainMemoryStatUsedPercentDesc : Desc :=
  {| fqName := "libvirt_domain_memory_stats_used_percent"; variableLabels := ["domain"] |}.

(** A value passed to the logger: a string or an error. *)
Inductive logval : Type :=
| LStr (s : string)
| LErr (err : error).

(** ** Observable effects of a scrape *)

Inductive event : Type :=
| Send (m : Metric)                    (* ch <- m *)
| LogError (keyvals : list logval)     (* level.Error(logger).Log(keyvals...) *)
| SchedStatCall (cpuNum : nat) (procPath : string) (pid : Z)
                                       (* utils.GetProcPIDSchedStat(procPath, pid),
                                          called for VCPU cpuNum *)
| DomainFree (ptr : nat)               (* stat.Domain.Free() *)
| PoolFree (ptr : nat)                 (* pool.Free() *)
| ConnClose.                           (* conn.Close() *)

(** The package-level variables [errorsMap] and [processes]. *)
Record globals : Type := Globals {
  errorsMap : gset string;
  processes : list Z
}.

(** How a call ends. *)
Inductive outcome (A : Type) : Type :=
| Done (a : A)            (* returned normally; for an [error] result: nil *)
| Raised (err : error)    (* returned a non-nil error *)
| Panicked (msg : string) (* run-time panic *)
| Exited.                 (* log.Fatal: the process is gone *)
Arguments Done {A}.
Arguments Raised {A}.
Arguments Panicked {A}.
Arguments Exited {A}.

Definition M (A : Type) : Type := globals -> outcome A * globals * list event.

Definition outcome_of {A} (r : outcome A * globals * list event) : outcome A := r.1.1.
Definition globals_of {A} (r : outcome A * globals * list event) : globals := r.1.2.
Definition events_of {A} (r : outcome A * globals * list event) : list event := r.2.

Definition ret {A} (a : A) : M A := fun g => (Done a, g, []).

Definition bind {A B} (m : M A) (f : A -> M B) : M B :=
  fun g =>
    match m g with
    | (Done a, g1, tr1) =>
        match f a g1 with
        | (r, g2, tr2) => (r, g2, tr1 ++ tr2)
        end
    | (Raised err, g1, tr1) => (Raised err, g1, tr1)
    | (Panicked msg, g1, tr1) => (Panicked msg, g1, tr1)
    | (Exited, g1, tr1) => (Exited, g1, tr1)
    end.

#[global] Instance M_ret : MRet M := @ret.
#[global] Instance M_bind : MBind M := fun A B f m => bind m f.

Definition raise {A} (err : error) : M A := fun g => (Raised err, g, []).
Definition panic {A} (msg : string) : M A := fun g => (Panicked msg, g, []).
Definition fatal {A} : M A := fun g => (Exited, g, []).
Definition emit (e : event) : M unit := fun g => (Done tt, g, [e]).

(** [v, err := call; if err != nil { return err }]. *)
Definition try_ {A} (r : result A) : M A :=
  match r with Ok a => ret a | Fail err => raise err end.

(** [ch <- prometheus.MustNewConstMetric(...)]. *)
Definition send (d : Desc) (vt : ValueType) (v : F64.t) (labels : list string) : M unit :=
  emit (Send (MustNewConstMetric d vt v labels)).

Definition when_ (b : bool) (m : M unit) : M unit := if b then m else ret tt.

(** [for i, x := range l { body }]: [continue] ends the body, [return err]
    in the body is [raise]. *)
Fixpoint range_from {A} (i : nat) (l : list A) (body : nat -> A -> M unit) : M unit :=
  match l with
  | [] => ret tt
  | x :: l' => body i x;; range_from (S i) l' body
  end.
Definition range_ {A} (l : list A) (body : nat -> A -> M unit) : M unit :=
  range_from 0 l body.

(** [err := call(...)] kept in a variable instead of returned. *)
Definition catch (m : M unit) : M (option error) :=
  fun g =>
    match m g with
    | (Done _, g1, tr1) => (Done None, g1, tr1)
    | (Raised err, g1, tr1) => (Done (Some err), g1, tr1)
    | (Panicked msg, g1, tr1) => (Panicked msg, g1, tr1)
    | (Exited, g1, tr1) => (Exited, g1, tr1)
    end.

(** [defer cleanup(); body]: the deferred call runs when the function returns
    or panics, and not when the process exits. *)
Definition defer_ {A} (cleanup : M unit) (body : M A) : M A :=
  fun g =>
    match body g with
    | (Exited, g1, tr1) => (Exited, g1, tr1)
    | (r, g1, tr1) =>
        match cleanup g1 with
        | (_, g2, tr2) => (r, g2, tr1 ++ tr2)
        end
    end.

(** ** libvirt value types (libvirt.org/go/libvirt): the fields the exporter reads *)

Record DomainInfo : Type := {
  info_State : Z;
  info_MaxMem : N;
  info_Memory : N;
  info_NrVirtCpu : N;
  info_CpuTime : N
}.

Record DomainVcpuInfo : Type := {
  vcpu_Number : N;
  vcpu_State : Z;
  vcpu_CpuTime : N;
  vcpu_Cpu : Z
}.

Record DomainStatsVcpu : Type := {
  WaitSet : bool; Wait : N;
  DelaySet : bool; Delay : N
}.

Record DomainStatsBlock : Type := {
  blk_Name : string;
  PathSet : bool; Path : string;
  RdBytesSet : bool; RdBytes : N;
  RdReqsSet : bool; RdReqs : N;
  RdTimesSet : bool; RdTimes : N;
  WrBytesSet : bool; WrBytes : N;
  WrReqsSet : bool; WrReqs : N;
  WrTimesSet : bool; WrTimes : N;
  FlReqsSet : bool; FlReqs : N;
  FlTimesSet : bool; FlTimes : N;
  AllocationSet : bool; blk_Allocation : N;
  CapacitySet : bool; blk_Capacity : N;
  PhysicalSet : bool; Physical : N
}.

Record DomainStatsNet : Type := {
  net_Name : string;
  RxBytesSet : bool; RxBytes : N;
  RxPktsSet : bool; RxPkts : N;
  RxErrsSet : bool; RxErrs : N;
  RxDropSet : bool; RxDrop : N;
  TxBytesSet : bool; TxBytes : N;
  TxPktsSet : bool; TxPkts : N;
  TxErrsSet : bool; TxErrs : N;
  TxDropSet : bool; TxDrop : N
}.

Record DomainBlockIoTuneParameters : Type := {
  TotalBytesSecSet : bool; TotalBytesSec : N;
  ReadBytesSecSet : bool; ReadBytesSec : N;
  WriteBytesSecSet : bool; WriteBytesSec : N;
  TotalIopsSecSet : bool; TotalIopsSec : N;
  ReadIopsSecSet : bool; ReadIopsSec : N;
  WriteIopsSecSet : bool; WriteIopsSec : N;
  TotalBytesSecMaxSet : bool; TotalBytesSecMax : N;
  ReadBytesSecMaxSet : bool; ReadBytesSecMax : N;
  WriteBytesSecMaxSet : bool; WriteBytesSecMax : N;
  TotalIopsSecMaxSet : bool; TotalIopsSecMax : N;
  ReadIopsSecMaxSet : bool; ReadIopsSecMax : N;
  WriteIopsSecMaxSet : bool; WriteIopsSecMax : N;
  TotalBytesSecMaxLengthSet : bool; TotalBytesSecMaxLength : N;
  ReadBytesSecMaxLengthSet : bool; ReadBytesSecMaxLength : N;
  WriteBytesSecMaxLengthSet : bool; WriteBytesSecMaxLength : N;
  TotalIopsSecMaxLengthSet : bool; TotalIopsSecMaxLength : N;
  ReadIopsSecMaxLengthSet : bool; ReadIopsSecMaxLength : N;
  WriteIopsSecMaxLengthSet : bool; WriteIopsSecMaxLength : N;
  SizeIopsSecSet : bool; SizeIopsSec : N
}.

Record DomainMemoryStat : Type := { Tag : Z; Val : N }.

Record StoragePoolInfo : Type := {
  pool_Capacity : N;
  pool_Allocation : N;
  pool_Available : N
}.

(** ** Handles: what each method of a handle returns during the scrape *)

Module Domain.
Record t : Type := {
  ptr : nat;
  GetName : result string;
  QemuMonitorCommand : result string;   (* "info cpus", HMP *)
  GetUUIDString : result string;
  GetXMLDesc : result string;
  GetInfo : result DomainInfo;
  GetVcpus : result (list DomainVcpuInfo);
  GetBlockIoTune : string -> result DomainBlockIoTuneParameters;
  MemoryStats : result (list DomainMemoryStat)
}.
End Domain.

Record DomainStats : Type := {
  Domain : Domain.t;
  Vcpu : list DomainStatsVcpu;
  Block : list DomainStatsBlock;
  Net : list DomainStatsNet
}.

Module StoragePool.
Record t : Type := {
  ptr : nat;
  Refresh : option error;
  GetName : result string;
  GetInfo : result StoragePoolInfo
}.
End StoragePool.

Module Connect.
Record t : Type := {
  GetVersion : result N;
  GetLibVersion : result N;
  GetAllDomainStats : list DomainStats * option error;
  ListAllStoragePools : list StoragePool.t * option error
}.
End Connect.

(** ** The XML schema of a domain description *)

Module libvirtSchema.
(** Modelled from the spec: the package [pkg/libvirtSchema] is not among the
    sources; this is the disk record of the decoded descriptor ("disk
    source/bus/driver/cache attributes"), with the fields [CollectDomain]
    reads, nested fields written with [_]. *)
Record Disk : Type := {
  Target_Device : string;
  Target_Bus : string;
  Source_Name : string;
  Serial : string;
  DiskType : string;
  Driver_Type : string;
  Driver_Cache : string;
  Driver_Discard : string
}.

(** Modelled from the spec: the interface record of the decoded descriptor
    ("network bridge/interface identifiers"), missing with
    [pkg/libvirtSchema]. *)
Record Interface : Type := {
  if_Target_Device : string;
  Source_Bridge : string;
  Virtualport_Parameters_InterfaceID : string
}.

(** Modelled from the spec: the decoded descriptor ("typed device/metadata
    records ... and ownership metadata"), missing with [pkg/libvirtSchema]. *)
Record Domain : Type := {
  NovaName : string;
  FlavorName : string;
  UserName : string;
  UserUUID : string;
  ProjectName : string;
  ProjectUUID : string;
  RootType : string;
  RootUUID : string;
  Devices_Disks : list Disk;
  Devices_Interfaces : list Interface
}.

(** Modelled from the spec: the memory statistics record ("major/minor fault
    counts, unused/available/actual-balloon/RSS/usable/disk-cache"), missing
    with [pkg/libvirtSchema]; a Go struct of [uint64] fields. *)
Record VirDomainMemoryStats : Type := {
  MajorFault : N;
  MinorFault : N;
  Unused : N;
  Available : N;
  ActualBalloon : N;
  Rss : N;
  Usable : N;
  DiskCaches : N
}.
End libvirtSchema.

(** ** pkg/utils *)

Record ProcPIDSchedStat : Type := {
  PID : Z;
  Cputime : N;
  Runqueue : N;
  Timeslices : N
}.

Record DirEntry : Type := { Name : string; IsDir : bool }.

(** ** The world outside the exporter *)

Record World : Type := {
  (* Go library functions *)
  filepath_Clean : string -> string;
  fmt_Fscan3 : string -> result (N * N * N);   (* fmt.Fscan into three uint64 *)
  strconv_Atoi : string -> Z * option error;
  regThreadID_FindAllStringSubmatch : string -> list (list string);
  xml_Unmarshal : string -> result libvirtSchema.Domain;
  (* the host *)
  procFSPath : string;                          (* --path.procfs *)
  os_ReadFile : string -> string * option error;
  os_ReadDir : string -> result (list DirEntry);
  libvirt_NewConnect : string -> result Connect.t;
  libvirt_GetVersion : result N
}.

Section Exporter.

Variable W : World.

(** [filepath.Join]: the elements from the first non-empty one on, joined by
    the separator and cleaned. *)
Fixpoint filepath_Join (elem : list string) : string :=
  match elem with
  | [] => ""
  | e :: rest =>
      if String.eqb e "" then filepath_Join rest
      else filepath_Clean W (strings_Join (e :: rest) "/")
  end.

(** *** pkg/utils/utils.go *)

(** GetProcPIDSchedStat reads and returns the schedstat for a process from
    the proc fs; the error of [os.ReadFile] is dropped, that of [fmt.Fscan]
    is returned. *)
Definition GetProcPIDSchedStat (procPath : string) (pid : Z) : result ProcPIDSchedStat :=
  let schedStatPath := filepath_Join [procPath; Itoa pid; "schedstat"] in
  let filecontent := (os_ReadFile W schedStatPath).1 in
  match fmt_Fscan3 W filecontent with
  | Fail err => Fail err
  | Ok (cputime, runqueue, timeslices) =>
      Ok {| PID := pid; Cputime := cputime; Runqueue := runqueue; Timeslices := timeslices |}
  end.

(** GetCmdLine reads the cmdline for a process from /proc. *)
Definition GetCmdLine (procPath : string) (pid : Z) : string :=
  let cmdLinePath := filepath_Join [procPath; Itoa pid; "cmdline"] in
  let filecontent := (os_ReadFile W cmdLinePath).1 in
  filecontent.

(** GetProcessList, the loop over the directory entries: is it a folder, is
    the name a number? *)
Fixpoint GetProcessList_loop (files : list DirEntry) : list Z :=
  match files with
  | [] => []
  | f :: rest =>
      if negb (IsDir f) then GetProcessList_loop rest
      else match strconv_Atoi W (Name f) with
           | (pid, None) => pid :: GetProcessList_loop rest
           | (_, Some _) => GetProcessList_loop rest
           end
  end.

(** GetProcessList reads and returns all PIDs from the proc filesystem;
    [log.Fatal] when the directory cannot be read. *)
Definition GetProcessList (procFS : string) : M (list Z) :=
  match os_ReadDir W procFS with
  | Fail _ => fatal
  | Ok files => mret (GetProcessList_loop files)
  end.

(** *** libvirt_exporter.go *)

(** WriteErrorOnce writes message to stdout only once for the error. *)
Definition WriteErrorOnce (err : string) (name : string) : M unit :=
  fun g =>
    if bool_decide (name ∈ errorsMap g) then (Done tt, g, [])
    else (Done tt,
          {| errorsMap := {[ name ]} ∪ errorsMap g; processes := processes g |},
          [LogError [LStr "err"; LStr err]]).

(** GetDomainPid, the loop over the process list; the named result [pid]
    keeps its zero value when no command line matches. *)
Fixpoint GetDomainPid_loop (domainName : string) (ps : list Z) : Z :=
  match ps with
  | [] => 0
  | process :: rest =>
      let cmdline := GetCmdLine (procFSPath W) process in
      if negb (String.eqb cmdline "") && strings_Contains cmdline domainName
      then process
      else GetDomainPid_loop domainName rest
  end.

(** GetDomainPid returns the VM's Pid by iterating over process list. *)
Definition GetDomainPid (domainName : string) : M Z :=
  fun g => (Done (GetDomainPid_loop domainName (processes g)), g, []).

(** GetDomainVcpuPids returns the list of vcpu pid: the submatch [thread[1]]
    of every match of the thread_id pattern in the answer of the monitor,
    through [strconv.Atoi] whose error is dropped. *)
Definition GetDomainVcpuPids (domain : Domain.t) : list Z * option error :=
  match Domain.QemuMonitorCommand domain with
  | Fail err => ([], Some err)
  | Ok vCPUThreads =>
      let threadIDsRaw := regThreadID_FindAllStringSubmatch W vCPUThreads in
      (map (fun thread => (strconv_Atoi W (nth 1 thread "")).1) threadIDsRaw, None)
  end.

(** [if err != nil { lverr, ok := err.(libvirt.Error);
      if !ok || lverr.Code != libvirt.ERR_OPERATION_INVALID { return err } }] *)
Definition tolerate_operation_invalid (err : error) : M unit :=
  let '(Code, ok) := as_libvirt_Error err in
  if negb ok || negb (Z.eqb Code ERR_OPERATION_INVALID) then raise err else mret tt.

Definition f_1000 : F64.t := F64.of_Z 1000.
Definition f_1024 : F64.t := F64.of_Z 1024.
Definition f_1e9 : F64.t := F64.of_Z 1000000000.

(** From nsec to sec, written [/1000/1000/1000] in the source. *)
Definition nsec_to_sec (x : F64.t) : F64.t :=
  F64.div (F64.div (F64.div x f_1000) f_1000) f_1000.

(** CollectDomain, "Report domain info." *)
Definition report_domain_info (domainName domainUUID : string)
    (desc : libvirtSchema.Domain) (info : DomainInfo) : M unit :=
  send libvirtDomainInfoMetaDesc GaugeValue (F64.of_Z 1)
    [domainName; domainUUID;
     libvirtSchema.NovaName desc; libvirtSchema.FlavorName desc;
     libvirtSchema.UserName desc; libvirtSchema.UserUUID desc;
     libvirtSchema.ProjectName desc; libvirtSchema.ProjectUUID desc;
     libvirtSchema.RootType desc; libvirtSchema.RootUUID desc];;
  send libvirtDomainInfoMaxMemBytesDesc GaugeValue
    (F64.mul (F64.of_N (info_MaxMem info)) f_1024) [domainName];;
  send libvirtDomainInfoMemoryUsageBytesDesc GaugeValue
    (F64.mul (F64.of_N (info_Memory info)) f_1024) [domainName];;
  send libvirtDomainInfoNrVirtCPUDesc GaugeValue
    (F64.of_N (info_NrVirtCpu info)) [domainName];;
  send libvirtDomainInfoCPUTimeDesc CounterValue
    (nsec_to_sec (F64.of_N (info_CpuTime info))) [domainName];;
  send libvirtDomainInfoVirDomainState GaugeValue
    (F64.of_Z (info_State info)) [domainName].

(** CollectDomain, the body of [for _, vcpu := range domainStatsVcpu]. *)
Definition vcpu_info_body (domainName : string) (vcpu : DomainVcpuInfo) : M unit :=
  send libvirtDomainVcpuStateDesc GaugeValue (F64.of_Z (vcpu_State vcpu))
    [domainName; FormatInt (Z.of_N (vcpu_Number vcpu))];;
  send libvirtDomainVcpuTimeDesc CounterValue (nsec_to_sec (F64.of_N (vcpu_CpuTime vcpu)))
    [domainName; FormatInt (Z.of_N (vcpu_Number vcpu))];;
  send libvirtDomainVcpuCPUDesc GaugeValue (F64.of_Z (vcpu_Cpu vcpu))
    [domainName; FormatInt (Z.of_N (vcpu_Number vcpu))].

(** CollectDomain, the body of [for cpuNum, vcpu := range stat.Vcpu]. *)
Definition vcpu_stats_body (domainName : string) (domainPid : Z)
    (domainVcpuPids : list Z) (cpuNum : nat) (vcpu : DomainStatsVcpu) : M unit :=
  when_ (WaitSet vcpu)
    (send libvirtDomainVcpuWaitDesc CounterValue (nsec_to_sec (F64.of_N (Wait vcpu)))
       [domainName; FormatInt (Z.of_nat cpuNum)]);;
  if DelaySet vcpu then
    send libvirtDomainVcpuDelayDesc CounterValue (F64.div (F64.of_N (Delay vcpu)) f_1e9)
      [domainName; FormatInt (Z.of_nat cpuNum)]
  else if (length domainVcpuPids <=? cpuNum)%nat then
    mret tt
  else
    (* If there are no vcpu delay measurement, we calculate it ourselves. *)
    let vcpuPid := nth cpuNum domainVcpuPids 0 in
    let procPath := filepath_Join [procFSPath W; Itoa domainPid; "task"] in
    emit (SchedStatCall cpuNum procPath vcpuPid);;
    match GetProcPIDSchedStat procPath vcpuPid with
    | Fail err =>
        emit (LogError [LStr "err"; LStr "unable to collect vcpu delay metric";
                        LStr "msg"; LErr err])
    | Ok procFSSchedStat =>
        send libvirtDomainVcpuDelayDesc CounterValue
          (F64.div (F64.of_N (Runqueue procFSSchedStat)) f_1e9)
          [domainName; FormatInt (Z.of_nat cpuNum)]
    end.

(** CollectDomain, [for _, dev := range desc.Devices.Disks]: the values of
    [DiskSource] and [Device] after the loop ([Device] stays nil, [None],
    when no target matches). *)
Fixpoint find_disk (Disks : list libvirtSchema.Disk) (disk : DomainStatsBlock)
    : string * option libvirtSchema.Disk :=
  match Disks with
  | [] => ("", None)
  | dev :: rest =>
      if String.eqb (libvirtSchema.Target_Device dev) (blk_Name disk) then
        ((if PathSet disk then Path disk else libvirtSchema.Source_Name dev), Some dev)
      else find_disk rest disk
  end.

(** CollectDomain, the counters of one block device. *)
Definition block_counters (domainName : string) (disk : DomainStatsBlock) : M unit :=
  let labels := [domainName; blk_Name disk] in
  when_ (RdBytesSet disk)
    (send libvirtDomainBlockRdBytesDesc CounterValue (F64.of_N (RdBytes disk)) labels);;
  when_ (RdReqsSet disk)
    (send libvirtDomainBlockRdReqDesc CounterValue (F64.of_N (RdReqs disk)) labels);;
  when_ (RdTimesSet disk)
    (send libvirtDomainBlockRdTotalTimeSecondsDesc CounterValue
       (F64.div (F64.of_N (RdTimes disk)) f_1e9) labels);;
  when_ (WrBytesSet disk)
    (send libvirtDomainBlockWrBytesDesc CounterValue (F64.of_N (WrBytes disk)) labels);;
  when_ (WrReqsSet disk)
    (send libvirtDomainBlockWrReqDesc CounterValue (F64.of_N (WrReqs disk)) labels);;
  when_ (WrTimesSet disk)
    (send libvirtDomainBlockWrTotalTimesDesc CounterValue
       (F64.div (F64.of_N (WrTimes disk)) f_1e9) labels);;
  when_ (FlReqsSet disk)
    (send libvirtDomainBlockFlushReqDesc CounterValue (F64.of_N (FlReqs disk)) labels);;
  when_ (FlTimesSet disk)
    (send libvirtDomainBlockFlushTotalTimeSecondsDesc CounterValue
       (F64.div (F64.of_N (FlTimes disk)) f_1e9) labels);;
  when_ (AllocationSet disk)
    (send libvirtDomainBlockAllocationDesc GaugeValue (F64.of_N (blk_Allocation disk)) labels);;
  when_ (CapacitySet disk)
    (send libvirtDomainBlockCapacityBytesDesc GaugeValue (F64.of_N (blk_Capacity disk)) labels);;
  when_ (PhysicalSet disk)
    (send libvirtDomainBlockPhysicalSizeBytesDesc GaugeValue (F64.of_N (Physical disk)) labels).

(** CollectDomain, the I/O-tuning limits of one block device. *)
Definition block_iotune (domainName : string) (disk : DomainStatsBlock)
    (p : DomainBlockIoTuneParameters) : M unit :=
  let labels := [domainName; blk_Name disk] in
  let limit (set : bool) (d : Desc) (v : N) : M unit :=
    when_ set (send d GaugeValue (F64.of_N v) labels) in
  limit (TotalBytesSecSet p) libvirtDomainBlockTotalBytesSecDesc (TotalBytesSec p);;
  limit (ReadBytesSecSet p) libvirtDomainBlockReadBytesSecDesc (ReadBytesSec p);;
  limit (WriteBytesSecSet p) libvirtDomainBlockWriteBytesSecDesc (WriteBytesSec p);;
  limit (TotalIopsSecSet p) libvirtDomainBlockTotalIopsSecDesc (TotalIopsSec p);;
  limit (ReadIopsSecSet p) libvirtDomainBlockReadIopsSecDesc (ReadIopsSec p);;
  limit (WriteIopsSecSet p) libvirtDomainBlockWriteIopsSecDesc (WriteIopsSec p);;
  limit (TotalBytesSecMaxSet p) libvirtDomainBlockTotalBytesSecMaxDesc (TotalBytesSecMax p);;
  limit (ReadBytesSecMaxSet p) libvirtDomainBlockReadBytesSecMaxDesc (ReadBytesSecMax p);;
  limit (WriteBytesSecMaxSet p) libvirtDomainBlockWriteBytesSecMaxDesc (WriteBytesSecMax p);;
  limit (TotalIopsSecMaxSet p) libvirtDomainBlockTotalIopsSecMaxDesc (TotalIopsSecMax p);;
  limit (ReadIopsSecMaxSet p) libvirtDomainBlockReadIopsSecMaxDesc (ReadIopsSecMax p);;
  limit (WriteIopsSecMaxSet p) libvirtDomainBlockWriteIopsSecMaxDesc (WriteIopsSecMax p);;
  limit (TotalBytesSecMaxLengthSet p) libvirtDomainBlockTotalBytesSecMaxLengthDesc
    (TotalBytesSecMaxLength p);;
  limit (ReadBytesSecMaxLengthSet p) libvirtDomainBlockReadBytesSecMaxLengthDesc
    (ReadBytesSecMaxLength p);;
  limit (WriteBytesSecMaxLengthSet p) libvirtDomainBlockWriteBytesSecMaxLengthDesc
    (WriteBytesSecMaxLength p);;
  limit (TotalIopsSecMaxLengthSet p) libvirtDomainBlockTotalIopsSecMaxLengthDesc
    (TotalIopsSecMaxLength p);;
  limit (ReadIopsSecMaxLengthSet p) libvirtDomainBlockReadIopsSecMaxLengthDesc
    (ReadIopsSecMaxLength p);;
  limit (WriteIopsSecMaxLengthSet p) libvirtDomainBlockWriteIopsSecMaxLengthDesc
    (WriteIopsSecMaxLength p);;
  limit (SizeIopsSecSet p) libvirtDomainBlockSizeIopsSecDesc (SizeIopsSec p).

(** CollectDomain, what follows a failed [GetBlockIoTune]. *)
Definition block_iotune_error (err : error) : M unit :=
  let '(Code, ok) := as_libvirt_Error err in
  if negb ok then
    if Z.eqb Code ERR_OPERATION_INVALID then
      (* This should be one-shot error *)
      emit (LogError [LStr "err"; LStr "invalid operation GetBlockIoTune";
                      LStr "msg"; LErr err])
    else if Z.eqb Code ERR_OPERATION_UNSUPPORTED then
      WriteErrorOnce ("Unsupported operation GetBlockIoTune: " +:+ Error_ err)
        "blkiotune_unsupported"
    else raise err
  else mret tt.

(** CollectDomain, the body of [for _, disk := range stat.Block]. *)
Definition block_body (domain : Domain.t) (domainName : string)
    (desc : libvirtSchema.Domain) (disk : DomainStatsBlock) : M unit :=
  (* Ugly hack to avoid getting metrics from cdrom block device *)
  if String.eqb (blk_Name disk) "hdc" || String.eqb (blk_Name disk) "hda" then mret tt
  else
    let '(DiskSource, Device) := find_disk (libvirtSchema.Devices_Disks desc) disk in
    match Device with
    | None => panic "invalid memory address or nil pointer dereference"
    | Some Device =>
        send libvirtDomainMetaBlockDesc GaugeValue (F64.of_Z 1)
          [domainName; blk_Name disk; DiskSource;
           libvirtSchema.Serial Device; libvirtSchema.Target_Bus Device;
           libvirtSchema.DiskType Device; libvirtSchema.Driver_Type Device;
           libvirtSchema.Driver_Cache Device; libvirtSchema.Driver_Discard Device]
    end;;
    block_counters domainName disk;;
    match Domain.GetBlockIoTune domain (blk_Name disk) with
    | Fail err => block_iotune_error err
    | Ok blockIOTuneParams => block_iotune domainName disk blockIOTuneParams
    end.

(** CollectDomain, [for _, net := range desc.Devices.Interfaces]: the values
    of [SourceBridge] and [VirtualInterface] after the loop. *)
Fixpoint find_interface (Interfaces : list libvirtSchema.Interface) (iface : DomainStatsNet)
    : string * string :=
  match Interfaces with
  | [] => ("", "")
  | net :: rest =>
      if String.eqb (libvirtSchema.if_Target_Device net) (net_Name iface) then
        (libvirtSchema.Source_Bridge net, libvirtSchema.Virtualport_Parameters_InterfaceID net)
      else find_interface rest iface
  end.

(** CollectDomain, the body of [for _, iface := range stat.Net]. *)
Definition net_body (domainName : string) (desc : libvirtSchema.Domain)
    (iface : DomainStatsNet) : M unit :=
  let '(SourceBridge, VirtualInterface) :=
    find_interface (libvirtSchema.Devices_Interfaces desc) iface in
  let labels := [domainName; net_Name iface] in
  when_ (negb (String.eqb SourceBridge "") || negb (String.eqb VirtualInterface ""))
    (send libvirtDomainMetaInterfacesDesc GaugeValue (F64.of_Z 1)
       [domainName; SourceBridge; net_Name iface; VirtualInterface]);;
  when_ (RxBytesSet iface)
    (send libvirtDomainInterfaceRxBytesDesc CounterValue (F64.of_N (RxBytes iface)) labels);;
  when_ (RxPktsSet iface)
    (send libvirtDomainInterfaceRxPacketsDesc CounterValue (F64.of_N (RxPkts iface)) labels);;
  when_ (RxErrsSet iface)
    (send libvirtDomainInterfaceRxErrsDesc CounterValue (F64.of_N (RxErrs iface)) labels);;
  when_ (RxDropSet iface)
    (send libvirtDomainInterfaceRxDropDesc CounterValue (F64.of_N (RxDrop iface)) labels);;
  when_ (TxBytesSet iface)
    (send libvirtDomainInterfaceTxBytesDesc CounterValue (F64.of_N (TxBytes iface)) labels);;
  when_ (TxPktsSet iface)
    (send libvirtDomainInterfaceTxPacketsDesc CounterValue (F64.of_N (TxPkts iface)) labels);;
  when_ (TxErrsSet iface)
    (send libvirtDomainInterfaceTxErrsDesc CounterValue (F64.of_N (TxErrs iface)) labels);;
  when_ (TxDropSet iface)
    (send libvirtDomainInterfaceTxDropDesc CounterValue (F64.of_N (TxDrop iface)) labels).

(** [var MemoryStats libvirtSchema.VirDomainMemoryStats]: the zero value. *)
Definition zero_MemoryStats : libvirtSchema.VirDomainMemoryStats :=
  {| libvirtSchema.MajorFault := 0; libvirtSchema.MinorFault := 0;
     libvirtSchema.Unused := 0; libvirtSchema.Available := 0;
     libvirtSchema.ActualBalloon := 0; libvirtSchema.Rss := 0;
     libvirtSchema.Usable := 0; libvirtSchema.DiskCaches := 0 |}.

(** One step of the loop of [memoryStatCollect]: the [switch] on the tag. *)
Definition memoryStat_step (MemoryStats : libvirtSchema.VirDomainMemoryStats)
    (domainmemorystat : DomainMemoryStat) : libvirtSchema.VirDomainMemoryStats :=
  let v := Val domainmemorystat in
  let '(libvirtSchema.Build_VirDomainMemoryStats majf minf unused avail balloon rss usable caches) :=
    MemoryStats in
  match Tag domainmemorystat with
  | 2 => libvirtSchema.Build_VirDomainMemoryStats v minf unused avail balloon rss usable caches
  | 3 => libvirtSchema.Build_VirDomainMemoryStats majf v unused avail balloon rss usable caches
  | 4 => libvirtSchema.Build_VirDomainMemoryStats majf minf v avail balloon rss usable caches
  | 5 => libvirtSchema.Build_VirDomainMemoryStats majf minf unused v balloon rss usable caches
  | 6 => libvirtSchema.Build_VirDomainMemoryStats majf minf unused avail v rss usable caches
  | 7 => libvirtSchema.Build_VirDomainMemoryStats majf minf unused avail balloon v usable caches
  | 8 => libvirtSchema.Build_VirDomainMemoryStats majf minf unused avail balloon rss v caches
  | 10 => libvirtSchema.Build_VirDomainMemoryStats majf minf unused avail balloon rss usable v
  | _ => MemoryStats
  end.

Definition memoryStatCollect (memorystat : list DomainMemoryStat)
    : libvirtSchema.VirDomainMemoryStats :=
  fold_left memoryStat_step memorystat zero_MemoryStats.

(** CollectDomain, the value of [usedPercent] once the statistics are there:
    [(float64(Available) - float64(Usable)) / (float64(Available) / float64(100))]
    when both are non-zero, and the zero value otherwise. *)
Definition used_percent {F : Type} (ar : arith F)
    (MemoryStats : libvirtSchema.VirDomainMemoryStats) : F :=
  let Available := libvirtSchema.Available MemoryStats in
  let Usable := libvirtSchema.Usable MemoryStats in
  if negb (N.eqb Usable 0) && negb (N.eqb Available 0) then
    a_div ar (a_sub ar (a_of_N ar Available) (a_of_N ar Usable))
             (a_div ar (a_of_N ar Available) (a_of_N ar 100))
  else a_zero ar.

(** CollectDomain, the nine memory metrics sent at the end. *)
Definition memory_metrics (domainName : string)
    (MemoryStats : libvirtSchema.VirDomainMemoryStats) (usedPercent : F64.t) : list Metric :=
  [ MustNewConstMetric libvirtDomainMemoryStatMajorFaultTotalDesc CounterValue
      (F64.of_N (libvirtSchema.MajorFault MemoryStats)) [domainName];
    MustNewConstMetric libvirtDomainMemoryStatMinorFaultTotalDesc CounterValue
      (F64.of_N (libvirtSchema.MinorFault MemoryStats)) [domainName];
    MustNewConstMetric libvirtDomainMemoryStatUnusedBytesDesc GaugeValue
      (F64.mul (F64.of_N (libvirtSchema.Unused MemoryStats)) f_1024) [domainName];
    MustNewConstMetric libvirtDomainMemoryStatAvailableBytesDesc GaugeValue
      (F64.mul (F64.of_N (libvirtSchema.Available MemoryStats)) f_1024) [domainName];
    MustNewConstMetric libvirtDomainMemoryStatActualBaloonBytesDesc GaugeValue
      (F64.mul (F64.of_N (libvirtSchema.ActualBalloon MemoryStats)) f_1024) [domainName];
    MustNewConstMetric libvirtDomainMemoryStatRssBytesDesc GaugeValue
      (F64.mul (F64.of_N (libvirtSchema.Rss MemoryStats)) f_1024) [domainName];
    MustNewConstMetric libvirtDomainMemoryStatUsableBytesDesc GaugeValue
      (F64.mul (F64.of_N (libvirtSchema.Usable MemoryStats)) f_1024) [domainName];
    MustNewConstMetric libvirtDomainMemoryStatDiskCachesBytesDesc GaugeValue
      (F64.mul (F64.of_N (libvirtSchema.DiskCaches MemoryStats)) f_1024) [domainName];
    MustNewConstMetric libvirtDomainMemoryStatUsedPercentDesc GaugeValue
      usedPercent [domainName] ].

(** CollectDomain, "Collect Memory Stats". *)
Definition collect_memory_stats (domain : Domain.t) (domainName : string) : M unit :=
  let '(MemoryStats, usedPercent) :=
    match Domain.MemoryStats domain with
    | Ok memorystat =>
        let MemoryStats := memoryStatCollect memorystat in
        (MemoryStats, used_percent binary64 MemoryStats)
    | Fail _ => (zero_MemoryStats, F64.zero)
    end in
  range_ (memory_metrics domainName MemoryStats usedPercent) (fun _ m => emit (Send m)).

(** CollectDomain extracts Prometheus metrics from a libvirt domain. *)
Definition CollectDomain (stat : DomainStats) : M unit :=
  let domain := Domain stat in
  domainName ← try_ (Domain.GetName domain);
  (* Get Domain PID and its Vcpu Pids *)
  domainPid ← GetDomainPid domainName;
  let '(domainVcpuPids, err) := GetDomainVcpuPids domain in
  match err with Some err => tolerate_operation_invalid err | None => mret tt end;;
  domainUUID ← try_ (Domain.GetUUIDString domain);
  (* Decode XML description of domain to get block device names, etc. *)
  xmlDesc ← try_ (Domain.GetXMLDesc domain);
  desc ← try_ (xml_Unmarshal W xmlDesc);
  (* Report domain info. *)
  info ← try_ (Domain.GetInfo domain);
  report_domain_info domainName domainUUID desc info;;
  match Domain.GetVcpus domain with
  | Fail err => tolerate_operation_invalid err
  | Ok domainStatsVcpu =>
      range_ domainStatsVcpu (fun _ vcpu => vcpu_info_body domainName vcpu);;
      range_ (Vcpu stat) (vcpu_stats_body domainName domainPid domainVcpuPids)
  end;;
  (* Report block device statistics. *)
  range_ (Block stat) (fun _ disk => block_body domain domainName desc disk);;
  (* Report network interface statistics. *)
  range_ (Net stat) (fun _ iface => net_body domainName desc iface);;
  (* Collect Memory Stats *)
  collect_memory_stats domain domainName.

(** Collect Storage pool stats *)
Definition CollectStoragePool (pool : StoragePool.t) : M unit :=
  match StoragePool.Refresh pool with
  | Some err => raise err
  | None =>
      pool_name ← try_ (StoragePool.GetName pool);
      pool_info ← try_ (StoragePool.GetInfo pool);
      send libvirtPoolInfoCapacity GaugeValue (F64.of_N (pool_Capacity pool_info)) [pool_name];;
      send libvirtPoolInfoAllocation GaugeValue (F64.of_N (pool_Allocation pool_info)) [pool_name];;
      send libvirtPoolInfoAvailable GaugeValue (F64.of_N (pool_Available pool_info)) [pool_name]
  end.

(** [fmt.Sprintf("%d.%d.%d", n/1000000%1000, n/1000%1000, n%1000)]. *)
Definition version_string (n : N) : string :=
  Itoa (Z.of_N ((n / 1000000) mod 1000)) +:+ "." +:+
  Itoa (Z.of_N ((n / 1000) mod 1000)) +:+ "." +:+
  Itoa (Z.of_N (n mod 1000)).

Definition set_processes (ps : list Z) : M unit :=
  fun g => (Done tt, {| errorsMap := errorsMap g; processes := ps |}, []).

(** The deferred function of CollectFromLibvirt: free every domain of the
    batch. *)
Definition free_domains (stats : list DomainStats) : M unit :=
  range_ stats (fun _ stat => emit (DomainFree (Domain.ptr (Domain stat)))).

(** CollectFromLibvirt, the body of [for _, pool := range pools]. *)
Definition pool_body (pool : StoragePool.t) : M unit :=
  err ← catch (CollectStoragePool pool);
  emit (PoolFree (StoragePool.ptr pool));;
  match err with Some err => raise err | None => mret tt end.

(** CollectFromLibvirt obtains Prometheus metrics from all domains in a
    libvirt setup. *)
Definition CollectFromLibvirt (uri : string) : M unit :=
  conn ← try_ (libvirt_NewConnect W uri);
  defer_ (emit ConnClose)
    (hypervisorVersionNum ← try_ (Connect.GetVersion conn);
     let hypervisorVersion := version_string hypervisorVersionNum in
     libvirtdVersionNum ← try_ (Connect.GetLibVersion conn);
     let libvirtdVersion := version_string libvirtdVersionNum in
     libraryVersionNum ← try_ (libvirt_GetVersion W);
     let libraryVersion := version_string libraryVersionNum in
     (* Get all host processes in order to get the VM Pid. *)
     ps ← GetProcessList (procFSPath W);
     set_processes ps;;
     send libvirtVersionsInfoDesc GaugeValue (F64.of_Z 1)
       [hypervisorVersion; libvirtdVersion; libraryVersion];;
     let '(stats, err) := Connect.GetAllDomainStats conn in
     defer_ (free_domains stats)
       (match err with
        | Some err => raise err
        | None =>
            range_ stats (fun _ stat => CollectDomain stat);;
            (* Collect pool info *)
            let '(pools, err) := Connect.ListAllStoragePools conn in
            match err with
            | Some err => raise err
            | None => range_ pools (fun _ pool => pool_body pool)
            end
        end)).

(** Collect scrapes Prometheus metrics from libvirt ([e.uri] is [uri]). *)
Definition Collect (uri : string) : M unit :=
  err ← catch (CollectFromLibvirt uri);
  match err with
  | None => send libvirtUpDesc GaugeValue (F64.of_Z 1) []
  | Some err =>
      emit (LogError [LStr "err"; LStr "failed to scrape metrics";
                      LStr "uri"; LStr uri; LStr "msg"; LErr err]);;
      send libvirtUpDesc GaugeValue (F64.of_Z 0) []
  end.

(** Describe returns metadata for all Prometheus metrics that may be
    exported: the descriptors it sends on its channel, in order. *)
Definition Describe : list Desc :=
  [ (* Status and versions *)
    libvirtUpDesc; libvirtVersionsInfoDesc;
    (* Pool info *)
    libvirtPoolInfoCapacity; libvirtPoolInfoAllocation; libvirtPoolInfoAvailable;
    (* Domain info *)
    libvirtDomainInfoMetaDesc; libvirtDomainInfoMaxMemBytesDesc;
    libvirtDomainInfoMemoryUsageBytesDesc; libvirtDomainInfoNrVirtCPUDesc;
    libvirtDomainInfoCPUTimeDesc; libvirtDomainInfoVirDomainState;
    (* VCPU info *)
    libvirtDomainVcpuStateDesc; libvirtDomainVcpuTimeDesc; libvirtDomainVcpuDelayDesc;
    libvirtDomainVcpuCPUDesc; libvirtDomainVcpuWaitDesc;
    (* Domain block stats *)
    libvirtDomainMetaBlockDesc; libvirtDomainBlockRdBytesDesc; libvirtDomainBlockRdReqDesc;
    libvirtDomainBlockRdTotalTimeSecondsDesc; libvirtDomainBlockWrBytesDesc;
    libvirtDomainBlockWrReqDesc; libvirtDomainBlockWrTotalTimesDesc;
    libvirtDomainBlockFlushReqDesc; libvirtDomainBlockFlushTotalTimeSecondsDesc;
    libvirtDomainBlockAllocationDesc; libvirtDomainBlockCapacityBytesDesc;
    libvirtDomainBlockPhysicalSizeBytesDesc;
    (* Domain net interfaces stats *)
    libvirtDomainMetaInterfacesDesc; libvirtDomainInterfaceRxBytesDesc;
    libvirtDomainInterfaceRxPacketsDesc; libvirtDomainInterfaceRxErrsDesc;
    libvirtDomainInterfaceRxDropDesc; libvirtDomainInterfaceTxBytesDesc;
    libvirtDomainInterfaceTxPacketsDesc; libvirtDomainInterfaceTxErrsDesc;
    libvirtDomainInterfaceTxDropDesc;
    (* Domain memory stats *)
    libvirtDomainMemoryStatMajorFaultTotalDesc; libvirtDomainMemoryStatMinorFaultTotalDesc;
    libvirtDomainMemoryStatUnusedBytesDesc; libvirtDomainMemoryStatAvailableBytesDesc;
    libvirtDomainMemoryStatActualBaloonBytesDesc; libvirtDomainMemoryStatRssBytesDesc;
    libvirtDomainMemoryStatUsableBytesDesc; libvirtDomainMemoryStatDiskCachesBytesDesc ].

(** *** How far a run of CollectDomain gets *)

(** The error check after [GetDomainVcpuPids] and [GetVcpus] lets the error
    pass: there is none, or it is a [libvirt.Error] with code
    [ERR_OPERATION_INVALID]. *)
Definition tolerated (err : option error) : bool :=
  match err with
  | None => true
  | Some err => let '(Code, ok) := as_libvirt_Error err in ok && Z.eqb Code ERR_OPERATION_INVALID
  end.

(** CollectDomain gets to [for cpuNum, vcpu := range stat.Vcpu]: every call
    before it succeeds (the monitor command may fail with an invalid
    operation), and so does [GetVcpus]. *)
Definition reaches_vcpu_stats (stat : DomainStats) : bool :=
  let domain := Domain stat in
  match Domain.GetName domain with
  | Fail _ => false
  | Ok _ =>
  tolerated (GetDomainVcpuPids domain).2 &&
  match Domain.GetUUIDString domain with
  | Fail _ => false
  | Ok _ =>
  match Domain.GetXMLDesc domain with
  | Fail _ => false
  | Ok xmlDesc =>
  match xml_Unmarshal W xmlDesc with
  | Fail _ => false
  | Ok _ =>
  match Domain.GetInfo domain with
  | Fail _ => false
  | Ok _ =>
  match Domain.GetVcpus domain with
  | Fail _ => false
  | Ok _ => true
  end end end end end end.

(** What CollectDomain runs once the per-VCPU statistics are reached. *)
Definition after_prelude (stat : DomainStats) (domainName domainUUID : string)
    (domainPid : Z) (domainVcpuPids : list Z) (desc : libvirtSchema.Domain)
    (info : DomainInfo) (domainStatsVcpu : list DomainVcpuInfo) : M unit :=
  report_domain_info domainName domainUUID desc info;;
  (range_ domainStatsVcpu (fun _ vcpu => vcpu_info_body domainName vcpu);;
   range_ (Vcpu stat) (vcpu_stats_body domainName domainPid domainVcpuPids));;
  range_ (Block stat) (fun _ disk => block_body (Domain stat) domainName desc disk);;
  range_ (Net stat) (fun _ iface => net_body domainName desc iface);;
  collect_memory_stats (Domain stat) domainName.

End Exporter.

(** * Observations on a run *)

(** A computation that always returns normally and leaves the package-level
    variables alone. *)
Definition total (m : M unit) : Prop :=
  forall g, outcome_of (m g) = Done tt /\ globals_of (m g) = g.

(** A computation that never ends the process. *)
Definition no_exit {A} (m : M A) : Prop :=
  forall g, outcome_of (m g) <> Exited.

(** A computation that never panics. *)
Definition no_panic {A} (m : M A) : Prop :=
  forall g msg, outcome_of (m g) <> Panicked msg.

(** Every event of every run satisfies [P]. *)
Definition emits {A} (P : event -> Prop) (m : M A) : Prop :=
  forall g, Forall P (events_of (m g)).

(** The events of the delay fallback: a delay metric or a call of the
    scheduler-statistics reader. *)
Definition vcpu_delay_event (e : event) : bool :=
  match e with
  | Send m => String.eqb (fqName (desc m)) (fqName libvirtDomainVcpuDelayDesc)
  | SchedStatCall _ _ _ => true
  | _ => false
  end.

(** The delay metric of VCPU [cpuNum] of the domain [domainName]. *)
Definition delay_metric_of (domainName : string) (cpuNum : nat) (e : event) : bool :=
  match e with
  | Send m =>
      String.eqb (fqName (desc m)) (fqName libvirtDomainVcpuDelayDesc) &&
      bool_decide (labelValues m = [domainName; FormatInt (Z.of_nat cpuNum)])
  | _ => false
  end.

(** A call of [utils.GetProcPIDSchedStat] made for VCPU [cpuNum]. *)
Definition estimator_call_of (cpuNum : nat) (e : event) : bool :=
  match e with
  | SchedStatCall i _ _ => Nat.eqb i cpuNum
  | _ => false
  end.

(** A metric of the block-device family ([libvirt_domain_block_meta] and
    [libvirt_domain_block_stats_...]) for the device [dev]: the device name
    is the second label of every descriptor of the family. *)
Definition block_metric_of (dev : string) (e : event) : bool :=
  match e with
  | Send m =>
      String.prefix "libvirt_domain_block" (fqName (desc m)) &&
      String.eqb (nth 1 (labelValues m) "") dev
  | _ => false
  end.

(** A line written to the log. *)
Definition log_event (e : event) : bool :=
  match e with LogError _ => true | _ => false end.

(** A domain handle given back. *)
Definition domain_release (e : event) : bool :=
  match e with DomainFree _ => true | _ => false end.

(** A handle given back. *)
Definition release_event (e : event) : bool :=
  match e with DomainFree _ | PoolFree _ => true | _ => false end.

(** A metric of the memory-statistics family. *)
Definition memory_metric (e : event) : bool :=
  match e with
  | Send m => String.prefix "libvirt_domain_memory_stats" (fqName (desc m))
  | _ => false
  end.

(** The "up" gauge. *)
Definition up_metric (e : event) : bool :=
  match e with
  | Send m => String.eqb (fqName (desc m)) (fqName libvirtUpDesc)
  | _ => false
  end.

(** A pool handle given back. *)
Definition pool_release (e : event) : bool :=
  match e with PoolFree _ => true | _ => false end.

(** The connection closed. *)
Definition close_event (e : event) : bool :=
  match e with ConnClose => true | _ => false end.

(** A metric sent on the channel. *)
Definition metric_event (e : event) : bool :=
  match e with Send _ => true | _ => false end.

(** The metrics among the events of a run. *)
Definition metrics_of (tr : list event) : list Metric :=
  omap (fun e => match e with Send m => Some m | _ => None end) tr.

(** What [prometheus.MustNewConstMetric] checks before it builds a metric: as
    many label values as the descriptor has label names. *)
Definition well_labelled (m : Metric) : Prop :=
  length (labelValues m) = length (variableLabels (desc m)).

(** [strings.HasSuffix]. *)
Definition strings_HasSuffix (s suffix : string) : bool :=
  String.prefix (String.rev suffix) (String.rev s).

(** The latest value that a list of memory statistics gives for a tag, and
    zero when it has none. *)
Definition latest (tag : Z) (memorystat : list DomainMemoryStat) : N :=
  List.last (map Val (List.filter (fun s => Z.eqb (Tag s) tag) memorystat)) 0%N.

(** A process whose command line [GetDomainPid] accepts for a domain. *)
Definition runs_domain (W : World) (domainName : string) (process : Z) : bool :=
  negb (String.eqb (GetCmdLine W (procFSPath W) process) "") &&
  strings_Contains (GetCmdLine W (procFSPath W) process) domainName.

(** The metadata metric of a network interface. *)
Definition interface_meta_metric (e : event) : bool :=
  match e with
  | Send m => String.eqb (fqName (desc m)) (fqName libvirtDomainMetaInterfacesDesc)
  | _ => false
  end.

(** The pools that a computation releases are the first [n] of [pools], each
    once and in order, and all of them when it returns normally. *)
Definition releases_pools (pools : list StoragePool.t) (m : M unit) : Prop :=
  forall g, exists n,
    List.filter pool_release (events_of (m g)) =
      map (fun pool => PoolFree (StoragePool.ptr pool)) (take n pools) /\
    (outcome_of (m g) = Done tt -> n = length pools).

(** A computation that neither reads nor writes [errorsMap]: started from two
    states with the same process list it ends the same way, with the same
    events and the same process list, and [errorsMap] is as it was. *)
Definition leaves_errorsMap {A} (m : M A) : Prop :=
  forall g g', processes g = processes g' ->
    outcome_of (m g) = outcome_of (m g') /\
    events_of (m g) = events_of (m g') /\
    processes (globals_of (m g)) = processes (globals_of (m g')) /\
    errorsMap (globals_of (m g)) = errorsMap g.

(** * Scenarios

    A host with one qemu process, PID 100, that runs the domain "vm-1" with
    one VCPU on thread 150 and one disk "vda"; the run-queue wait time of
    the thread is 5,000,000,000 ns.  The Go library functions are replaced
    by tables that cover the strings of the scenarios. *)

Module Scenario.

Definition ENOENT : error := OtherError "no such file or directory".

Definition Atoi (s : string) : Z * option error :=
  match s, NilEmpty.uint_of_string s with
  | String _ _, Some u => (Z.of_uint u, None)
  | _, _ => (0, Some (OtherError "invalid syntax"))
  end.

Definition Fscan3 (s : string) : result (N * N * N) :=
  if String.eqb s "1000 5000000000 7" then Ok (1000, 5000000000, 7)%N
  else Fail (OtherError "unexpected EOF").

Definition FindAllStringSubmatch (s : string) : list (list string) :=
  if String.eqb s "* CPU #0: thread_id=150 " then [["thread_id=150 "; "150"]]
  else if String.eqb s "* CPU #0: thread_id=151 " then [["thread_id=151 "; "151"]]
  else [].

Definition disk_vda : libvirtSchema.Disk :=
  {| libvirtSchema.Target_Device := "vda"; libvirtSchema.Target_Bus := "virtio";
     libvirtSchema.Source_Name := "volumes/vol-1"; libvirtSchema.Serial := "s-1";
     libvirtSchema.DiskType := "network"; libvirtSchema.Driver_Type := "raw";
     libvirtSchema.Driver_Cache := "none"; libvirtSchema.Driver_Discard := "unmap" |}.

Definition desc_vm1 : libvirtSchema.Domain :=
  {| libvirtSchema.NovaName := "instance-1"; libvirtSchema.FlavorName := "m1.small";
     libvirtSchema.UserName := "user"; libvirtSchema.UserUUID := "u-1";
     libvirtSchema.ProjectName := "project"; libvirtSchema.ProjectUUID := "p-1";
     libvirtSchema.RootType := "image"; libvirtSchema.RootUUID := "r-1";
     libvirtSchema.Devices_Disks := [disk_vda];
     libvirtSchema.Devices_Interfaces := [] |}.

Definition Unmarshal (s : string) : result libvirtSchema.Domain :=
  if String.eqb s "<domain/>" then Ok desc_vm1 else Fail (OtherError "XML syntax error").

Definition ReadFile (path : string) : string * option error :=
  if String.eqb path "/proc/100/cmdline" then ("qemu-system-x86_64 -name guest=vm-1", None)
  else if String.eqb path "/proc/100/task/150/schedstat" then ("1000 5000000000 7", None)
  else ("", Some ENOENT).

Definition ReadDir (path : string) : result (list DirEntry) :=
  if String.eqb path "/proc" then
    Ok [ {| Name := "100"; IsDir := true |};
         {| Name := "cpuinfo"; IsDir := false |};
         {| Name := "sys"; IsDir := true |} ]
  else Fail ENOENT.

Definition invalid_operation : error :=
  LibvirtError ERR_OPERATION_INVALID "Requested operation is not valid: domain is not running".
Definition unsupported_operation : error :=
  LibvirtError ERR_OPERATION_UNSUPPORTED "this function is not supported by the connection driver".
Definition no_domain : error := LibvirtError 42 "Domain not found".

Definition iotune_none : DomainBlockIoTuneParameters :=
  {| TotalBytesSecSet := false; TotalBytesSec := 0;
     ReadBytesSecSet := false; ReadBytesSec := 0;
     WriteBytesSecSet := false; WriteBytesSec := 0;
     TotalIopsSecSet := false; TotalIopsSec := 0;
     ReadIopsSecSet := false; ReadIopsSec := 0;
     WriteIopsSecSet := false; WriteIopsSec := 0;
     TotalBytesSecMaxSet := false; TotalBytesSecMax := 0;
     ReadBytesSecMaxSet := false; ReadBytesSecMax := 0;
     WriteBytesSecMaxSet := false; WriteBytesSecMax := 0;
     TotalIopsSecMaxSet := false; TotalIopsSecMax := 0;
     ReadIopsSecMaxSet := false; ReadIopsSecMax := 0;
     WriteIopsSecMaxSet := false; WriteIopsSecMax := 0;
     TotalBytesSecMaxLengthSet := false; TotalBytesSecMaxLength := 0;
     ReadBytesSecMaxLengthSet := false; ReadBytesSecMaxLength := 0;
     WriteBytesSecMaxLengthSet := false; WriteBytesSecMaxLength := 0;
     TotalIopsSecMaxLengthSet := false; TotalIopsSecMaxLength := 0;
     ReadIopsSecMaxLengthSet := false; ReadIopsSecMaxLength := 0;
     WriteIopsSecMaxLengthSet := false; WriteIopsSecMaxLength := 0;
     SizeIopsSecSet := false; SizeIopsSec := 0 |}.

(** The handle of a running domain; the parameters are the calls the
    scenarios vary. *)
Definition domain (name : string) (monitor : result string)
    (vcpus : result (list DomainVcpuInfo))
    (iotune : result DomainBlockIoTuneParameters)
    (memory : result (list DomainMemoryStat)) : Domain.t :=
  {| Domain.ptr := 1;
     Domain.GetName := Ok name;
     Domain.QemuMonitorCommand := monitor;
     Domain.GetUUIDString := Ok "uuid-1";
     Domain.GetXMLDesc := Ok "<domain/>";
     Domain.GetInfo := Ok {| info_State := 1; info_MaxMem := 2048; info_Memory := 1024;
                             info_NrVirtCpu := 1; info_CpuTime := 3000000000 |};
     Domain.GetVcpus := vcpus;
     Domain.GetBlockIoTune := fun _ => iotune;
     Domain.MemoryStats := memory |}.

Definition monitor_150 : result string := Ok "* CPU #0: thread_id=150 ".
Definition monitor_151 : result string := Ok "* CPU #0: thread_id=151 ".
Definition vcpus_1 : result (list DomainVcpuInfo) :=
  Ok [ {| vcpu_Number := 0; vcpu_State := 1; vcpu_CpuTime := 2000000000; vcpu_Cpu := 3 |} ].
Definition memory_1 : result (list DomainMemoryStat) :=
  Ok [ {| Tag := 5; Val := 1000 |}; {| Tag := 8; Val := 400 |} ].

Definition vcpu_delay : DomainStatsVcpu :=
  {| WaitSet := false; Wait := 0; DelaySet := true; Delay := 7000000000 |}.
Definition vcpu_no_delay : DomainStatsVcpu :=
  {| WaitSet := false; Wait := 0; DelaySet := false; Delay := 0 |}.

Definition block (name : string) : DomainStatsBlock :=
  {| blk_Name := name; PathSet := false; Path := "";
     RdBytesSet := true; RdBytes := 4096; RdReqsSet := false; RdReqs := 0;
     RdTimesSet := false; RdTimes := 0; WrBytesSet := false; WrBytes := 0;
     WrReqsSet := false; WrReqs := 0; WrTimesSet := false; WrTimes := 0;
     FlReqsSet := false; FlReqs := 0; FlTimesSet := false; FlTimes := 0;
     AllocationSet := false; blk_Allocation := 0;
     CapacitySet := false; blk_Capacity := 0;
     PhysicalSet := false; Physical := 0 |}.

Definition stats (d : Domain.t) (vcpu : DomainStatsVcpu) (blocks : list DomainStatsBlock)
    : DomainStats :=
  {| Domain := d; Vcpu := [vcpu]; Block := blocks; Net := [] |}.

(** The hypervisor reports the delay of VCPU 0. *)
Definition stat_delay : DomainStats :=
  stats (domain "vm-1" monitor_150 vcpus_1 (Ok iotune_none) memory_1) vcpu_delay [].
(** The same, and [GetVcpus] fails with an invalid operation. *)
Definition stat_delay_no_vcpus : DomainStats :=
  stats (domain "vm-1" monitor_150 (Fail invalid_operation) (Ok iotune_none) memory_1)
    vcpu_delay [].
(** No explicit delay; the VCPU is thread 150, whose schedstat is there. *)
Definition stat_estimated : DomainStats :=
  stats (domain "vm-1" monitor_150 vcpus_1 (Ok iotune_none) memory_1) vcpu_no_delay [].
(** No explicit delay; the VCPU is thread 151, which has no schedstat. *)
Definition stat_no_schedstat : DomainStats :=
  stats (domain "vm-1" monitor_151 vcpus_1 (Ok iotune_none) memory_1) vcpu_no_delay [].
(** A domain that no process of the host runs. *)
Definition stat_unmatched : DomainStats :=
  stats (domain "vm-2" monitor_150 vcpus_1 (Ok iotune_none) memory_1) vcpu_no_delay [].
(** The memory statistics call fails. *)
Definition stat_no_memory : DomainStats :=
  stats (domain "vm-1" monitor_150 vcpus_1 (Ok iotune_none) (Fail invalid_operation))
    vcpu_delay [].
(** A block device "vdb" that the XML description does not have. *)
Definition stat_unknown_disk : DomainStats :=
  stats (domain "vm-1" monitor_150 vcpus_1 (Ok iotune_none) memory_1) vcpu_delay
    [block "vdb"].
(** A CD-ROM "hdc" next to the disk "vda". *)
Definition stat_cdrom : DomainStats :=
  stats (domain "vm-1" monitor_150 vcpus_1 (Ok iotune_none) memory_1) vcpu_delay
    [block "hdc"; block "vda"].
(** The disk "vda", and [GetBlockIoTune] fails. *)
Definition stat_iotune (err : error) : DomainStats :=
  stats (domain "vm-1" monitor_150 vcpus_1 (Fail err) memory_1) vcpu_delay [block "vda"].

Definition pool (ptr : nat) (name : string) (refresh : option error) : StoragePool.t :=
  {| StoragePool.ptr := ptr; StoragePool.Refresh := refresh;
     StoragePool.GetName := Ok name;
     StoragePool.GetInfo :=
       Ok {| pool_Capacity := 100; pool_Allocation := 40; pool_Available := 60 |} |}.

Definition conn (batch : list DomainStats * option error)
    (pools : list StoragePool.t) : Connect.t :=
  {| Connect.GetVersion := Ok 6002000%N; Connect.GetLibVersion := Ok 7002000%N;
     Connect.GetAllDomainStats := batch;
     Connect.ListAllStoragePools := (pools, None) |}.

Definition world (c : Connect.t) : World :=
  {| filepath_Clean := fun path => path;
     fmt_Fscan3 := Fscan3;
     strconv_Atoi := Atoi;
     regThreadID_FindAllStringSubmatch := FindAllStringSubmatch;
     xml_Unmarshal := Unmarshal;
     procFSPath := "/proc";
     os_ReadFile := ReadFile;
     os_ReadDir := ReadDir;
     libvirt_NewConnect := fun _ => Ok c;
     libvirt_GetVersion := Ok 8000000%N |}.

(** One domain and one healthy pool. *)
Definition host : World := world (conn ([stat_estimated], None) [pool 1 "default" None]).
(** The batched statistics call fails. *)
Definition host_batch_failure : World :=
  world (conn ([], Some no_domain) [pool 1 "default" None]).
(** Two active pools; refreshing the first one fails. *)
Definition host_two_pools : World :=
  world (conn ([stat_estimated], None)
           [pool 1 "default" (Some no_domain); pool 2 "images" None]).

(** The package-level variables in the middle of a scrape: the process
    list is read, nothing is logged yet. *)
Definition scraping : globals := {| errorsMap := ∅; processes := [100] |}.
(** The package-level variables after [main] has initialised them. *)
Definition started : globals := {| errorsMap := ∅; processes := [] |}.

(** A guest with 2^53 + 3 KiB of available memory, of which 1 KiB is
    usable. *)
Definition memorystat_huge : list DomainMemoryStat :=
  [ {| Tag := 5; Val := 9007199254740995 |}; {| Tag := 8; Val := 1 |} ].
Definition huge_memory : libvirtSchema.VirDomainMemoryStats :=
  memoryStatCollect memorystat_huge.
Definition stat_huge_memory : DomainStats :=
  stats (domain "vm-1" monitor_150 vcpus_1 (Ok iotune_none) (Ok memorystat_huge))
    vcpu_delay [].

(** The monitor command fails with an invalid operation. *)
Definition stat_no_monitor : DomainStats :=
  stats (domain "vm-1" (Fail invalid_operation) vcpus_1 (Ok iotune_none) memory_1)
    vcpu_delay [].
(** [GetVcpus] fails because the domain is gone. *)
Definition stat_vcpus_lost : DomainStats :=
  stats (domain "vm-1" monitor_150 (Fail no_domain) (Ok iotune_none) memory_1)
    vcpu_delay [].
(** Two domains, the first of which is gone by the time it is collected. *)
Definition host_failing_domain : World :=
  world (conn ([stat_vcpus_lost; stat_estimated], None) [pool 1 "default" None]).

(** The interface "vnet0", which the XML description of "vm-1" does not
    have. *)
Definition iface_vnet0 : DomainStatsNet :=
  {| net_Name := "vnet0";
     RxBytesSet := true; RxBytes := 1500; RxPktsSet := false; RxPkts := 0;
     RxErrsSet := false; RxErrs := 0; RxDropSet := false; RxDrop := 0;
     TxBytesSet := false; TxBytes := 0; TxPktsSet := false; TxPkts := 0;
     TxErrsSet := false; TxErrs := 0; TxDropSet := false; TxDrop := 0 |}.

(** A host seen through another connection result and another procfs
    mount point. *)
Definition remote (connect : result Connect.t) (procfs : string) : World :=
  {| filepath_Clean := fun path => path;
     fmt_Fscan3 := Fscan3;
     strconv_Atoi := Atoi;
     regThreadID_FindAllStringSubmatch := FindAllStringSubmatch;
     xml_Unmarshal := Unmarshal;
     procFSPath := procfs;
     os_ReadFile := ReadFile;
     os_ReadDir := ReadDir;
     libvirt_NewConnect := fun _ => connect;
     libvirt_GetVersion := Ok 8000000%N |}.

(** The libvirt daemon does not answer. *)
Definition connection_refused : error :=
  LibvirtError 38 "Failed to connect socket to '/var/run/libvirt/libvirt-sock'".
Definition host_unreachable : World := remote (Fail connection_refused) "/proc".
(** The procfs mount point given on the command line does not exist. *)
Definition host_no_procfs : World :=
  remote (Ok (conn ([stat_estimated], None) [pool 1 "default" None])) "/nonexistent".

End Scenario.

(** * Reasoning about runs *)

Section Runs.

Context {A B : Type}.

Lemma run_bind (m : M A) (f : A -> M B) (g : globals) :
  (m ≫= f) g =
  match m g with
  | (Done a, g1, tr1) => let '(r, g2, tr2) := f a g1 in (r, g2, tr1 ++ tr2)
  | (Raised err, g1, tr1) => (Raised err, g1, tr1)
  | (Panicked msg, g1, tr1) => (Panicked msg, g1, tr1)
  | (Exited, g1, tr1) => (Exited, g1, tr1)
  end.
Proof. reflexivity. Qed.

Lemma run_bind_Done (m : M A) (f : A -> M B) g a g1 tr1 :
  m g = (Done a, g1, tr1) ->
  (m ≫= f) g = (outcome_of (f a g1), globals_of (f a g1), tr1 ++ events_of (f a g1)).
Proof.
  intros Hm. rewrite run_bind, Hm. destruct (f a g1) as [[r g2] tr2]. reflexivity.
Qed.

Lemma events_bind (m : M A) (f : A -> M B) g :
  events_of ((m ≫= f) g) =
  events_of (m g) ++
  match outcome_of (m g) with
  | Done a => events_of (f a (globals_of (m g)))
  | _ => []
  end.
Proof.
  rewrite run_bind. destruct (m g) as [[[a|err|msg|] g1] tr1]; cbn;
    try (rewrite app_nil_r; reflexivity).
  destruct (f a g1) as [[r g2] tr2]. reflexivity.
Qed.

End Runs.

Section Total.

Lemma total_run (m : M unit) g : total m -> m g = (Done tt, g, events_of (m g)).
Proof.
  intros Hm. destruct (Hm g) as [Ho Hg]. destruct (m g) as [[r g1] tr].
  cbn in *. subst. reflexivity.
Qed.

Lemma total_ret : total (mret tt).
Proof. intros g. split; reflexivity. Qed.

Lemma total_emit e : total (emit e).
Proof. intros g. split; reflexivity. Qed.

Lemma total_send d vt v labels : total (send d vt v labels).
Proof. apply total_emit. Qed.

Lemma total_bind (m k : M unit) : total m -> total k -> total (m;; k).
Proof.
  intros Hm Hk g. rewrite (run_bind_Done m _ g tt g (events_of (m g)) (total_run m g Hm)).
  apply Hk.
Qed.

Lemma total_when b (m : M unit) : total m -> total (when_ b m).
Proof. destruct b; [trivial | intros _; apply total_ret]. Qed.

Lemma total_range_from {X} (body : nat -> X -> M unit) l :
  (forall i x, total (body i x)) -> forall i, total (range_from i l body).
Proof.
  intros Hb. induction l as [|x l IH]; intros i; cbn [range_from].
  - apply total_ret.
  - apply total_bind; auto.
Qed.

Lemma total_range {X} (body : nat -> X -> M unit) l :
  (forall i x, total (body i x)) -> total (range_ l body).
Proof. intros Hb. apply total_range_from, Hb. Qed.

Lemma events_seq_total {X} (m : M unit) (k : M X) g :
  total m -> events_of ((m;; k) g) = events_of (m g) ++ events_of (k g).
Proof.
  intros Hm. rewrite (run_bind_Done m _ g tt g (events_of (m g)) (total_run m g Hm)).
  reflexivity.
Qed.

Lemma outcome_seq_total {X} (m : M unit) (k : M X) g :
  total m -> outcome_of ((m;; k) g) = outcome_of (k g).
Proof.
  intros Hm. rewrite (run_bind_Done m _ g tt g (events_of (m g)) (total_run m g Hm)).
  reflexivity.
Qed.

End Total.

Section Emits.

Variable P : event -> Prop.

Lemma emits_ret {X} (x : X) : emits P (mret x).
Proof. intros g. constructor. Qed.

Lemma emits_raise {X} err : emits P (@raise X err).
Proof. intros g. constructor. Qed.

Lemma emits_panic {X} msg : emits P (@panic X msg).
Proof. intros g. constructor. Qed.

Lemma emits_fatal {X} : emits P (@fatal X).
Proof. intros g. constructor. Qed.

Lemma emits_try {X} (r : result X) : emits P (try_ r).
Proof. destruct r; [apply emits_ret | apply emits_raise]. Qed.

Lemma emits_emit e : P e -> emits P (emit e).
Proof. intros He g. repeat constructor. exact He. Qed.

Lemma emits_send d vt v labels :
  P (Send (MustNewConstMetric d vt v labels)) -> emits P (send d vt v labels).
Proof. apply emits_emit. Qed.

Lemma emits_bind {X Y} (m : M X) (f : X -> M Y) :
  emits P m -> (forall x, emits P (f x)) -> emits P (m ≫= f).
Proof.
  intros Hm Hf g. rewrite events_bind. apply Forall_app. split; [apply Hm|].
  destruct (outcome_of (m g)); try constructor. apply Hf.
Qed.

Lemma emits_when b (m : M unit) : emits P m -> emits P (when_ b m).
Proof. destruct b; [trivial | intros _; apply emits_ret]. Qed.

Lemma emits_range_from {X} (body : nat -> X -> M unit) l :
  (forall i x, x ∈ l -> emits P (body i x)) -> forall i, emits P (range_from i l body).
Proof.
  induction l as [|x l IH]; intros Hb i; cbn [range_from].
  - apply emits_ret.
  - apply emits_bind; [apply Hb; left | intros _; apply IH].
    intros j y Hy. apply Hb. right. exact Hy.
Qed.

Lemma emits_range {X} (body : nat -> X -> M unit) l :
  (forall i x, x ∈ l -> emits P (body i x)) -> emits P (range_ l body).
Proof. intros Hb. apply emits_range_from, Hb. Qed.

Lemma emits_range_from_lookup {X} (body : nat -> X -> M unit) l :
  forall s, (forall k x, l !! k = Some x -> emits P (body (s + k)%nat x)) ->
  emits P (range_from s l body).
Proof.
  induction l as [|x l IH]; intros s Hb; cbn [range_from].
  - apply emits_ret.
  - apply emits_bind.
    + specialize (Hb 0%nat x eq_refl). rewrite Nat.add_0_r in Hb. exact Hb.
    + intros _. apply IH. intros k y Hk. specialize (Hb (S k) y Hk).
      rewrite Nat.add_succ_r in Hb. exact Hb.
Qed.

Lemma emits_range_lookup {X} (body : nat -> X -> M unit) l :
  (forall k x, l !! k = Some x -> emits P (body k x)) -> emits P (range_ l body).
Proof. intros Hb. apply emits_range_from_lookup. exact Hb. Qed.

Lemma emits_catch (m : M unit) : emits P m -> emits P (catch m).
Proof.
  intros Hm g. specialize (Hm g). unfold catch.
  destruct (m g) as [[[a|err|msg|] g1] tr1]; exact Hm.
Qed.

Lemma emits_defer {X} (cleanup : M unit) (body : M X) :
  emits P cleanup -> emits P body -> emits P (defer_ cleanup body).
Proof.
  intros Hc Hb g. specialize (Hb g). unfold defer_.
  destruct (body g) as [[r g1] tr1]. specialize (Hc g1).
  destruct (cleanup g1) as [[r2 g2] tr2]. cbn in *.
  destruct r; cbn; try apply Forall_app; auto.
Qed.

End Emits.

Section NoExit.

Lemma no_exit_ret {X} (x : X) : no_exit (mret x).
Proof. intros g. discriminate. Qed.

Lemma no_exit_raise {X} err : no_exit (@raise X err).
Proof. intros g. discriminate. Qed.

Lemma no_exit_panic {X} msg : no_exit (@panic X msg).
Proof. intros g. discriminate. Qed.

Lemma no_exit_try {X} (r : result X) : no_exit (try_ r).
Proof. destruct r; [apply no_exit_ret | apply no_exit_raise]. Qed.

Lemma no_exit_emit e : no_exit (emit e).
Proof. intros g. discriminate. Qed.

Lemma no_exit_send d vt v labels : no_exit (send d vt v labels).
Proof. apply no_exit_emit. Qed.

Lemma no_exit_bind {X Y} (m : M X) (f : X -> M Y) :
  no_exit m -> (forall x, no_exit (f x)) -> no_exit (m ≫= f).
Proof.
  intros Hm Hf g. rewrite run_bind. specialize (Hm g).
  destruct (m g) as [[[a|err|msg|] g1] tr1]; cbn in *; try discriminate; [|congruence].
  specialize (Hf a g1). destruct (f a g1) as [[r g2] tr2]. exact Hf.
Qed.

Lemma no_exit_when b (m : M unit) : no_exit m -> no_exit (when_ b m).
Proof. destruct b; [trivial | intros _; apply no_exit_ret]. Qed.

Lemma no_exit_range_from {X} (body : nat -> X -> M unit) l :
  (forall i x, no_exit (body i x)) -> forall i, no_exit (range_from i l body).
Proof.
  intros Hb. induction l as [|x l IH]; intros i; cbn [range_from].
  - apply no_exit_ret.
  - apply no_exit_bind; [apply Hb | intros _; apply IH].
Qed.

Lemma no_exit_range {X} (body : nat -> X -> M unit) l :
  (forall i x, no_exit (body i x)) -> no_exit (range_ l body).
Proof. intros Hb. apply no_exit_range_from, Hb. Qed.

Lemma no_exit_catch (m : M unit) : no_exit m -> no_exit (catch m).
Proof.
  intros Hm g. specialize (Hm g). unfold catch.
  destruct (m g) as [[[a|err|msg|] g1] tr1]; cbn in *; congruence.
Qed.

Lemma no_exit_defer {X} (cleanup : M unit) (body : M X) :
  no_exit body -> no_exit (defer_ cleanup body).
Proof.
  intros Hb g. specialize (Hb g). unfold defer_.
  destruct (body g) as [[r g1] tr1]. destruct (cleanup g1) as [[r2 g2] tr2].
  destruct r; cbn in *; congruence.
Qed.

Lemma events_defer {X} (cleanup : M unit) (body : M X) g :
  no_exit body ->
  events_of (defer_ cleanup body g) =
  events_of (body g) ++ events_of (cleanup (globals_of (body g))).
Proof.
  intros Hb. specialize (Hb g). unfold defer_.
  destruct (body g) as [[r g1] tr1]. unfold globals_of, events_of, outcome_of in *.
  cbn [fst snd] in *. destruct (cleanup g1) as [[r2 g2] tr2].
  destruct r; cbn [fst snd]; congruence.
Qed.

End NoExit.

(** * Properties of the collection engine *)

Lemma Itoa_inj (a b : Z) : Itoa a = Itoa b -> a = b.
Proof.
  unfold Itoa. intros H. apply (f_equal NilEmpty.int_of_string) in H.
  rewrite !NilEmpty.isi in H. injection H as H. apply DecimalZ.to_int_inj, H.
Qed.

Lemma filter_nil_Forall {X} (p : X -> bool) (l : list X) :
  Forall (fun x => p x = false) l -> List.filter p l = [].
Proof.
  induction 1 as [|x l Hx _ IH]; [reflexivity|]. cbn. rewrite Hx. exact IH.
Qed.

Lemma filter_nil_emits {X} (p : event -> bool) (m : M X) g :
  emits (fun e => p e = false) m -> List.filter p (events_of (m g)) = [].
Proof. intros Hm. apply filter_nil_Forall, Hm. Qed.

(** A loop whose bodies always return: what one iteration contributes. *)
Lemma filter_range_from_nil {X} (p : event -> bool) (body : nat -> X -> M unit) l :
  (forall j y, total (body j y)) ->
  forall s g,
  (forall k y g', l !! k = Some y -> List.filter p (events_of (body (s + k)%nat y g')) = []) ->
  List.filter p (events_of (range_from s l body g)) = [].
Proof.
  intros Ht. induction l as [|x0 l IH]; intros s g Hnil; cbn [range_from].
  - reflexivity.
  - rewrite events_seq_total by apply Ht. rewrite List.filter_app.
    specialize (Hnil 0%nat x0 g eq_refl) as H0. rewrite Nat.add_0_r in H0. rewrite H0.
    apply IH. intros k y g' Hk. specialize (Hnil (S k) y g' Hk).
    rewrite Nat.add_succ_r in Hnil. exact Hnil.
Qed.

Lemma filter_range_from {X} (p : event -> bool) (body : nat -> X -> M unit) l :
  (forall j y, total (body j y)) ->
  forall i x s g,
  l !! i = Some x ->
  (forall k y g', k <> i -> l !! k = Some y ->
     List.filter p (events_of (body (s + k)%nat y g')) = []) ->
  List.filter p (events_of (range_from s l body g)) =
  List.filter p (events_of (body (s + i)%nat x g)).
Proof.
  intros Ht. induction l as [|x0 l IH]; intros i x s g Hi Hnil; [discriminate|].
  cbn [range_from]. rewrite events_seq_total by apply Ht. rewrite List.filter_app.
  destruct i as [|i].
  - injection Hi as ->. rewrite Nat.add_0_r.
    rewrite (filter_range_from_nil p body l Ht (S s) g), app_nil_r; [reflexivity|].
    intros k y g' Hk. specialize (Hnil (S k) y g' (Nat.neq_succ_0 k) Hk).
    rewrite Nat.add_succ_r in Hnil. exact Hnil.
  - specialize (Hnil 0%nat x0 g (Nat.neq_0_succ i) eq_refl) as H0.
    rewrite Nat.add_0_r in H0. rewrite H0. cbn [app].
    rewrite (IH i x (S s) g Hi).
    + rewrite Nat.add_succ_r. reflexivity.
    + intros k y g' Hki Hk. specialize (Hnil (S k) y g').
      rewrite Nat.add_succ_r in Hnil. apply Hnil; [congruence | exact Hk].
Qed.

(** The events of a loop whose bodies return normally contain, in one piece,
    the events of each iteration. *)
Lemma events_range_from_split {X} (body : nat -> X -> M unit) l :
  (forall j y, total (body j y)) ->
  forall i x s g,
  l !! i = Some x ->
  exists before after,
    events_of (range_from s l body g) = before ++ events_of (body (s + i)%nat x g) ++ after.
Proof.
  intros Ht. induction l as [|x0 l IH]; intros i x s g Hi; [discriminate|].
  cbn [range_from]. rewrite events_seq_total by apply Ht.
  destruct i as [|i].
  - injection Hi as ->. rewrite Nat.add_0_r.
    exists [], (events_of (range_from (S s) l body g)). reflexivity.
  - destruct (IH i x (S s) g Hi) as (before & after & ->).
    exists (events_of (body s x0 g) ++ before), after.
    rewrite Nat.add_succ_r, <- app_assoc. reflexivity.
Qed.

Lemma run_range_emit (l : list Metric) i g :
  range_from i l (fun _ m => emit (Send m)) g = (Done tt, g, map Send l).
Proof.
  revert i. induction l as [|m l IH]; intros i; [reflexivity|].
  cbn [range_from]. rewrite (run_bind_Done _ _ g tt g [Send m] eq_refl), IH. reflexivity.
Qed.

Lemma emits_WriteErrorOnce (P : event -> Prop) err name :
  P (LogError [LStr "err"; LStr err]) -> emits P (WriteErrorOnce err name).
Proof.
  intros HP g. unfold WriteErrorOnce. destruct (bool_decide _); repeat constructor; exact HP.
Qed.

(** Walks down a computation, leaving the events to [leaf]. *)
Ltac emits_with special leaf :=
  repeat first
    [ special
    | apply emits_ret | apply emits_raise | apply emits_panic | apply emits_fatal
    | apply emits_try
    | apply emits_send; cbv beta; leaf
    | apply emits_emit; cbv beta; leaf
    | apply emits_WriteErrorOnce; cbv beta; leaf
    | apply emits_when
    | apply emits_range; intros ? ? ?
    | apply emits_bind; [| intros ?]
    | match goal with
      | |- emits _ (match ?x with _ => _ end) => destruct x eqn:?
      end ].

Ltac emits_tac leaf := emits_with ltac:(fail) leaf.

Ltac no_exit_with special :=
  repeat first
    [ special
    | apply no_exit_ret | apply no_exit_raise | apply no_exit_panic
    | apply no_exit_try | apply no_exit_send | apply no_exit_emit
    | apply no_exit_when
    | apply no_exit_range; intros ? ?
    | apply no_exit_bind; [| intros ?]
    | match goal with
      | |- no_exit (match ?x with _ => _ end) => destruct x
      end ].

Ltac total_tac :=
  repeat first
    [ apply total_ret | apply total_send | apply total_emit | apply total_when
    | apply total_range; intros ? ?
    | apply total_bind
    | match goal with
      | |- total (match ?x with _ => _ end) => destruct x
      end ].

Section Properties.

Variable W : World.

(** ** The stages of CollectDomain *)

Lemma report_domain_info_total domainName domainUUID desc info :
  total (report_domain_info domainName domainUUID desc info).
Proof. unfold report_domain_info. total_tac. Qed.

Lemma vcpu_info_body_total domainName vcpu : total (vcpu_info_body domainName vcpu).
Proof. unfold vcpu_info_body. total_tac. Qed.

Lemma vcpu_stats_body_total domainName domainPid domainVcpuPids cpuNum vcpu :
  total (vcpu_stats_body W domainName domainPid domainVcpuPids cpuNum vcpu).
Proof. unfold vcpu_stats_body. total_tac. Qed.

Lemma report_domain_info_no_delay domainName domainUUID desc info :
  emits (fun e => vcpu_delay_event e = false)
    (report_domain_info domainName domainUUID desc info).
Proof. unfold report_domain_info. emits_tac ltac:(reflexivity). Qed.

Lemma vcpu_info_body_no_delay domainName vcpu :
  emits (fun e => vcpu_delay_event e = false) (vcpu_info_body domainName vcpu).
Proof. unfold vcpu_info_body. emits_tac ltac:(reflexivity). Qed.

Lemma block_body_no_delay domain domainName desc disk :
  emits (fun e => vcpu_delay_event e = false) (block_body domain domainName desc disk).
Proof.
  unfold block_body, block_counters, block_iotune_error, block_iotune.
  emits_tac ltac:(reflexivity).
Qed.

Lemma net_body_no_delay domainName desc iface :
  emits (fun e => vcpu_delay_event e = false) (net_body domainName desc iface).
Proof. unfold net_body. emits_tac ltac:(reflexivity). Qed.

Lemma run_collect_memory_stats domain domainName g :
  collect_memory_stats domain domainName g =
  (Done tt, g,
   map Send
     (match Domain.MemoryStats domain with
      | Ok memorystat =>
          memory_metrics domainName (memoryStatCollect memorystat)
            (used_percent binary64 (memoryStatCollect memorystat))
      | Fail _ => memory_metrics domainName zero_MemoryStats F64.zero
      end)).
Proof.
  unfold collect_memory_stats, range_.
  destruct (Domain.MemoryStats domain); apply run_range_emit.
Qed.

Lemma collect_memory_stats_no_delay domain domainName :
  emits (fun e => vcpu_delay_event e = false) (collect_memory_stats domain domainName).
Proof.
  intros g. rewrite run_collect_memory_stats. unfold events_of. cbn [snd].
  destruct (Domain.MemoryStats domain); repeat constructor.
Qed.

(** ** Reaching the per-VCPU statistics *)

Lemma run_bind_pure {X Y} (m : M X) (a : X) (f : X -> M Y) g :
  m g = (Done a, g, []) -> (m ≫= f) g = f a g.
Proof.
  intros H. rewrite run_bind, H. destruct (f a g) as [[r g2] tr2]. reflexivity.
Qed.

Lemma tolerated_run err g :
  tolerated (Some err) = true -> tolerate_operation_invalid err g = (Done tt, g, []).
Proof.
  unfold tolerated, tolerate_operation_invalid.
  destruct (as_libvirt_Error err) as [Code ok]. intros H.
  apply andb_prop in H as [-> ->]. reflexivity.
Qed.

Lemma run_CollectDomain_reached stat g domainName :
  reaches_vcpu_stats W stat = true ->
  Domain.GetName (Domain stat) = Ok domainName ->
  exists domainUUID desc info domainStatsVcpu,
    Domain.GetVcpus (Domain stat) = Ok domainStatsVcpu /\
    CollectDomain W stat g =
    after_prelude W stat domainName domainUUID (GetDomainPid_loop W domainName (processes g))
      (GetDomainVcpuPids W (Domain stat)).1 desc info domainStatsVcpu g.
Proof.
  unfold reaches_vcpu_stats, CollectDomain. intros Hr Hname. rewrite Hname in *.
  apply andb_prop in Hr as [Htol Hr].
  destruct (Domain.GetUUIDString (Domain stat)) as [domainUUID|]; [|discriminate].
  destruct (Domain.GetXMLDesc (Domain stat)) as [xmlDesc|]; [|discriminate].
  destruct (xml_Unmarshal W xmlDesc) as [desc|] eqn:Hdesc; [|discriminate].
  destruct (Domain.GetInfo (Domain stat)) as [info|]; [|discriminate].
  destruct (Domain.GetVcpus (Domain stat)) as [domainStatsVcpu|]; [|discriminate].
  exists domainUUID, desc, info, domainStatsVcpu. split; [reflexivity|].
  rewrite (run_bind_pure _ domainName) by reflexivity.
  rewrite (run_bind_pure _ (GetDomainPid_loop W domainName (processes g))) by reflexivity.
  destruct (GetDomainVcpuPids W (Domain stat)) as [domainVcpuPids err]. cbn [fst snd] in *.
  rewrite (run_bind_pure _ tt).
  2:{ destruct err as [err|]; [apply tolerated_run, Htol | reflexivity]. }
  rewrite (run_bind_pure _ domainUUID) by reflexivity.
  rewrite (run_bind_pure _ xmlDesc) by reflexivity.
  rewrite Hdesc, (run_bind_pure _ desc) by reflexivity.
  rewrite (run_bind_pure _ info) by reflexivity.
  reflexivity.
Qed.

Lemma after_vcpus_no_delay stat domainName desc :
  emits (fun e => vcpu_delay_event e = false)
    (range_ (Block stat) (fun _ disk => block_body (Domain stat) domainName desc disk);;
     range_ (Net stat) (fun _ iface => net_body domainName desc iface);;
     collect_memory_stats (Domain stat) domainName).
Proof.
  apply emits_bind; [apply emits_range; intros; apply block_body_no_delay | intros _].
  apply emits_bind; [apply emits_range; intros; apply net_body_no_delay | intros _].
  apply collect_memory_stats_no_delay.
Qed.

(** Once the per-VCPU statistics are reached, the delay metrics and the
    calls of the scheduler-statistics reader are those of the loop over
    [stat.Vcpu]. *)
Lemma CollectDomain_vcpu_filter (p : event -> bool) stat g domainName :
  (forall e, vcpu_delay_event e = false -> p e = false) ->
  reaches_vcpu_stats W stat = true ->
  Domain.GetName (Domain stat) = Ok domainName ->
  List.filter p (events_of (CollectDomain W stat g)) =
  List.filter p
    (events_of
       (range_ (Vcpu stat)
          (vcpu_stats_body W domainName (GetDomainPid_loop W domainName (processes g))
             (GetDomainVcpuPids W (Domain stat)).1) g)).
Proof.
  intros Hp Hr Hname.
  destruct (run_CollectDomain_reached stat g domainName Hr Hname)
    as (domainUUID & desc & info & domainStatsVcpu & _ & ->).
  unfold after_prelude.
  assert (Hnil : forall X (m : M X) g', emits (fun e => vcpu_delay_event e = false) m ->
                 List.filter p (events_of (m g')) = []).
  { intros X m g' Hm. apply filter_nil_Forall. eapply Forall_impl; [apply Hm | exact Hp]. }
  rewrite events_seq_total by apply report_domain_info_total.
  rewrite List.filter_app, Hnil by apply report_domain_info_no_delay. cbn [app].
  rewrite events_seq_total.
  2:{ apply total_bind; apply total_range; intros.
      - apply vcpu_info_body_total.
      - apply vcpu_stats_body_total. }
  rewrite List.filter_app, (Hnil _ (range_ (Block stat) _;; _))
    by apply after_vcpus_no_delay.
  rewrite app_nil_r.
  rewrite events_seq_total by (apply total_range; intros; apply vcpu_info_body_total).
  rewrite List.filter_app, Hnil; [reflexivity|].
  apply emits_range. intros. apply vcpu_info_body_no_delay.
Qed.

(** ** The loop over [stat.Vcpu] *)

Lemma emits_GetDomainPid (P : event -> Prop) domainName : emits P (GetDomainPid W domainName).
Proof. intros g. constructor. Qed.

(** The events of one iteration. *)
Lemma events_vcpu_stats_body domainName domainPid domainVcpuPids cpuNum vcpu g :
  events_of (vcpu_stats_body W domainName domainPid domainVcpuPids cpuNum vcpu g) =
  (if WaitSet vcpu then
     [Send (MustNewConstMetric libvirtDomainVcpuWaitDesc CounterValue
              (nsec_to_sec (F64.of_N (Wait vcpu))) [domainName; FormatInt (Z.of_nat cpuNum)])]
   else []) ++
  (if DelaySet vcpu then
     [Send (MustNewConstMetric libvirtDomainVcpuDelayDesc CounterValue
              (F64.div (F64.of_N (Delay vcpu)) f_1e9)
              [domainName; FormatInt (Z.of_nat cpuNum)])]
   else
     match domainVcpuPids !! cpuNum with
     | None => []
     | Some vcpuPid =>
         let procPath := filepath_Join W [procFSPath W; Itoa domainPid; "task"] in
         SchedStatCall cpuNum procPath vcpuPid ::
         match GetProcPIDSchedStat W procPath vcpuPid with
         | Ok procFSSchedStat =>
             [Send (MustNewConstMetric libvirtDomainVcpuDelayDesc CounterValue
                      (F64.div (F64.of_N (Runqueue procFSSchedStat)) f_1e9)
                      [domainName; FormatInt (Z.of_nat cpuNum)])]
         | Fail err =>
             [LogError [LStr "err"; LStr "unable to collect vcpu delay metric";
                        LStr "msg"; LErr err]]
         end
     end).
Proof.
  unfold vcpu_stats_body.
  rewrite events_seq_total by (apply total_when, total_send). f_equal.
  - destruct (WaitSet vcpu); reflexivity.
  - destruct (DelaySet vcpu); [reflexivity|].
    destruct (Nat.leb_spec (length domainVcpuPids) cpuNum) as [Hle|Hlt].
    + rewrite (proj2 (lookup_ge_None domainVcpuPids cpuNum)) by exact Hle. reflexivity.
    + destruct (lookup_lt_is_Some_2 domainVcpuPids cpuNum Hlt) as [vcpuPid Hpid].
      rewrite Hpid, (nth_lookup_Some _ _ 0 _ Hpid). cbv zeta.
      rewrite events_seq_total by apply total_emit.
      destruct (GetProcPIDSchedStat W _ vcpuPid); reflexivity.
Qed.

Lemma delay_metric_of_self domainName cpuNum vt v :
  delay_metric_of domainName cpuNum
    (Send (MustNewConstMetric libvirtDomainVcpuDelayDesc vt v
             [domainName; FormatInt (Z.of_nat cpuNum)])) = true.
Proof. cbn. apply bool_decide_eq_true_2. reflexivity. Qed.

Lemma delay_metric_of_other domainName i j vt v :
  j <> i ->
  delay_metric_of domainName i
    (Send (MustNewConstMetric libvirtDomainVcpuDelayDesc vt v
             [domainName; FormatInt (Z.of_nat j)])) = false.
Proof.
  intros Hji. cbn. apply bool_decide_eq_false_2. intros [= H].
  apply Itoa_inj in H. lia.
Qed.

(** The other iterations send no delay metric for VCPU [i] and call the
    reader for no VCPU but their own. *)
Lemma vcpu_stats_body_other_delay domainName domainPid domainVcpuPids i j vcpu g :
  j <> i ->
  List.filter (delay_metric_of domainName i)
    (events_of (vcpu_stats_body W domainName domainPid domainVcpuPids j vcpu g)) = [].
Proof.
  intros Hji. rewrite events_vcpu_stats_body, List.filter_app.
  destruct (WaitSet vcpu), (DelaySet vcpu), (domainVcpuPids !! j) as [vcpuPid|];
    cbv zeta; try destruct (GetProcPIDSchedStat W _ vcpuPid);
    cbn [List.filter app]; rewrite ?delay_metric_of_other by exact Hji; reflexivity.
Qed.

Lemma vcpu_stats_body_other_call domainName domainPid domainVcpuPids i j vcpu g :
  j <> i ->
  List.filter (estimator_call_of i)
    (events_of (vcpu_stats_body W domainName domainPid domainVcpuPids j vcpu g)) = [].
Proof.
  intros Hji. rewrite events_vcpu_stats_body, List.filter_app.
  apply Nat.eqb_neq in Hji.
  destruct (WaitSet vcpu), (DelaySet vcpu), (domainVcpuPids !! j) as [vcpuPid|];
    cbv zeta; try destruct (GetProcPIDSchedStat W _ vcpuPid);
    cbn [List.filter app estimator_call_of]; rewrite ?Hji; reflexivity.
Qed.

(** In the whole of CollectDomain, what concerns VCPU [cpuNum] comes from
    its own iteration. *)
Lemma CollectDomain_delay_of stat g domainName cpuNum vcpu :
  reaches_vcpu_stats W stat = true ->
  Domain.GetName (Domain stat) = Ok domainName ->
  Vcpu stat !! cpuNum = Some vcpu ->
  List.filter (delay_metric_of domainName cpuNum) (events_of (CollectDomain W stat g)) =
  List.filter (delay_metric_of domainName cpuNum)
    (events_of
       (vcpu_stats_body W domainName (GetDomainPid_loop W domainName (processes g))
          (GetDomainVcpuPids W (Domain stat)).1 cpuNum vcpu g)).
Proof.
  intros Hr Hname Hvcpu. rewrite (CollectDomain_vcpu_filter _ stat g domainName); trivial.
  - unfold range_.
    rewrite (filter_range_from _ _ _ (vcpu_stats_body_total _ _ _) cpuNum vcpu 0%nat g Hvcpu);
      [reflexivity|].
    intros k y g' Hk _. apply vcpu_stats_body_other_delay. exact Hk.
  - intros [m| | | | |] He; try reflexivity. cbn in *. rewrite He. reflexivity.
Qed.

Lemma CollectDomain_call_of stat g domainName cpuNum vcpu :
  reaches_vcpu_stats W stat = true ->
  Domain.GetName (Domain stat) = Ok domainName ->
  Vcpu stat !! cpuNum = Some vcpu ->
  List.filter (estimator_call_of cpuNum) (events_of (CollectDomain W stat g)) =
  List.filter (estimator_call_of cpuNum)
    (events_of
       (vcpu_stats_body W domainName (GetDomainPid_loop W domainName (processes g))
          (GetDomainVcpuPids W (Domain stat)).1 cpuNum vcpu g)).
Proof.
  intros Hr Hname Hvcpu. rewrite (CollectDomain_vcpu_filter _ stat g domainName); trivial.
  - unfold range_.
    rewrite (filter_range_from _ _ _ (vcpu_stats_body_total _ _ _) cpuNum vcpu 0%nat g Hvcpu);
      [reflexivity|].
    intros k y g' Hk _. apply vcpu_stats_body_other_call. exact Hk.
  - intros [m| | | | |] He; try reflexivity. discriminate.
Qed.

Lemma vcpu_stats_body_no_call domainName domainPid domainVcpuPids i k vcpu :
  (k = i -> DelaySet vcpu = true) ->
  emits (fun e => estimator_call_of i e = false)
    (vcpu_stats_body W domainName domainPid domainVcpuPids k vcpu).
Proof.
  intros Hk g. rewrite events_vcpu_stats_body. apply Forall_app. split.
  - destruct (WaitSet vcpu); repeat constructor.
  - destruct (Nat.eq_dec k i) as [->|Hne].
    + rewrite Hk by reflexivity. repeat constructor.
    + apply Nat.eqb_neq in Hne.
      destruct (DelaySet vcpu), (domainVcpuPids !! k) as [vcpuPid|];
        cbv zeta; try destruct (GetProcPIDSchedStat W _ vcpuPid);
        repeat constructor; exact Hne.
Qed.

Lemma CollectDomain_no_call stat cpuNum vcpu :
  Vcpu stat !! cpuNum = Some vcpu ->
  DelaySet vcpu = true ->
  emits (fun e => estimator_call_of cpuNum e = false) (CollectDomain W stat).
Proof.
  intros Hvcpu Hset.
  unfold CollectDomain, tolerate_operation_invalid, report_domain_info.
  emits_with
    ltac:(first
      [ apply emits_GetDomainPid
      | match goal with
        | |- emits _ (range_ (Vcpu _) _) =>
            let k := fresh "k" in
            let Hk := fresh "Hk" in
            apply emits_range_lookup; intros k ? Hk;
            apply vcpu_stats_body_no_call; intros ->; congruence
        | |- emits _ (vcpu_info_body _ _) => unfold vcpu_info_body
        | |- emits _ (block_body _ _ _ _) =>
            unfold block_body, block_counters, block_iotune_error, block_iotune
        | |- emits _ (net_body _ _ _) => unfold net_body
        | |- emits _ (collect_memory_stats _ _) =>
            let g := fresh "g" in
            intros g; rewrite run_collect_memory_stats; apply Forall_map, Forall_true;
            reflexivity
        end ])
    ltac:(reflexivity).
Qed.

(** Without explicit delay, the delay metric of a VCPU is the one its own
    iteration derives from the schedstat of the matched thread. *)
Lemma CollectDomain_fallback_delay stat g domainName cpuNum vcpu :
  reaches_vcpu_stats W stat = true ->
  Domain.GetName (Domain stat) = Ok domainName ->
  Vcpu stat !! cpuNum = Some vcpu ->
  DelaySet vcpu = false ->
  let domainPid := GetDomainPid_loop W domainName (processes g) in
  let domainVcpuPids := (GetDomainVcpuPids W (Domain stat)).1 in
  let procPath := filepath_Join W [procFSPath W; Itoa domainPid; "task"] in
  List.filter (delay_metric_of domainName cpuNum) (events_of (CollectDomain W stat g)) =
  match domainVcpuPids !! cpuNum with
  | Some vcpuPid =>
      match GetProcPIDSchedStat W procPath vcpuPid with
      | Ok procFSSchedStat =>
          [Send (MustNewConstMetric libvirtDomainVcpuDelayDesc CounterValue
                   (F64.div (F64.of_N (Runqueue procFSSchedStat)) f_1e9)
                   [domainName; FormatInt (Z.of_nat cpuNum)])]
      | Fail _ => []
      end
  | None => []
  end.
Proof.
  intros Hr Hname Hvcpu Hset domainPid domainVcpuPids procPath.
  rewrite (CollectDomain_delay_of stat g domainName cpuNum vcpu Hr Hname Hvcpu).
  rewrite events_vcpu_stats_body, Hset, List.filter_app.
  fold domainPid domainVcpuPids. cbv zeta. fold procPath.
  assert (Hwait : List.filter (delay_metric_of domainName cpuNum)
            (if WaitSet vcpu
             then [Send (MustNewConstMetric libvirtDomainVcpuWaitDesc CounterValue
                           (nsec_to_sec (F64.of_N (Wait vcpu)))
                           [domainName; FormatInt (Z.of_nat cpuNum)])]
             else []) = []) by (destruct (WaitSet vcpu); reflexivity).
  rewrite Hwait. cbn [app].
  destruct (domainVcpuPids !! cpuNum) as [vcpuPid|]; [|reflexivity].
  destruct (GetProcPIDSchedStat W procPath vcpuPid); cbn [List.filter];
    change (delay_metric_of domainName cpuNum (SchedStatCall cpuNum procPath vcpuPid))
      with false; cbv iota; rewrite ?delay_metric_of_self; reflexivity.
Qed.

(** When that schedstat cannot be read, the call of the reader is followed
    at once by the log line that carries its error. *)
Lemma CollectDomain_fallback_log stat g domainName cpuNum vcpu vcpuPid err :
  reaches_vcpu_stats W stat = true ->
  Domain.GetName (Domain stat) = Ok domainName ->
  Vcpu stat !! cpuNum = Some vcpu ->
  DelaySet vcpu = false ->
  let domainPid := GetDomainPid_loop W domainName (processes g) in
  let domainVcpuPids := (GetDomainVcpuPids W (Domain stat)).1 in
  let procPath := filepath_Join W [procFSPath W; Itoa domainPid; "task"] in
  domainVcpuPids !! cpuNum = Some vcpuPid ->
  GetProcPIDSchedStat W procPath vcpuPid = Fail err ->
  exists before after,
    events_of (CollectDomain W stat g) =
    before ++
    SchedStatCall cpuNum procPath vcpuPid ::
    LogError [LStr "err"; LStr "unable to collect vcpu delay metric"; LStr "msg"; LErr err] ::
    after.
Proof.
  intros Hr Hname Hvcpu Hset domainPid domainVcpuPids procPath Hpid Herr.
  destruct (run_CollectDomain_reached stat g domainName Hr Hname)
    as (domainUUID & desc & info & domainStatsVcpu & _ & ->).
  unfold after_prelude. fold domainPid domainVcpuPids.
  rewrite events_seq_total by apply report_domain_info_total.
  rewrite events_seq_total.
  2:{ apply total_bind; apply total_range; intros.
      - apply vcpu_info_body_total.
      - apply vcpu_stats_body_total. }
  rewrite events_seq_total by (apply total_range; intros; apply vcpu_info_body_total).
  unfold range_ at 2.
  destruct (events_range_from_split
              (vcpu_stats_body W domainName domainPid domainVcpuPids) (Vcpu stat)
              (vcpu_stats_body_total _ _ _) cpuNum vcpu 0%nat g Hvcpu)
    as (before & after & ->).
  cbn [Nat.add]. rewrite events_vcpu_stats_body, Hset, Hpid. cbv zeta.
  fold procPath. rewrite Herr.
  match goal with
  | |- exists b a, ?e1 ++ (?e2 ++ before ++ (?w ++ _) ++ after) ++ ?e3 = _ =>
      exists (e1 ++ e2 ++ before ++ w), (after ++ e3)
  end.
  rewrite <- !app_assoc. reflexivity.
Qed.

(** When the per-VCPU statistics are not reached, CollectDomain sends no
    delay metric and calls the scheduler-statistics reader for no VCPU. *)
Lemma CollectDomain_unreached stat g :
  reaches_vcpu_stats W stat = false ->
  List.filter vcpu_delay_event (events_of (CollectDomain W stat g)) = [].
Proof.
  unfold reaches_vcpu_stats, CollectDomain. intros Hr.
  destruct (Domain.GetName (Domain stat)) as [domainName|]; [|reflexivity].
  rewrite (run_bind_pure _ domainName) by reflexivity.
  rewrite (run_bind_pure _ (GetDomainPid_loop W domainName (processes g))) by reflexivity.
  destruct (GetDomainVcpuPids W (Domain stat)) as [domainVcpuPids err]. cbn [fst snd] in Hr.
  destruct (tolerated err) eqn:Htol; cbn [andb] in Hr.
  2:{ destruct err as [err|]; [|discriminate]. unfold tolerated in Htol.
      unfold tolerate_operation_invalid.
      destruct (as_libvirt_Error err) as [Code ok].
      destruct ok, (Z.eqb Code ERR_OPERATION_INVALID); try discriminate; reflexivity. }
  rewrite (run_bind_pure _ tt).
  2:{ destruct err as [err|]; [apply tolerated_run, Htol | reflexivity]. }
  destruct (Domain.GetUUIDString (Domain stat)) as [domainUUID|]; [|reflexivity].
  rewrite (run_bind_pure _ domainUUID) by reflexivity.
  destruct (Domain.GetXMLDesc (Domain stat)) as [xmlDesc|]; [|reflexivity].
  rewrite (run_bind_pure _ xmlDesc) by reflexivity.
  destruct (xml_Unmarshal W xmlDesc) as [desc|]; [|reflexivity].
  rewrite (run_bind_pure _ desc) by reflexivity.
  destruct (Domain.GetInfo (Domain stat)) as [info|]; [|reflexivity].
  rewrite (run_bind_pure _ info) by reflexivity.
  destruct (Domain.GetVcpus (Domain stat)) as [domainStatsVcpu|err']; [discriminate|].
  apply filter_nil_emits.
  apply emits_bind; [apply report_domain_info_no_delay | intros _].
  apply emits_bind; [| intros _; apply after_vcpus_no_delay].
  unfold tolerate_operation_invalid. emits_tac ltac:(reflexivity).
Qed.

(** ** The VCPU delay *)

(** C1 (as amended).  For a VCPU entry of the batch statistics whose
    [DelaySet] flag is true, [utils.GetProcPIDSchedStat] is never called for
    that VCPU; when CollectDomain reaches the per-VCPU statistics (the calls
    before them succeed and so does [GetVcpus]) it sends exactly one delay
    metric for that VCPU, whose value is [float64(Delay)/1e9]; and when it
    does not reach them it sends no delay metric at all. *)
Theorem explicit_delay_bypasses_estimator stat g domainName cpuNum vcpu :
  Vcpu stat !! cpuNum = Some vcpu ->
  DelaySet vcpu = true ->
  List.filter (estimator_call_of cpuNum) (events_of (CollectDomain W stat g)) = [] /\
  (reaches_vcpu_stats W stat = true ->
   Domain.GetName (Domain stat) = Ok domainName ->
   List.filter (delay_metric_of domainName cpuNum) (events_of (CollectDomain W stat g)) =
   [Send (MustNewConstMetric libvirtDomainVcpuDelayDesc CounterValue
            (F64.div (F64.of_N (Delay vcpu)) f_1e9)
            [domainName; FormatInt (Z.of_nat cpuNum)])]) /\
  (reaches_vcpu_stats W stat = false ->
   List.filter vcpu_delay_event (events_of (CollectDomain W stat g)) = []).
Proof.
  intros Hvcpu Hset. split; [|split].
  - apply filter_nil_emits, (CollectDomain_no_call stat cpuNum vcpu Hvcpu Hset).
  - intros Hr Hname.
    rewrite (CollectDomain_delay_of stat g domainName cpuNum vcpu Hr Hname Hvcpu).
    rewrite events_vcpu_stats_body, Hset, List.filter_app.
    destruct (WaitSet vcpu); cbn [List.filter app]; rewrite delay_metric_of_self; reflexivity.
  - apply CollectDomain_unreached.
Qed.

(** C2 (as amended).  For a VCPU entry whose [DelaySet] flag is false, when
    CollectDomain reaches the per-VCPU statistics: if the VCPU index is below
    the length of the thread-ID list and the schedstat of that thread is
    read, exactly one delay metric is sent, of value
    [float64(Runqueue)/1e9]; if the schedstat cannot be read, no delay metric
    is sent for that VCPU and the error is logged, the log line
    "unable to collect vcpu delay metric" with that error coming right after
    the call of the reader; if the index is not below the length, no delay
    metric is sent for that VCPU. *)
Theorem estimated_delay_from_schedstat stat g domainName cpuNum vcpu :
  reaches_vcpu_stats W stat = true ->
  Domain.GetName (Domain stat) = Ok domainName ->
  Vcpu stat !! cpuNum = Some vcpu ->
  DelaySet vcpu = false ->
  let domainPid := GetDomainPid_loop W domainName (processes g) in
  let domainVcpuPids := (GetDomainVcpuPids W (Domain stat)).1 in
  let procPath := filepath_Join W [procFSPath W; Itoa domainPid; "task"] in
  let vcpuPid := nth cpuNum domainVcpuPids 0 in
  let delays :=
    List.filter (delay_metric_of domainName cpuNum) (events_of (CollectDomain W stat g)) in
  ((cpuNum < length domainVcpuPids)%nat ->
   forall procFSSchedStat,
     GetProcPIDSchedStat W procPath vcpuPid = Ok procFSSchedStat ->
     delays = [Send (MustNewConstMetric libvirtDomainVcpuDelayDesc CounterValue
                       (F64.div (F64.of_N (Runqueue procFSSchedStat)) f_1e9)
                       [domainName; FormatInt (Z.of_nat cpuNum)])]) /\
  ((cpuNum < length domainVcpuPids)%nat ->
   forall err, GetProcPIDSchedStat W procPath vcpuPid = Fail err ->
     delays = [] /\
     exists before after,
       events_of (CollectDomain W stat g) =
       before ++
       SchedStatCall cpuNum procPath vcpuPid ::
       LogError [LStr "err"; LStr "unable to collect vcpu delay metric"; LStr "msg";
                 LErr err] ::
       after) /\
  ((length domainVcpuPids <= cpuNum)%nat -> delays = []).
Proof.
  intros Hr Hname Hvcpu Hset domainPid domainVcpuPids procPath vcpuPid delays.
  assert (Hd := CollectDomain_fallback_delay stat g domainName cpuNum vcpu Hr Hname Hvcpu Hset).
  cbv zeta in Hd. fold domainPid domainVcpuPids procPath delays in Hd.
  split; [|split].
  - intros Hlt s Hs. destruct (lookup_lt_is_Some_2 domainVcpuPids cpuNum Hlt) as [pid Hpid].
    unfold vcpuPid in Hs. rewrite (nth_lookup_Some _ _ 0 _ Hpid) in Hs.
    rewrite Hd, Hpid, Hs. reflexivity.
  - intros Hlt err Herr. destruct (lookup_lt_is_Some_2 domainVcpuPids cpuNum Hlt) as [pid Hpid].
    unfold vcpuPid in *. rewrite (nth_lookup_Some _ _ 0 _ Hpid) in *. split.
    + rewrite Hd, Hpid, Herr. reflexivity.
    + exact (CollectDomain_fallback_log stat g domainName cpuNum vcpu pid err
               Hr Hname Hvcpu Hset Hpid Herr).
  - intros Hge. rewrite Hd, (proj2 (lookup_ge_None domainVcpuPids cpuNum)) by exact Hge.
    reflexivity.
Qed.

Lemma GetDomainPid_loop_unmatched domainName ps :
  (forall process, process ∈ ps ->
     strings_Contains (GetCmdLine W (procFSPath W) process) domainName = false) ->
  GetDomainPid_loop W domainName ps = 0.
Proof.
  induction ps as [|process ps IH]; intros Hno; cbn [GetDomainPid_loop]; [reflexivity|].
  rewrite (Hno process) by left. rewrite andb_false_r. apply IH.
  intros q Hq. apply Hno. right. exact Hq.
Qed.

(** C10.  When no process of the list has a command line that contains the
    domain name, GetDomainPid returns 0; the fallback of a VCPU without
    explicit delay then calls the scheduler-statistics reader under the task
    root of PID 0, and a delay metric is sent exactly when the schedstat file
    under that root parses. *)
Theorem unmatched_domain_uses_pid_zero domainName g :
  (forall process, process ∈ processes g ->
     strings_Contains (GetCmdLine W (procFSPath W) process) domainName = false) ->
  let taskRoot := filepath_Join W [procFSPath W; "0"; "task"] in
  GetDomainPid W domainName g = (Done 0, g, []) /\
  (String.eqb (procFSPath W) "" = false ->
   taskRoot = filepath_Clean W (procFSPath W +:+ "/0/task")) /\
  forall stat cpuNum vcpu vcpuPid,
    reaches_vcpu_stats W stat = true ->
    Domain.GetName (Domain stat) = Ok domainName ->
    Vcpu stat !! cpuNum = Some vcpu ->
    DelaySet vcpu = false ->
    (GetDomainVcpuPids W (Domain stat)).1 !! cpuNum = Some vcpuPid ->
    List.filter (estimator_call_of cpuNum) (events_of (CollectDomain W stat g)) =
      [SchedStatCall cpuNum taskRoot vcpuPid] /\
    List.filter (delay_metric_of domainName cpuNum) (events_of (CollectDomain W stat g)) =
      match fmt_Fscan3 W
              (os_ReadFile W (filepath_Join W [taskRoot; Itoa vcpuPid; "schedstat"])).1 with
      | Ok (_, runqueue, _) =>
          [Send (MustNewConstMetric libvirtDomainVcpuDelayDesc CounterValue
                   (F64.div (F64.of_N runqueue) f_1e9)
                   [domainName; FormatInt (Z.of_nat cpuNum)])]
      | Fail _ => []
      end.
Proof.
  intros Hno taskRoot.
  pose proof (GetDomainPid_loop_unmatched domainName (processes g) Hno) as Hpid.
  split; [|split].
  - unfold GetDomainPid. rewrite Hpid. reflexivity.
  - intros Hproc. unfold taskRoot. cbn [filepath_Join]. rewrite Hproc. reflexivity.
  - intros stat cpuNum vcpu vcpuPid Hr Hname Hvcpu Hset Hlookup. split.
    + rewrite (CollectDomain_call_of stat g domainName cpuNum vcpu Hr Hname Hvcpu).
      rewrite events_vcpu_stats_body, Hset, Hlookup, Hpid, List.filter_app. cbv zeta.
      change (Itoa 0) with "0". fold taskRoot.
      destruct (WaitSet vcpu), (GetProcPIDSchedStat W taskRoot vcpuPid);
        cbn [List.filter app estimator_call_of]; rewrite Nat.eqb_refl; reflexivity.
    + rewrite (CollectDomain_fallback_delay stat g domainName cpuNum vcpu Hr Hname Hvcpu Hset).
      rewrite Hlookup, Hpid. change (Itoa 0) with "0". fold taskRoot.
      unfold GetProcPIDSchedStat.
      destruct (fmt_Fscan3 W _) as [[[cputime runqueue] timeslices]|]; reflexivity.
Qed.

(** ** Block devices *)

(** Unfolds the stages of CollectDomain on the way down. *)
Ltac stage_special :=
  first
    [ apply emits_GetDomainPid
    | match goal with
      | |- emits _ (tolerate_operation_invalid _) => unfold tolerate_operation_invalid
      | |- emits _ (report_domain_info _ _ _ _) => unfold report_domain_info
      | |- emits _ (vcpu_info_body _ _) => unfold vcpu_info_body
      | |- emits _ (vcpu_stats_body _ _ _ _ _ _) => unfold vcpu_stats_body
      | |- emits _ (block_body _ _ _ _) =>
          unfold block_body, block_counters, block_iotune_error, block_iotune
      | |- emits _ (net_body _ _ _) => unfold net_body
      | |- emits _ (collect_memory_stats _ _) =>
          let g := fresh "g" in
          intros g; rewrite run_collect_memory_stats;
          destruct (Domain.MemoryStats _); repeat constructor
      end ].

Lemma CollectDomain_no_cdrom stat dev :
  dev = "hdc" \/ dev = "hda" ->
  emits (fun e => block_metric_of dev e = false) (CollectDomain W stat).
Proof.
  intros Hdev. unfold CollectDomain.
  emits_with stage_special
    ltac:(first
      [ reflexivity
      | match goal with
        | H : String.eqb _ "hdc" || String.eqb _ "hda" = false |- _ =>
            apply orb_false_elim in H; destruct H; destruct Hdev; subst dev; cbn; assumption
        end ]).
Qed.

(** C9.  No metric of the block-device family is sent for a device named
    "hdc" or "hda", whatever the domain and however the collection ends. *)
Theorem cdrom_devices_skipped stat g :
  List.filter (block_metric_of "hdc") (events_of (CollectDomain W stat g)) = [] /\
  List.filter (block_metric_of "hda") (events_of (CollectDomain W stat g)) = [].
Proof.
  split; apply filter_nil_emits, CollectDomain_no_cdrom; [left | right]; reflexivity.
Qed.

(** Every metric that the block loop sends is of the block-device family,
    for the device of the iteration. *)
Lemma block_body_sends_block_family domain domainName desc disk :
  emits (fun e => match e with
                  | Send m => block_metric_of (blk_Name disk) e = true
                  | _ => True
                  end)
    (block_body domain domainName desc disk).
Proof.
  unfold block_body, block_counters, block_iotune_error, block_iotune.
  emits_tac ltac:(first [exact I | cbn; apply String.eqb_refl]).
Qed.

Lemma find_disk_unknown Disks disk :
  Forall (fun dev => libvirtSchema.Target_Device dev <> blk_Name disk) Disks ->
  find_disk Disks disk = ("", None).
Proof.
  induction 1 as [|dev Disks Hdev _ IH]; cbn [find_disk]; [reflexivity|].
  apply String.eqb_neq in Hdev. rewrite Hdev. exact IH.
Qed.

(** A device that is no CD-ROM and that the XML description does not have
    makes the body of the block loop panic before it sends anything. *)
Lemma block_body_unknown_device domain domainName desc disk g :
  String.eqb (blk_Name disk) "hdc" || String.eqb (blk_Name disk) "hda" = false ->
  Forall (fun dev => libvirtSchema.Target_Device dev <> blk_Name disk)
    (libvirtSchema.Devices_Disks desc) ->
  block_body domain domainName desc disk g =
  (Panicked "invalid memory address or nil pointer dereference", g, []).
Proof.
  intros Hname Hunknown. unfold block_body.
  rewrite Hname, (find_disk_unknown _ _ Hunknown). reflexivity.
Qed.

(** ** Memory statistics *)

Lemma filter_bind_Done {X} (p : event -> bool) (m : M X) (f : X -> M unit) g L :
  emits (fun e => p e = false) m ->
  (forall a g1, outcome_of (f a g1) = Done tt -> List.filter p (events_of (f a g1)) = L) ->
  outcome_of ((m ≫= f) g) = Done tt ->
  List.filter p (events_of ((m ≫= f) g)) = L.
Proof.
  intros Hm Hf. rewrite events_bind, List.filter_app, (filter_nil_emits p m g Hm).
  rewrite run_bind.
  destruct (m g) as [[[a|err|msg|] g1] tr1]; cbn; try discriminate.
  destruct (f a g1) as [[r g2] tr2] eqn:Hfa. cbn. intros ->.
  specialize (Hf a g1). rewrite Hfa in Hf. apply Hf. reflexivity.
Qed.

Lemma memory_metrics_filter domainName MemoryStats usedPercent :
  List.filter memory_metric (map Send (memory_metrics domainName MemoryStats usedPercent)) =
  map Send (memory_metrics domainName MemoryStats usedPercent).
Proof. reflexivity. Qed.

Lemma filter_bind_not_Done {X} (p : event -> bool) (m : M X) (f : X -> M unit) g :
  emits (fun e => p e = false) m ->
  (forall a g1, outcome_of (f a g1) <> Done tt -> List.filter p (events_of (f a g1)) = []) ->
  outcome_of ((m ≫= f) g) <> Done tt ->
  List.filter p (events_of ((m ≫= f) g)) = [].
Proof.
  intros Hm Hf. rewrite events_bind, List.filter_app, (filter_nil_emits p m g Hm).
  rewrite run_bind.
  destruct (m g) as [[[a|err|msg|] g1] tr1]; cbn; try reflexivity.
  destruct (f a g1) as [[r g2] tr2] eqn:Hfa. cbn. intros Hne.
  specialize (Hf a g1). rewrite Hfa in Hf. apply Hf. exact Hne.
Qed.

(** The memory stage is the last one: a collection that does not return nil
    has sent no memory metric. *)
Lemma CollectDomain_aborted_no_memory stat g :
  outcome_of (CollectDomain W stat g) <> Done tt ->
  List.filter memory_metric (events_of (CollectDomain W stat g)) = [].
Proof.
  unfold CollectDomain.
  destruct (Domain.GetName (Domain stat)) as [domainName|err]; [|reflexivity].
  rewrite (run_bind_pure _ domainName) by reflexivity.
  repeat first
    [ apply filter_bind_not_Done;
      [ emits_with stage_special ltac:(reflexivity) | intros ? ? ]
    | match goal with
      | |- outcome_of ((match ?x with _ => _ end) _) <> _ -> _ => destruct x
      end ].
  intros Hne. exfalso. apply Hne. rewrite run_collect_memory_stats. reflexivity.
Qed.

(** C8 (as amended).  The memory stage of CollectDomain always returns
    normally, whether the [MemoryStats] call fails or not; when CollectDomain
    returns nil, the memory-statistics metrics it has sent are the nine of
    [memory_metrics], in the order of the source; when it does not return nil
    (an earlier stage returned an error or panicked) it has sent no memory
    metric; when the [MemoryStats] call fails the nine are computed from the
    zero record, and every one of them has the value zero. *)
Theorem memory_metrics_always_sent stat g domainName :
  Domain.GetName (Domain stat) = Ok domainName ->
  (forall g', outcome_of (collect_memory_stats (Domain stat) domainName g') = Done tt) /\
  (outcome_of (CollectDomain W stat g) = Done tt ->
   List.filter memory_metric (events_of (CollectDomain W stat g)) =
     map Send
       (match Domain.MemoryStats (Domain stat) with
        | Ok memorystat =>
            memory_metrics domainName (memoryStatCollect memorystat)
              (used_percent binary64 (memoryStatCollect memorystat))
        | Fail _ => memory_metrics domainName zero_MemoryStats F64.zero
        end)) /\
  (outcome_of (CollectDomain W stat g) <> Done tt ->
   List.filter memory_metric (events_of (CollectDomain W stat g)) = []) /\
  map (fun m => fqName (desc m)) (memory_metrics domainName zero_MemoryStats F64.zero) =
    [ "libvirt_domain_memory_stats_major_fault_total";
      "libvirt_domain_memory_stats_minor_fault_total";
      "libvirt_domain_memory_stats_unused_bytes";
      "libvirt_domain_memory_stats_available_bytes";
      "libvirt_domain_memory_stats_actual_balloon_bytes";
      "libvirt_domain_memory_stats_rss_bytes";
      "libvirt_domain_memory_stats_usable_bytes";
      "libvirt_domain_memory_stats_disk_cache_bytes";
      "libvirt_domain_memory_stats_used_percent" ] /\
  map value (memory_metrics domainName zero_MemoryStats F64.zero) = repeat F64.zero 9.
Proof.
  intros Hname.
  split; [|split; [|split; [apply CollectDomain_aborted_no_memory | split; reflexivity]]].
  { intros g'. rewrite run_collect_memory_stats. reflexivity. }
  unfold CollectDomain. rewrite Hname.
  rewrite (run_bind_pure _ domainName) by reflexivity.
  repeat first
    [ apply filter_bind_Done;
      [ emits_with stage_special ltac:(reflexivity) | intros ? ? ]
    | match goal with
      | |- outcome_of ((match ?x with _ => _ end) _) = _ -> _ => destruct x
      end ].
  intros _. rewrite run_collect_memory_stats. unfold events_of. cbn [snd].
  destruct (Domain.MemoryStats (Domain stat)); apply memory_metrics_filter.
Qed.

(** ** The scrape *)

Lemma run_free_domains stats g :
  free_domains stats g =
  (Done tt, g, map (fun stat => DomainFree (Domain.ptr (Domain stat))) stats).
Proof.
  unfold free_domains, range_. generalize 0%nat.
  induction stats as [|stat stats IH]; intros i; [reflexivity|].
  cbn [range_from]. rewrite (run_bind_Done _ _ g tt g [_] eq_refl), IH. reflexivity.
Qed.

Lemma no_exit_pure {X} (m : M X) :
  (forall g, exists x, m g = (Done x, g, [])) -> no_exit m.
Proof. intros H g. destruct (H g) as [x ->]. discriminate. Qed.

Lemma no_exit_WriteErrorOnce err name : no_exit (WriteErrorOnce err name).
Proof. intros g. unfold WriteErrorOnce. destruct (bool_decide _); discriminate. Qed.

(** No stage of CollectDomain ends the process. *)
Lemma CollectDomain_no_exit stat : no_exit (CollectDomain W stat).
Proof.
  unfold CollectDomain.
  no_exit_with
    ltac:(first
      [ apply no_exit_WriteErrorOnce
      | match goal with
        | |- no_exit (GetDomainPid _ _) => apply no_exit_pure; intros; eexists; reflexivity
        | |- no_exit (tolerate_operation_invalid _) => unfold tolerate_operation_invalid
        | |- no_exit (report_domain_info _ _ _ _) => unfold report_domain_info
        | |- no_exit (vcpu_info_body _ _) => unfold vcpu_info_body
        | |- no_exit (vcpu_stats_body _ _ _ _ _ _) => unfold vcpu_stats_body
        | |- no_exit (block_body _ _ _ _) =>
            unfold block_body, block_counters, block_iotune_error, block_iotune
        | |- no_exit (net_body _ _ _) => unfold net_body
        | |- no_exit (collect_memory_stats _ _) =>
            let g := fresh "g" in
            intros g; rewrite run_collect_memory_stats; discriminate
        end ]).
Qed.

Lemma pool_body_no_exit pool : no_exit (pool_body pool).
Proof. unfold pool_body, CollectStoragePool. no_exit_with ltac:(apply no_exit_catch). Qed.

Lemma pool_body_no_domain_release pool :
  emits (fun e => domain_release e = false) (pool_body pool).
Proof.
  unfold pool_body, CollectStoragePool.
  emits_with ltac:(apply emits_catch) ltac:(reflexivity).
Qed.

Lemma CollectDomain_no_domain_release stat :
  emits (fun e => domain_release e = false) (CollectDomain W stat).
Proof. unfold CollectDomain. emits_with stage_special ltac:(reflexivity). Qed.

Lemma filter_domain_release_frees stats :
  List.filter domain_release
    (map (fun stat => DomainFree (Domain.ptr (Domain stat))) stats) =
  map (fun stat => DomainFree (Domain.ptr (Domain stat))) stats.
Proof. induction stats as [|stat stats IH]; cbn; [|rewrite IH]; reflexivity. Qed.

(** Once the connection is there and the process list is read, every domain
    handle that the batched statistics call returns is released before
    CollectFromLibvirt returns, and no other domain handle is. *)
Lemma CollectFromLibvirt_releases_domains uri g conn hv lv libv files :
  libvirt_NewConnect W uri = Ok conn ->
  Connect.GetVersion conn = Ok hv ->
  Connect.GetLibVersion conn = Ok lv ->
  libvirt_GetVersion W = Ok libv ->
  os_ReadDir W (procFSPath W) = Ok files ->
  List.filter domain_release (events_of (CollectFromLibvirt W uri g)) =
  map (fun stat => DomainFree (Domain.ptr (Domain stat))) (Connect.GetAllDomainStats conn).1.
Proof.
  intros Hconn Hhv Hlv Hlibv Hdir. unfold CollectFromLibvirt.
  rewrite Hconn, (run_bind_pure _ conn) by reflexivity.
  destruct (Connect.GetAllDomainStats conn) as [stats err]. cbn [fst].
  set (body := match err with
               | Some err => raise err
               | None =>
                   range_ stats (fun _ stat => CollectDomain W stat);;
                   let '(pools, err) := Connect.ListAllStoragePools conn in
                   match err with
                   | Some err => raise err
                   | None => range_ pools (fun _ pool => pool_body pool)
                   end
               end).
  assert (Hbody_exit : no_exit body).
  { unfold body. destruct err; [apply no_exit_raise|].
    apply no_exit_bind; [apply no_exit_range; intros; apply CollectDomain_no_exit | intros _].
    destruct (Connect.ListAllStoragePools conn) as [pools [e|]]; [apply no_exit_raise|].
    apply no_exit_range. intros. apply pool_body_no_exit. }
  assert (Hbody_emits : emits (fun e => domain_release e = false) body).
  { unfold body. destruct err; [apply emits_raise|].
    apply emits_bind;
      [apply emits_range; intros; apply CollectDomain_no_domain_release | intros _].
    destruct (Connect.ListAllStoragePools conn) as [pools [e|]]; [apply emits_raise|].
    apply emits_range. intros. apply pool_body_no_domain_release. }
  rewrite events_defer.
  2:{ rewrite Hhv, Hlv, Hlibv. unfold GetProcessList. rewrite Hdir.
      no_exit_with ltac:(first [ apply no_exit_defer; exact Hbody_exit
                               | apply no_exit_pure; intros; eexists; reflexivity ]). }
  rewrite List.filter_app, app_nil_r.
  rewrite Hhv, (run_bind_pure _ hv) by reflexivity.
  rewrite Hlv, (run_bind_pure _ lv) by reflexivity.
  rewrite Hlibv, (run_bind_pure _ libv) by reflexivity.
  unfold GetProcessList. rewrite Hdir.
  rewrite (run_bind_pure _ (GetProcessList_loop W files)) by reflexivity.
  rewrite (run_bind_Done _ _ g tt _ [] eq_refl).
  rewrite (run_bind_Done _ _ _ tt _ [_] eq_refl).
  cbn [events_of snd app List.filter domain_release].
  fold body. change (events_of (defer_ (free_domains stats) body ?g')) with
    (events_of (defer_ (free_domains stats) body g')).
  rewrite (events_defer (free_domains stats) body _ Hbody_exit), List.filter_app.
  rewrite (filter_nil_emits _ _ _ Hbody_emits), run_free_domains.
  apply filter_domain_release_frees.
Qed.

(** The pool loop stops at the first pool whose collection fails: that pool
    is released, the pools after it are not looked at. *)
Lemma pool_loop_stops_at_failure pool pools err g g1 tr1 :
  CollectStoragePool pool g = (Raised err, g1, tr1) ->
  range_ (pool :: pools) (fun _ pool => pool_body pool) g =
  (Raised err, g1, tr1 ++ [PoolFree (StoragePool.ptr pool)]).
Proof.
  intros Hpool. unfold range_. cbn [range_from]. unfold pool_body.
  rewrite !run_bind. unfold catch. rewrite Hpool. reflexivity.
Qed.

Lemma run_defer {X} (cleanup : M unit) (body : M X) g r g1 tr1 tr2 :
  body g = (r, g1, tr1) ->
  r <> Exited ->
  cleanup g1 = (Done tt, g1, tr2) ->
  defer_ cleanup body g = (r, g1, tr1 ++ tr2).
Proof.
  intros Hb Hr Hc. unfold defer_. rewrite Hb, Hc. destruct r; congruence.
Qed.

(** The run of CollectFromLibvirt when the batched statistics call fails. *)
Lemma run_CollectFromLibvirt_batch_failure uri g conn hv lv libv files stats err :
  libvirt_NewConnect W uri = Ok conn ->
  Connect.GetVersion conn = Ok hv ->
  Connect.GetLibVersion conn = Ok lv ->
  libvirt_GetVersion W = Ok libv ->
  os_ReadDir W (procFSPath W) = Ok files ->
  Connect.GetAllDomainStats conn = (stats, Some err) ->
  CollectFromLibvirt W uri g =
  (Raised err,
   {| errorsMap := errorsMap g; processes := GetProcessList_loop W files |},
   Send (MustNewConstMetric libvirtVersionsInfoDesc GaugeValue (F64.of_Z 1)
           [version_string hv; version_string lv; version_string libv]) ::
   map (fun stat => DomainFree (Domain.ptr (Domain stat))) stats ++ [ConnClose]).
Proof.
  intros Hconn Hhv Hlv Hlibv Hdir Hstats. unfold CollectFromLibvirt.
  rewrite Hconn, (run_bind_pure _ conn) by reflexivity.
  rewrite app_comm_cons. apply run_defer; [|discriminate|reflexivity].
  rewrite Hhv, (run_bind_pure _ hv) by reflexivity.
  rewrite Hlv, (run_bind_pure _ lv) by reflexivity.
  rewrite Hlibv, (run_bind_pure _ libv) by reflexivity.
  unfold GetProcessList. rewrite Hdir.
  rewrite (run_bind_pure _ (GetProcessList_loop W files)) by reflexivity.
  rewrite (run_bind_Done _ _ g tt _ [] eq_refl).
  rewrite (run_bind_Done _ _ _ tt _ [_] eq_refl).
  rewrite Hstats.
  rewrite (run_defer _ _ _ (Raised err) _ [] _ eq_refl ltac:(discriminate)
             (run_free_domains stats _)).
  reflexivity.
Qed.

(** C5.  When the batched statistics call fails, the scrape sends the version
    metric (sent before the call) and the "up" gauge with value 0, and
    nothing else; when CollectFromLibvirt returns nil, the scrape ends with
    the "up" gauge of value 1. *)
Theorem up_gauge_reports_scrape uri g :
  (forall conn hypervisorVersionNum libvirtdVersionNum libraryVersionNum files stats err,
     libvirt_NewConnect W uri = Ok conn ->
     Connect.GetVersion conn = Ok hypervisorVersionNum ->
     Connect.GetLibVersion conn = Ok libvirtdVersionNum ->
     libvirt_GetVersion W = Ok libraryVersionNum ->
     os_ReadDir W (procFSPath W) = Ok files ->
     Connect.GetAllDomainStats conn = (stats, Some err) ->
     events_of (Collect W uri g) =
     Send (MustNewConstMetric libvirtVersionsInfoDesc GaugeValue (F64.of_Z 1)
             [version_string hypervisorVersionNum; version_string libvirtdVersionNum;
              version_string libraryVersionNum]) ::
     map (fun stat => DomainFree (Domain.ptr (Domain stat))) stats ++
     [ConnClose;
      LogError [LStr "err"; LStr "failed to scrape metrics"; LStr "uri"; LStr uri;
                LStr "msg"; LErr err];
      Send (MustNewConstMetric libvirtUpDesc GaugeValue (F64.of_Z 0) [])]) /\
  (outcome_of (CollectFromLibvirt W uri g) = Done tt ->
   events_of (Collect W uri g) =
   events_of (CollectFromLibvirt W uri g) ++
   [Send (MustNewConstMetric libvirtUpDesc GaugeValue (F64.of_Z 1) [])]).
Proof.
  split.
  - intros conn hv lv libv files stats err Hconn Hhv Hlv Hlibv Hdir Hstats.
    unfold Collect. rewrite run_bind. unfold catch.
    rewrite (run_CollectFromLibvirt_batch_failure uri g conn hv lv libv files stats err);
      trivial.
    rewrite (run_bind_Done _ _ _ tt _ [_] eq_refl).
    cbn [events_of outcome_of globals_of fst snd send emit app].
    rewrite <- app_assoc. reflexivity.
  - unfold Collect. rewrite run_bind. unfold catch.
    destruct (CollectFromLibvirt W uri g) as [[[[]|e|msg|] g1] tr1]; cbn; try discriminate.
    reflexivity.
Qed.

End Properties.

(** ** Rounding in binary64 *)

Section Binary64.

Lemma digits2_pos_size (p : positive) : digits2_pos p = Pos.size p.
Proof. induction p as [p IH|p IH|]; cbn; congruence. Qed.

Lemma Zdigits2_log2 (p : positive) : Zdigits2 (Zpos p) = Z.log2 (Zpos p) + 1.
Proof.
  cbn [Zdigits2]. rewrite digits2_pos_size.
  destruct p; cbn [Pos.size Z.log2]; rewrite ?Pos2Z.inj_succ; lia.
Qed.

Lemma Zdigits2_bounds (p : positive) (d : Z) :
  0 < d -> 2 ^ (d - 1) <= Zpos p < 2 ^ d -> Zdigits2 (Zpos p) = d.
Proof.
  intros Hd Hp. rewrite Zdigits2_log2.
  rewrite (Z.log2_unique (Zpos p) (d - 1)); [lia | lia |].
  replace (Z.succ (d - 1)) with d by lia. exact Hp.
Qed.

Lemma Zdigits2_le (p : positive) :
  2 ^ (Zdigits2 (Zpos p) - 1) <= Zpos p < 2 ^ Zdigits2 (Zpos p).
Proof.
  rewrite Zdigits2_log2. replace (Z.log2 (Zpos p) + 1 - 1) with (Z.log2 (Zpos p)) by lia.
  replace (Z.log2 (Zpos p) + 1) with (Z.succ (Z.log2 (Zpos p))) by lia.
  apply Z.log2_spec. lia.
Qed.

Lemma loc_of_shr_record_of_loc m l : loc_of_shr_record (shr_record_of_loc m l) = l.
Proof. destruct l as [|[]]; reflexivity. Qed.

Lemma shr_m_record_of_loc m l : shr_m (shr_record_of_loc m l) = m.
Proof. destruct l as [|[]]; reflexivity. Qed.

(** A mantissa of 53 digits is not shifted, one of 54 digits is shifted by
    one place. *)
Lemma shr_fexp_53 (q : positive) (e : Z) (l : location) :
  4503599627370496 <= Zpos q < 9007199254740992 -> -1074 <= e ->
  shr_fexp 53 1024 (Zpos q) e l = (shr_record_of_loc (Zpos q) l, e).
Proof.
  intros Hq He. unfold shr_fexp. rewrite (Zdigits2_bounds q 53) by (cbn; lia).
  replace (fexp 53 1024 (53 + e) - e) with 0 by (unfold fexp, emin; lia).
  reflexivity.
Qed.

Lemma shr_fexp_54 (q : positive) (e : Z) (l : location) :
  9007199254740992 <= Zpos q < 18014398509481984 -> -1074 <= e ->
  shr_fexp 53 1024 (Zpos q) e l = (shr_1 (shr_record_of_loc (Zpos q) l), e + 1).
Proof.
  intros Hq He. unfold shr_fexp. rewrite (Zdigits2_bounds q 54) by (cbn; lia).
  replace (fexp 53 1024 (54 + e) - e) with 1 by (unfold fexp, emin; lia).
  reflexivity.
Qed.

Lemma binary_round_aux_finish mx ex lx :
  binary_round_aux 53 1024 false mx ex lx =
  let '(mrs, e) := shr_fexp 53 1024 mx ex lx in
  finish (round_nearest_even (shr_m mrs) (loc_of_shr_record mrs)) e.
Proof. reflexivity. Qed.

Lemma finish_53 (p : positive) (e : Z) :
  4503599627370496 <= Zpos p < 9007199254740992 -> -1074 <= e <= 971 ->
  finish (Zpos p) e = S754_finite false p e.
Proof.
  intros Hp He. unfold finish. rewrite shr_fexp_53 by lia. cbn [shr_record_of_loc shr_m].
  replace (Z.leb e (1024 - 53)) with true by (symmetry; apply Z.leb_le; lia). reflexivity.
Qed.

Lemma finish_overflow (e : Z) :
  -1074 <= e <= 970 ->
  finish 9007199254740992 e = S754_finite false 4503599627370496 (e + 1).
Proof.
  intros He. unfold finish. rewrite shr_fexp_54 by lia.
  cbn [shr_record_of_loc shr_1 shr_m orb].
  replace (Z.leb (e + 1) (1024 - 53)) with true by (symmetry; apply Z.leb_le; lia). reflexivity.
Qed.

Lemma new_location_division (m2 r : Z) :
  0 <= r < m2 -> new_location m2 r = division_location m2 r.
Proof.
  intros Hr. unfold new_location, new_location_even, new_location_odd, division_location.
  destruct (Z.even m2) eqn:Heven; [reflexivity|].
  destruct (Z.eqb r 0); [reflexivity|]. f_equal.
  assert (Hodd : Z.odd m2 = true) by (rewrite <- Z.negb_even, Heven; reflexivity).
  apply Z.odd_spec in Hodd as [k Hk].
  destruct (Z.compare_spec (2 * r + 1) m2), (Z.compare_spec (2 * r) m2);
    try reflexivity; lia.
Qed.

(** Rounding to nearest of the quotient [q + r / m2], the mantissa having 53
    or 54 digits: the mantissa before the final normalisation. *)
Lemma round_step (q : positive) (e m2 r : Z) :
  4503599627370496 <= Zpos q < 18014398509481984 -> -1074 <= e -> 0 <= r < m2 ->
  exists (n : positive) (k : Z),
    (k = 0 \/ k = 1) /\
    binary_round_aux 53 1024 false (Zpos q) e (division_location m2 r) =
      finish (Zpos n) (e + k) /\
    4503599627370496 <= Zpos n <= 9007199254740992 /\
    2 * (Zpos q * m2 + r) <= 2 * (Zpos n * 2 ^ k) * m2 + 2 ^ k * m2 /\
    2 * (Zpos n * 2 ^ k) * m2 <= 2 * (Zpos q * m2 + r) + 2 ^ k * m2.
Proof.
  intros Hq He Hr. rewrite binary_round_aux_finish.
  destruct (Z_lt_ge_dec (Zpos q) 9007199254740992) as [Hlt|Hge].
  - rewrite shr_fexp_53 by lia. rewrite shr_m_record_of_loc, loc_of_shr_record_of_loc.
    unfold division_location.
    assert (Hup : Zpos q + 1 = Zpos (q + 1)) by reflexivity.
    destruct (Z.eqb_spec r 0) as [->|Hr0]; cbn [round_nearest_even].
    { exists q, 0. rewrite Z.add_0_r. repeat split; try (left; reflexivity); lia. }
    destruct (Z.compare_spec (2 * r) m2) as [Heq|Hlow|Hhigh]; cbn [round_nearest_even].
    + destruct (Z.even (Zpos q)).
      * exists q, 0. rewrite Z.add_0_r. repeat split; try (left; reflexivity); lia.
      * rewrite Hup. exists (q + 1)%positive, 0. rewrite Z.add_0_r.
        repeat split; try (left; reflexivity); lia.
    + exists q, 0. rewrite Z.add_0_r. repeat split; try (left; reflexivity); lia.
    + rewrite Hup. exists (q + 1)%positive, 0. rewrite Z.add_0_r.
      repeat split; try (left; reflexivity); lia.
  - rewrite shr_fexp_54 by lia. unfold division_location.
    destruct q as [h|h|]; [| |lia].
    + (* q = 2h + 1 *)
      assert (Hup : Zpos h + 1 = Zpos (h + 1)) by reflexivity.
      assert (Hh : Zpos h~1 = 2 * Zpos h + 1) by lia.
      destruct (Z.eqb_spec r 0) as [->|Hr0].
      * cbn [shr_record_of_loc shr_1 orb shr_m loc_of_shr_record round_nearest_even].
        destruct (Z.even (Zpos h)).
        -- exists h, 1. repeat split; try (right; reflexivity); lia.
        -- rewrite Hup. exists (h + 1)%positive, 1.
           repeat split; try (right; reflexivity); lia.
      * assert (Hrec : forall c,
                  shr_1 (shr_record_of_loc (Zpos h~1) (loc_Inexact c)) =
                  {| shr_m := Zpos h; shr_r := true; shr_s := true |})
          by (intros []; reflexivity).
        rewrite Hrec. cbn [shr_m loc_of_shr_record round_nearest_even]. rewrite Hup.
        exists (h + 1)%positive, 1. repeat split; try (right; reflexivity); lia.
    + (* q = 2h *)
      assert (Hh : Zpos h~0 = 2 * Zpos h) by lia.
      destruct (Z.eqb_spec r 0) as [->|Hr0].
      * cbn [shr_record_of_loc shr_1 orb shr_m loc_of_shr_record round_nearest_even].
        exists h, 1. repeat split; try (right; reflexivity); lia.
      * assert (Hrec : forall c,
                  shr_1 (shr_record_of_loc (Zpos h~0) (loc_Inexact c)) =
                  {| shr_m := Zpos h; shr_r := false; shr_s := true |})
          by (intros []; reflexivity).
        rewrite Hrec. cbn [shr_m loc_of_shr_record round_nearest_even].
        exists h, 1. repeat split; try (right; reflexivity); lia.
Qed.

(** Division rounds to nearest: the result [mz * 2^(e + t)] is within half a
    unit in the last place of the quotient [(q + r / m2) * 2^e]. *)
Lemma binary_round_aux_nearest (q : positive) (e m2 r : Z) :
  4503599627370496 <= Zpos q < 18014398509481984 -> -1074 <= e <= 969 -> 0 <= r < m2 ->
  exists (mz : positive) (t : Z),
    binary_round_aux 53 1024 false (Zpos q) e (division_location m2 r) =
      S754_finite false mz (e + t) /\
    4503599627370496 <= Zpos mz < 9007199254740992 /\
    (t = 0 \/ t = 1 \/ t = 2) /\
    2 * (Zpos q * m2 + r) <= 2 * (Zpos mz * 2 ^ t) * m2 + 2 ^ t * m2 /\
    2 * (Zpos mz * 2 ^ t) * m2 <= 2 * (Zpos q * m2 + r) + 2 ^ t * m2 /\
    (t = 2 -> Zpos q * m2 + r <= Zpos mz * 2 ^ t * m2).
Proof.
  intros Hq He Hr.
  destruct (round_step q e m2 r Hq ltac:(lia) Hr) as (n & k & Hk & -> & Hn & HL & HU).
  destruct (Z.eq_dec (Zpos n) 9007199254740992) as [Hover|Hin].
  - rewrite Hover, finish_overflow by lia.
    exists 4503599627370496%positive, (k + 1). rewrite Z.add_assoc.
    split; [reflexivity|]. split; [lia|].
    destruct Hk as [-> | ->]; cbn [Z.add Z.pow Z.pow_pos Pos.iter Z.mul Pos.mul Pos.add] in *;
      (split; [lia|]); repeat split; try nia.
  - rewrite finish_53 by lia. exists n, k.
    split; [reflexivity|]. split; [lia|].
    destruct Hk as [-> | ->]; (split; [lia|]); repeat split; try lia.
Qed.

(** The quotient of two positive normal numbers. *)
Lemma SFdiv_nearest (m1 m2 : positive) (e1 e2 : Z) :
  4503599627370496 <= Zpos m1 < 9007199254740992 ->
  4503599627370496 <= Zpos m2 < 9007199254740992 ->
  -1074 <= e1 - e2 - 53 <= 969 ->
  exists (mz : positive) (t : Z),
    SFdiv 53 1024 (S754_finite false m1 e1) (S754_finite false m2 e2) =
      S754_finite false mz (e1 - e2 - 53 + t) /\
    4503599627370496 <= Zpos mz < 9007199254740992 /\
    (t = 0 \/ t = 1 \/ t = 2) /\
    2 * (Zpos m1 * 9007199254740992) <= 2 * (Zpos mz * 2 ^ t) * Zpos m2 + 2 ^ t * Zpos m2 /\
    2 * (Zpos mz * 2 ^ t) * Zpos m2 <= 2 * (Zpos m1 * 9007199254740992) + 2 ^ t * Zpos m2 /\
    (t = 2 -> Zpos m1 * 9007199254740992 <= Zpos mz * 2 ^ t * Zpos m2).
Proof.
  intros H1 H2 He. unfold SFdiv, SFdiv_core_binary.
  rewrite (Zdigits2_bounds m1 53), (Zdigits2_bounds m2 53) by (cbn; lia).
  replace (Z.min (fexp 53 1024 (53 + e1 - (53 + e2))) (e1 - e2)) with (e1 - e2 - 53)
    by (unfold fexp, emin; lia).
  replace (e1 - e2 - (e1 - e2 - 53)) with 53 by lia.
  rewrite Z.shiftl_mul_pow2 by lia. change (2 ^ 53) with 9007199254740992.
  assert (Hdiv := Z_div_mod (Zpos m1 * 9007199254740992) (Zpos m2) ltac:(lia)).
  destruct (Z.div_eucl (Zpos m1 * 9007199254740992) (Zpos m2)) as [q r].
  destruct Hdiv as [Hqr Hr].
  assert (Hq : 4503599627370496 <= q < 18014398509481984) by nia.
  destruct q as [|q|q]; try lia.
  cbn [xorb]. rewrite new_location_division by exact Hr.
  destruct (binary_round_aux_nearest q (e1 - e2 - 53) (Zpos m2) r Hq He Hr)
    as (mz & t & Hrun & Hmz & Ht & HL & HU & HO).
  exists mz, t. rewrite Hrun. rewrite Hqr.
  replace (Zpos m2 * Zpos q + r) with (Zpos q * Zpos m2 + r) by lia.
  auto 10.
Qed.

(** Shifting out zeros is exact. *)
Lemma iter_shr_1_exact (n : positive) : forall P : positive,
  SpecFloat.iter_pos shr_1 n
    {| shr_m := Zpos (P * 2 ^ n); shr_r := false; shr_s := false |} =
  {| shr_m := Zpos P; shr_r := false; shr_s := false |}.
Proof.
  induction n as [n IH|n IH|]; intros P; cbn [SpecFloat.iter_pos].
  - replace (P * 2 ^ n~1)%positive with ((P * 2 ^ n) * 2 ^ n)~0%positive.
    2:{ apply Pos2Z.inj. rewrite Pos2Z.inj_xO, !Pos2Z.inj_mul, !Pos2Z.inj_pow.
        replace (Zpos n~1) with (Zpos n + Zpos n + 1) by lia.
        rewrite !Z.pow_add_r by lia. change (Zpos 2 ^ 1) with 2. lia. }
    cbn [shr_1 orb]. rewrite IH, IH. reflexivity.
  - replace (P * 2 ^ n~0)%positive with ((P * 2 ^ n) * 2 ^ n)%positive.
    2:{ apply Pos2Z.inj. rewrite !Pos2Z.inj_mul, !Pos2Z.inj_pow.
        replace (Zpos n~0) with (Zpos n + Zpos n) by lia.
        rewrite !Z.pow_add_r by lia. lia. }
    rewrite IH, IH. reflexivity.
  - replace (P * 2 ^ 1)%positive with P~0%positive by lia. reflexivity.
Qed.

Lemma Pos_iter_xO (n p : positive) : Zpos (Pos.iter xO p n) = Zpos p * 2 ^ Zpos n.
Proof.
  rewrite <- (Pos2Z.inj_pow 2 n), <- Pos2Z.inj_mul. f_equal.
  revert p. induction n as [|n IH] using Pos.peano_ind; intros p.
  - cbn. lia.
  - rewrite Pos.iter_succ, IH, Pos.pow_succ_r. lia.
Qed.

(** Rounding a number that 53 digits hold changes nothing: the result is
    the number in normal form. *)
Lemma binary_round_exact (p : positive) (e D j : Z) :
  Zpos p = D * 2 ^ j -> 0 <= j -> 0 < D < 9007199254740992 ->
  -1022 <= e + j <= 971 ->
  exists (m : positive) (s : Z),
    binary_round 53 1024 false p e = S754_finite false m (e + j - s) /\
    0 <= s <= 52 /\ Zpos m = D * 2 ^ s /\
    4503599627370496 <= Zpos m < 9007199254740992.
Proof.
  intros Hp Hj HD He.
  assert (Hdig := Zdigits2_le p). set (d := Zdigits2 (Zpos p)) in *.
  assert (Hd : 0 < d) by (unfold d; cbn; lia).
  assert (Hdj : d <= 53 + j).
  { apply Z.lt_succ_r, (Z.pow_lt_mono_r_iff 2); [lia | lia |].
    replace (Z.succ (53 + j)) with (53 + j + 1) by lia.
    rewrite Z.pow_add_r, (Z.pow_add_r 2 53 j) by lia.
    change (2 ^ 53) with 9007199254740992. change (2 ^ 1) with 2.
    assert (0 < 2 ^ j) by (apply Z.pow_pos_nonneg; lia).
    assert (2 ^ (d - 1) * 2 = 2 ^ d).
    { replace d with (d - 1 + 1) at 2 by lia. rewrite Z.pow_add_r by lia. reflexivity. }
    nia. }
  assert (Hjd : j < d).
  { apply (Z.pow_lt_mono_r_iff 2); [lia | lia |].
    assert (0 < 2 ^ j) by (apply Z.pow_pos_nonneg; lia). nia. }
  assert (Hnorm : forall (m : positive) (s : Z),
            Zpos m = D * 2 ^ s -> 0 <= s ->
            4503599627370496 <= Zpos m < 9007199254740992 -> s <= 52).
  { intros m s Hm Hs Hmb. apply Z.lt_succ_r, (Z.pow_lt_mono_r_iff 2); [lia | lia |].
    change (2 ^ Z.succ 52) with 9007199254740992.
    assert (0 < 2 ^ s) by (apply Z.pow_pos_nonneg; lia). nia. }
  unfold binary_round. change (Zpos (digits2_pos p)) with d.
  replace (fexp 53 1024 (d + e)) with (d + e - 53) by (unfold fexp, emin; lia).
  unfold shl_align. replace (d + e - 53 - e) with (d - 53) by lia.
  destruct (d - 53) as [|n|n] eqn:Hn; cbv beta iota.
  - (* 53 digits *)
    assert (Hpb : 4503599627370496 <= Zpos p < 9007199254740992).
    { replace d with 53 in Hdig by lia. exact Hdig. }
    rewrite binary_round_aux_finish, shr_fexp_53 by lia.
    cbn [shr_record_of_loc shr_m loc_of_shr_record round_nearest_even].
    rewrite finish_53 by lia.
    exists p, j. replace (e + j - j) with e by lia.
    split; [reflexivity|]. split; [|split; [exact Hp | exact Hpb]].
    split; [exact Hj | apply (Hnorm p j Hp Hj Hpb)].
  - (* more than 53 digits: the low ones are zero *)
    assert (Hnj : Zpos n <= j) by lia.
    assert (Hsplit : 2 ^ j = 2 ^ (j - Zpos n) * 2 ^ Zpos n)
      by (rewrite <- Z.pow_add_r by lia; f_equal; lia).
    assert (Hpos : 0 < D * 2 ^ (j - Zpos n))
      by (apply Z.mul_pos_pos; [lia | apply Z.pow_pos_nonneg; lia]).
    destruct (D * 2 ^ (j - Zpos n)) as [|P|P] eqn:HP; try lia.
    assert (HpP : p = (P * 2 ^ n)%positive).
    { apply Pos2Z.inj. rewrite Pos2Z.inj_mul, Pos2Z.inj_pow, Hp, Hsplit. lia. }
    assert (HPb : 4503599627370496 <= Zpos P < 9007199254740992).
    { assert (Hdn : d = 53 + Zpos n) by lia. rewrite Hdn in Hdig.
      replace (53 + Zpos n - 1) with (52 + Zpos n) in Hdig by lia.
      rewrite !Z.pow_add_r in Hdig by lia.
      change (2 ^ 52) with 4503599627370496 in Hdig.
      change (2 ^ 53) with 9007199254740992 in Hdig.
      rewrite HpP, Pos2Z.inj_mul, Pos2Z.inj_pow in Hdig.
      assert (0 < 2 ^ Zpos n) by (apply Z.pow_pos_nonneg; lia). nia. }
    rewrite binary_round_aux_finish. unfold shr_fexp. fold d.
    replace (fexp 53 1024 (d + e) - e) with (Zpos n) by (unfold fexp, emin; lia).
    cbn [shr shr_record_of_loc]. rewrite HpP, !iter_shr_1_exact.
    cbn [shr_m loc_of_shr_record round_nearest_even].
    rewrite finish_53 by lia.
    exists P, (j - Zpos n). replace (e + j - (j - Zpos n)) with (e + Zpos n) by lia.
    split; [reflexivity|]. split; [|split; [symmetry; exact HP | exact HPb]].
    split; [lia | apply (Hnorm P (j - Zpos n)); [symmetry; exact HP | lia | exact HPb]].
  - (* fewer than 53 digits *)
    assert (Hmz := Pos_iter_xO n p).
    assert (Hs : 2 ^ (d - 1) * 2 ^ Zpos n = 4503599627370496).
    { rewrite <- Z.pow_add_r by lia. replace (d - 1 + Zpos n) with 52 by lia. reflexivity. }
    assert (Hs' : 2 ^ d * 2 ^ Zpos n = 9007199254740992).
    { rewrite <- Z.pow_add_r by lia. replace (d + Zpos n) with 53 by lia. reflexivity. }
    assert (Hmb : 4503599627370496 <= Zpos (Pos.iter xO p n) < 9007199254740992).
    { rewrite Hmz. assert (0 < 2 ^ Zpos n) by (apply Z.pow_pos_nonneg; lia). nia. }
    rewrite binary_round_aux_finish, shr_fexp_53 by lia.
    cbn [shr_record_of_loc shr_m loc_of_shr_record round_nearest_even].
    rewrite finish_53 by lia.
    assert (Hm : Zpos (Pos.iter xO p n) = D * 2 ^ (j + Zpos n)).
    { rewrite Hmz, Hp, Z.pow_add_r by lia. lia. }
    exists (Pos.iter xO p n), (j + Zpos n).
    replace (e + j - (j + Zpos n)) with (d + e - 53) by lia.
    split; [reflexivity|]. split; [|split; [exact Hm | exact Hmb]].
    split; [lia | apply (Hnorm _ _ Hm); [lia | exact Hmb]].
Qed.

(** [float64(n)] is exact below 2^53: the number in normal form. *)
Lemma binary_normalize_exact (n : Z) :
  0 < n < 9007199254740992 ->
  exists (m : positive) (s : Z),
    binary_normalize 53 1024 n 0 false = S754_finite false m (- s) /\
    0 <= s <= 52 /\ Zpos m = n * 2 ^ s /\
    4503599627370496 <= Zpos m < 9007199254740992.
Proof.
  intros Hn. destruct n as [|p|p]; try lia. cbn [binary_normalize].
  destruct (binary_round_exact p 0 (Zpos p) 0) as (m & s & Hrun & Hs & Hm & Hmb);
    [cbn; lia | lia | lia | lia |].
  exists m, s. rewrite Hrun. auto.
Qed.

(** The difference of two integers below 2^53 is exact. *)
Lemma SFsub_exact (m1 m2 : positive) (s1 s2 A U : Z) :
  Zpos m1 = A * 2 ^ s1 -> Zpos m2 = U * 2 ^ s2 ->
  0 <= s1 <= 52 -> 0 <= s2 <= 52 ->
  4503599627370496 <= Zpos m1 < 9007199254740992 ->
  4503599627370496 <= Zpos m2 < 9007199254740992 ->
  0 < U < A ->
  exists (m : positive) (s : Z),
    SFsub 53 1024 (S754_finite false m1 (- s1)) (S754_finite false m2 (- s2)) =
      S754_finite false m (- s) /\
    0 <= s <= 52 /\ Zpos m = (A - U) * 2 ^ s /\
    4503599627370496 <= Zpos m < 9007199254740992.
Proof.
  intros Hm1 Hm2 Hs1 Hs2 Hb1 Hb2 HUA.
  assert (Hp1 : 0 < 2 ^ s1) by (apply Z.pow_pos_nonneg; lia).
  assert (Hp2 : 0 < 2 ^ s2) by (apply Z.pow_pos_nonneg; lia).
  assert (Hs : s1 <= s2).
  { apply Z.lt_succ_r, (Z.pow_lt_mono_r_iff 2); [lia | lia |].
    rewrite Z.pow_succ_r by lia. nia. }
  assert (Hsplit : 2 ^ s2 = 2 ^ s1 * 2 ^ (s2 - s1))
    by (rewrite <- Z.pow_add_r by lia; f_equal; lia).
  unfold SFsub. replace (Z.min (- s1) (- s2)) with (- s2) by lia.
  assert (Hfst : Zpos (fst (shl_align m1 (- s1) (- s2))) = A * 2 ^ s2).
  { unfold shl_align. destruct (- s2 - - s1) as [|d|d] eqn:Hd; cbn [fst]; try lia.
    - replace s2 with s1 by lia. exact Hm1.
    - rewrite Pos_iter_xO, Hm1, Hsplit. replace (Zpos d) with (s2 - s1) by lia. lia. }
  assert (Hsnd : fst (shl_align m2 (- s2) (- s2)) = m2).
  { unfold shl_align. rewrite Z.sub_diag. reflexivity. }
  cbn [cond_Zopp]. rewrite Hsnd.
  assert (Hdiff : Zpos (fst (shl_align m1 (- s1) (- s2))) - Zpos m2 = (A - U) * 2 ^ s2)
    by (rewrite Hfst, Hm2; lia).
  assert (HD : 0 < A - U < 9007199254740992) by nia.
  assert (Hpos : 0 < (A - U) * 2 ^ s2) by (apply Z.mul_pos_pos; lia).
  destruct (Zpos (fst (shl_align m1 (- s1) (- s2))) - Zpos m2) as [|p|p] eqn:Hz;
    [lia | | lia].
  cbn [binary_normalize].
  destruct (binary_round_exact p (- s2) (A - U) s2) as (m & s & Hrun & Hs' & Hm & Hmb);
    [exact Hdiff | lia | exact HD | lia |].
  exists m, s. rewrite Hrun. replace (- s2 + s2 - s) with (- s) by lia. auto.
Qed.

Lemma pow2_pos (k : Z) : 0 <= k -> 0 < 2 ^ k.
Proof. intros Hk. apply Z.pow_pos_nonneg; lia. Qed.

(** Comparing a positive normal number with 100. *)
Lemma SFleb_100 (mz : positive) (ez u w W : Z) :
  4503599627370496 <= Zpos mz ->
  0 <= u -> 0 <= w -> ez = -46 - (u - w) -> W = 2 ^ w ->
  Zpos mz * W * 128 <= 100 * 2 ^ u * 9007199254740992 + 64 * W ->
  SFleb (S754_finite false mz ez) (S754_finite false 7036874417766400 (-46)) = true.
Proof.
  intros Hmz Hu Hw -> -> Hineq.
  assert (HW : 0 < 2 ^ w) by (apply pow2_pos; lia).
  unfold SFleb, SFcompare.
  destruct (Z.compare_spec (-46 - (u - w)) (-46)) as [Heq|Hlt|Hgt]; [|reflexivity|].
  - assert (u = w) by lia. subst u.
    assert (Hle : Zpos mz <= 7036874417766400) by nia.
    rewrite Pos.compare_cont_spec. cbn [Pos.switch_Eq].
    destruct (Pos.compare_spec mz 7036874417766400); try reflexivity; lia.
  - exfalso. assert (Hpow : 2 * 2 ^ u <= 2 ^ w).
    { rewrite <- Z.pow_succ_r by lia. apply Z.pow_le_mono_r; lia. }
    nia.
Qed.

(** The used-percent of a guest with less than 2^53 KiB of memory stays
    within [0, 100]. *)
Lemma used_percent_binary64_bounds (A U : Z) :
  0 < U <= A -> A < 9007199254740992 ->
  let a := binary_normalize 53 1024 A 0 false in
  let u := binary_normalize 53 1024 U 0 false in
  let c := binary_normalize 53 1024 100 0 false in
  let v := SFdiv 53 1024 (SFsub 53 1024 a u) (SFdiv 53 1024 a c) in
  SFleb (S754_zero false) v = true /\ SFleb v c = true.
Proof.
  intros HU HA. cbv zeta.
  change (binary_normalize 53 1024 100 0 false)
    with (S754_finite false 7036874417766400 (-46)).
  destruct (binary_normalize_exact A ltac:(lia)) as (mA & sA & -> & HsA & HmA & HbA).
  destruct (binary_normalize_exact U ltac:(lia)) as (mU & sU & -> & HsU & HmU & HbU).
  (* available / 100 *)
  destruct (SFdiv_nearest mA 7036874417766400 (- sA) (-46) HbA ltac:(lia) ltac:(lia))
    as (my & t1 & -> & Hby & Ht1 & HL1 & _ & HO1).
  assert (HpA : 0 < 2 ^ sA) by (apply pow2_pos; lia).
  destruct (Z.eq_dec U A) as [->|Hne].
  { (* nothing is used *)
    assert (sU = sA).
    { destruct (Z.lt_trichotomy sU sA) as [Hlt|[Heq|Hlt]]; [exfalso|exact Heq|exfalso].
      - assert (2 * 2 ^ sU <= 2 ^ sA)
          by (rewrite <- Z.pow_succ_r by lia; apply Z.pow_le_mono_r; lia).
        assert (0 < 2 ^ sU) by (apply pow2_pos; lia). nia.
      - assert (2 * 2 ^ sA <= 2 ^ sU)
          by (rewrite <- Z.pow_succ_r by lia; apply Z.pow_le_mono_r; lia).
        nia. }
    subst sU. assert (mU = mA) by (apply Pos2Z.inj; congruence). subst mU.
    unfold SFsub. replace (Z.min (- sA) (- sA)) with (- sA) by lia.
    unfold shl_align. rewrite Z.sub_diag. cbn [fst cond_Zopp].
    rewrite ?Z.sub_diag. split; reflexivity. }
  destruct (SFsub_exact mA mU sA sU A U HmA HmU HsA HsU HbA HbU ltac:(lia))
    as (mD & sD & -> & HsD & HmD & HbD).
  (* (available - usable) / (available / 100) *)
  destruct (SFdiv_nearest mD my (- sD) (- sA - -46 - 53 + t1) HbD Hby)
    as (mz & t2 & -> & Hbz & Ht2 & _ & HU2 & _); [lia|].
  split; [reflexivity|].
  assert (HpD : 0 < 2 ^ sD) by (apply pow2_pos; lia).
  (* 100 * (available / 100) is not below available - usable *)
  assert (Hstar : (A - U) * 2 ^ sA * 128 <= 100 * Zpos my * 2 ^ t1).
  { destruct Ht1 as [-> | [-> | ->]].
    - change (2 ^ 0) with 1 in *. nia.
    - change (2 ^ 1) with 2 in *. nia.
    - change (2 ^ 2) with 4 in *. specialize (HO1 eq_refl). nia. }
  assert (Ht1' : 0 <= t1 <= 2) by lia. assert (Ht2' : 0 <= t2 <= 2) by lia.
  apply (SFleb_100 mz _ (sD + t1) (sA + t2) (2 ^ (sA + t2)));
    [lia | lia | lia | lia | reflexivity |].
  rewrite !Z.pow_add_r by lia.
  assert (Hp1 : 0 < 2 ^ t1) by (apply pow2_pos; lia).
  assert (Hp2 : 0 < 2 ^ t2) by (apply pow2_pos; lia).
  apply (Z.mul_le_mono_pos_l _ _ (Zpos my)); [lia|].
  rewrite HmD in HU2.
  set (TA := 2 ^ sA) in *. set (TD := 2 ^ sD) in *.
  set (T1 := 2 ^ t1) in *. set (T2 := 2 ^ t2) in *.
  assert (H1 : 64 * TA * (2 * (Zpos mz * T2) * Zpos my) <=
               64 * TA * (2 * ((A - U) * TD * 9007199254740992) + T2 * Zpos my))
    by (apply Z.mul_le_mono_nonneg_l; lia).
  assert (H2 : (A - U) * TA * 128 * (TD * 9007199254740992) <=
               100 * Zpos my * T1 * (TD * 9007199254740992))
    by (apply Z.mul_le_mono_nonneg_r; lia).
  lia.
Qed.

End Binary64.

(** ** The used-percent formula *)

Lemma used_percent_exact_bounds (A U : N) :
  (0 < A)%N -> (0 < U)%N -> (U <= A)%N ->
  let a := inject_Z (Z.of_N A) in
  let u := inject_Z (Z.of_N U) in
  (0 <= (a - u) / (a / inject_Z 100) <= 100)%Q.
Proof.
  intros HA HU HUA a u.
  assert (Ha : (0 < a)%Q) by (unfold a; rewrite <- (Zlt_Qlt 0); lia).
  assert (Hu : (0 < u)%Q) by (unfold u; rewrite <- (Zlt_Qlt 0); lia).
  assert (Hua : (u <= a)%Q) by (unfold a, u; rewrite <- Zle_Qle; lia).
  assert (Hd : (0 < a / inject_Z 100)%Q).
  { apply Qlt_shift_div_l; [reflexivity | lra]. }
  split.
  - apply Qle_shift_div_l; [exact Hd | lra].
  - apply Qle_shift_div_r; [exact Hd|].
    assert (E : (100 * (a / inject_Z 100) == a)%Q) by (field; discriminate).
    rewrite E. lra.
Qed.

(** Read in exact rational arithmetic, the formula stays within [0, 100]
    whenever [0 < Available] and [Usable <= Available]. *)
Remark used_percent_exact_in_range (MemoryStats : libvirtSchema.VirDomainMemoryStats) :
  (0 < libvirtSchema.Available MemoryStats)%N ->
  (libvirtSchema.Usable MemoryStats <= libvirtSchema.Available MemoryStats)%N ->
  (0 <= used_percent exactQ MemoryStats <= 100)%Q.
Proof.
  intros HA HUA. unfold used_percent.
  destruct (N.eqb_spec (libvirtSchema.Usable MemoryStats) 0) as [HU|HU];
    cbn [negb andb]; [split; discriminate|].
  destruct (N.eqb_spec (libvirtSchema.Available MemoryStats) 0) as [HA0|HA0];
    cbn [negb andb]; [split; discriminate|].
  apply (used_percent_exact_bounds (libvirtSchema.Available MemoryStats)
           (libvirtSchema.Usable MemoryStats)); lia.
Qed.

(** The float64 that the program computes stays within [0, 100] as long as
    the available memory is below 2^53, where [float64(Available)] and
    [float64(Usable)] are exact. *)
Lemma used_percent_binary64_in_range (MemoryStats : libvirtSchema.VirDomainMemoryStats) :
  (0 < libvirtSchema.Available MemoryStats)%N ->
  (libvirtSchema.Usable MemoryStats <= libvirtSchema.Available MemoryStats)%N ->
  (libvirtSchema.Available MemoryStats < 9007199254740992)%N ->
  F64.leb F64.zero (used_percent binary64 MemoryStats) = true /\
  F64.leb (used_percent binary64 MemoryStats) (F64.of_Z 100) = true.
Proof.
  intros HA HUA Hlt. unfold used_percent.
  destruct (N.eqb_spec (libvirtSchema.Usable MemoryStats) 0) as [HU|HU];
    cbn [negb andb]; [split; reflexivity|].
  destruct (N.eqb_spec (libvirtSchema.Available MemoryStats) 0) as [HA0|HA0];
    cbn [negb andb]; [split; reflexivity|].
  exact (used_percent_binary64_bounds
           (Z.of_N (libvirtSchema.Available MemoryStats))
           (Z.of_N (libvirtSchema.Usable MemoryStats))
           ltac:(lia) ltac:(lia)).
Qed.

(** C7 (as amended).  The used-percent metric that ends the memory stage is
    zero when the usable or the available memory is zero, and otherwise the
    float64 value of [(Available - Usable) / (Available / 100)].  The float64
    that is sent lies in [0, 100] whenever [0 < Available],
    [Usable <= Available] and [Available < 2^53]; from 2^53 on
    [float64(Available)] is rounded and the bound is lost. *)
Theorem used_percent_formula domain domainName g memorystat :
  Domain.MemoryStats domain = Ok memorystat ->
  let MemoryStats := memoryStatCollect memorystat in
  let Available := libvirtSchema.Available MemoryStats in
  let Usable := libvirtSchema.Usable MemoryStats in
  last (events_of (collect_memory_stats domain domainName g)) =
    Some (Send (MustNewConstMetric libvirtDomainMemoryStatUsedPercentDesc GaugeValue
                  (used_percent binary64 MemoryStats) [domainName])) /\
  (Usable = 0%N \/ Available = 0%N -> used_percent binary64 MemoryStats = F64.zero) /\
  (Usable <> 0%N -> Available <> 0%N ->
   used_percent binary64 MemoryStats =
   F64.div (F64.sub (F64.of_N Available) (F64.of_N Usable))
           (F64.div (F64.of_N Available) (F64.of_N 100))) /\
  ((0 < Available)%N -> (Usable <= Available)%N -> (Available < 9007199254740992)%N ->
   F64.leb F64.zero (used_percent binary64 MemoryStats) = true /\
   F64.leb (used_percent binary64 MemoryStats) (F64.of_Z 100) = true).
Proof.
  intros Hstats MemoryStats Available Usable. split.
  { rewrite run_collect_memory_stats, Hstats. reflexivity. }
  split; [|split].
  - unfold used_percent. fold Available Usable.
    intros [-> | ->]; [reflexivity|]. rewrite andb_false_r. reflexivity.
  - unfold used_percent. fold Available Usable.
    intros HU HA. apply N.eqb_neq in HU, HA. rewrite HU, HA. reflexivity.
  - intros HA HUA Hlt. apply used_percent_binary64_in_range; assumption.
Qed.

(** * The properties on the scenarios *)

Example version_string_7_2_0 : version_string 7002000 = "7.2.0".
Proof. reflexivity. Qed.

(** 5,000,000,000 ns of run-queue wait are 5.0 seconds. *)
Example run_queue_wait_in_seconds : F64.div (F64.of_N 5000000000) f_1e9 = F64.of_Z 5.
Proof. vm_compute. reflexivity. Qed.

(** Available 1000 KiB, usable 400 KiB: 60 percent. *)
Example used_percent_60 :
  used_percent binary64 (memoryStatCollect [ {| Tag := 5; Val := 1000 |}; {| Tag := 8; Val := 400 |} ])
  = F64.of_Z 60.
Proof. vm_compute. reflexivity. Qed.

(** A CD-ROM "hdc" next to the disk "vda": block metrics for "vda" only. *)
Example cdrom_next_to_disk :
  List.filter (block_metric_of "hdc")
    (events_of (CollectDomain Scenario.host Scenario.stat_cdrom Scenario.scraping)) = [] /\
  List.filter (block_metric_of "vda")
    (events_of (CollectDomain Scenario.host Scenario.stat_cdrom Scenario.scraping)) =
  [Send (MustNewConstMetric libvirtDomainMetaBlockDesc GaugeValue (F64.of_Z 1)
           ["vm-1"; "vda"; "volumes/vol-1"; "s-1"; "virtio"; "network"; "raw"; "none";
            "unmap"]);
   Send (MustNewConstMetric libvirtDomainBlockRdBytesDesc CounterValue (F64.of_N 4096)
           ["vm-1"; "vda"])].
Proof. split; vm_compute; reflexivity. Qed.

Lemma explicit_delay_bypasses_estimator_witness :
  List.filter (estimator_call_of 0)
    (events_of (CollectDomain Scenario.host Scenario.stat_delay Scenario.scraping)) = [] /\
  List.filter (delay_metric_of "vm-1" 0)
    (events_of (CollectDomain Scenario.host Scenario.stat_delay Scenario.scraping)) =
  [Send (MustNewConstMetric libvirtDomainVcpuDelayDesc CounterValue
           (F64.div (F64.of_N 7000000000) f_1e9) ["vm-1"; "0"])].
Proof.
  destruct (explicit_delay_bypasses_estimator Scenario.host Scenario.stat_delay
              Scenario.scraping "vm-1" 0 Scenario.vcpu_delay eq_refl eq_refl)
    as (Hcall & Hdelay & _).
  split; [exact Hcall | apply Hdelay; reflexivity].
Defined.

(** C1 as stated fails: the hypervisor reports the delay of VCPU 0, [GetVcpus]
    fails with an invalid operation, CollectDomain returns nil and has sent
    no delay metric. *)
Lemma explicit_delay_lost_when_GetVcpus_fails :
  Vcpu Scenario.stat_delay_no_vcpus !! 0%nat = Some Scenario.vcpu_delay /\
  DelaySet Scenario.vcpu_delay = true /\
  outcome_of (CollectDomain Scenario.host Scenario.stat_delay_no_vcpus Scenario.scraping)
    = Done tt /\
  List.filter vcpu_delay_event
    (events_of (CollectDomain Scenario.host Scenario.stat_delay_no_vcpus Scenario.scraping))
    = [].
Proof. repeat split; vm_compute; reflexivity. Qed.

Lemma estimated_delay_from_schedstat_witness :
  List.filter (delay_metric_of "vm-1" 0)
    (events_of (CollectDomain Scenario.host Scenario.stat_estimated Scenario.scraping)) =
  [Send (MustNewConstMetric libvirtDomainVcpuDelayDesc CounterValue
           (F64.div (F64.of_N 5000000000) f_1e9) ["vm-1"; "0"])] /\
  exists before after,
    events_of (CollectDomain Scenario.host Scenario.stat_no_schedstat Scenario.scraping) =
    before ++
    SchedStatCall 0 "/proc/100/task" 151 ::
    LogError [LStr "err"; LStr "unable to collect vcpu delay metric"; LStr "msg";
              LErr (OtherError "unexpected EOF")] ::
    after.
Proof.
  split.
  - destruct (estimated_delay_from_schedstat Scenario.host Scenario.stat_estimated
                Scenario.scraping "vm-1" 0 Scenario.vcpu_no_delay
                eq_refl eq_refl eq_refl eq_refl) as (Hread & _ & _).
    apply (Hread ltac:(vm_compute; lia)
             {| PID := 150; Cputime := 1000; Runqueue := 5000000000; Timeslices := 7 |}).
    vm_compute. reflexivity.
  - destruct (estimated_delay_from_schedstat Scenario.host Scenario.stat_no_schedstat
                Scenario.scraping "vm-1" 0 Scenario.vcpu_no_delay
                eq_refl eq_refl eq_refl eq_refl) as (_ & Hfail & _).
    destruct (Hfail ltac:(vm_compute; lia) (OtherError "unexpected EOF")
                ltac:(vm_compute; reflexivity)) as [_ Hlog].
    exact Hlog.
Defined.

(** C2 as stated fails: VCPU 0 has no explicit delay, its index is below the
    length of the thread-ID list, the thread has no schedstat file, and no
    delay metric is sent; the failed read leaves the one log line of the
    run. *)
Lemma no_delay_when_schedstat_missing :
  Vcpu Scenario.stat_no_schedstat !! 0%nat = Some Scenario.vcpu_no_delay /\
  DelaySet Scenario.vcpu_no_delay = false /\
  (GetDomainVcpuPids Scenario.host (Domain Scenario.stat_no_schedstat)).1 = [151] /\
  outcome_of (CollectDomain Scenario.host Scenario.stat_no_schedstat Scenario.scraping)
    = Done tt /\
  List.filter (delay_metric_of "vm-1" 0)
    (events_of (CollectDomain Scenario.host Scenario.stat_no_schedstat Scenario.scraping))
    = [] /\
  List.filter log_event
    (events_of (CollectDomain Scenario.host Scenario.stat_no_schedstat Scenario.scraping))
    = [LogError [LStr "err"; LStr "unable to collect vcpu delay metric"; LStr "msg";
                 LErr (OtherError "unexpected EOF")]].
Proof. repeat split; vm_compute; reflexivity. Qed.

Lemma unmatched_domain_uses_pid_zero_witness :
  GetDomainPid Scenario.host "vm-2" Scenario.scraping = (Done 0, Scenario.scraping, []) /\
  List.filter (estimator_call_of 0)
    (events_of (CollectDomain Scenario.host Scenario.stat_unmatched Scenario.scraping)) =
  [SchedStatCall 0 "/proc/0/task" 150] /\
  List.filter (delay_metric_of "vm-2" 0)
    (events_of (CollectDomain Scenario.host Scenario.stat_unmatched Scenario.scraping)) = [].
Proof.
  assert (Hno : forall process, process ∈ processes Scenario.scraping ->
            strings_Contains
              (GetCmdLine Scenario.host (procFSPath Scenario.host) process) "vm-2" = false).
  { intros process Hin. apply list_elem_of_singleton in Hin. subst process.
    vm_compute. reflexivity. }
  destruct (unmatched_domain_uses_pid_zero Scenario.host "vm-2" Scenario.scraping Hno)
    as (Hpid & _ & Hrun).
  destruct (Hrun Scenario.stat_unmatched 0%nat Scenario.vcpu_no_delay 150
              eq_refl eq_refl eq_refl eq_refl eq_refl) as [Hcall Hdelay].
  split; [exact Hpid | split; [exact Hcall | exact Hdelay]].
Defined.

Lemma memory_metrics_always_sent_witness :
  List.filter memory_metric
    (events_of (CollectDomain Scenario.host Scenario.stat_no_memory Scenario.scraping)) =
  map Send (memory_metrics "vm-1" zero_MemoryStats F64.zero) /\
  map value (memory_metrics "vm-1" zero_MemoryStats F64.zero) = repeat F64.zero 9.
Proof.
  destruct (memory_metrics_always_sent Scenario.host Scenario.stat_no_memory
              Scenario.scraping "vm-1" eq_refl)
    as (_ & Hsent & _ & _ & Hzero).
  split; [apply Hsent; vm_compute; reflexivity | exact Hzero].
Defined.

(** C8 as stated fails: the domain "vm-1" answers the memory-statistics
    call, but [GetVcpus] fails because the domain is gone; CollectDomain
    returns that error before the memory stage and sends none of the nine
    memory metrics. *)
Lemma memory_metrics_lost_when_domain_aborts :
  Domain.GetName (Domain Scenario.stat_vcpus_lost) = Ok "vm-1" /\
  Domain.MemoryStats (Domain Scenario.stat_vcpus_lost) =
    Ok [ {| Tag := 5; Val := 1000 |}; {| Tag := 8; Val := 400 |} ] /\
  Domain.GetVcpus (Domain Scenario.stat_vcpus_lost) = Fail Scenario.no_domain /\
  outcome_of (CollectDomain Scenario.host Scenario.stat_vcpus_lost Scenario.scraping)
    = Raised Scenario.no_domain /\
  List.filter memory_metric
    (events_of (CollectDomain Scenario.host Scenario.stat_vcpus_lost Scenario.scraping))
    = [].
Proof. repeat split; vm_compute; reflexivity. Qed.

Lemma up_gauge_reports_scrape_witness :
  events_of (Collect Scenario.host_batch_failure "qemu:///system" Scenario.started) =
    [Send (MustNewConstMetric libvirtVersionsInfoDesc GaugeValue (F64.of_Z 1)
             ["6.2.0"; "7.2.0"; "8.0.0"]);
     ConnClose;
     LogError [LStr "err"; LStr "failed to scrape metrics"; LStr "uri";
               LStr "qemu:///system"; LStr "msg"; LErr Scenario.no_domain];
     Send (MustNewConstMetric libvirtUpDesc GaugeValue (F64.of_Z 0) [])] /\
  events_of (Collect Scenario.host "qemu:///system" Scenario.started) =
    events_of (CollectFromLibvirt Scenario.host "qemu:///system" Scenario.started) ++
    [Send (MustNewConstMetric libvirtUpDesc GaugeValue (F64.of_Z 1) [])].
Proof.
  split.
  - apply (proj1 (up_gauge_reports_scrape Scenario.host_batch_failure "qemu:///system"
                    Scenario.started)
             (Scenario.conn ([], Some Scenario.no_domain) [Scenario.pool 1 "default" None])
             6002000%N 7002000%N 8000000%N
             [ {| Name := "100"; IsDir := true |};
               {| Name := "cpuinfo"; IsDir := false |};
               {| Name := "sys"; IsDir := true |} ]
             [] Scenario.no_domain); reflexivity.
  - apply (proj2 (up_gauge_reports_scrape Scenario.host "qemu:///system" Scenario.started)).
    vm_compute. reflexivity.
Defined.

Lemma used_percent_formula_witness :
  let MemoryStats :=
    memoryStatCollect [ {| Tag := 5; Val := 1000 |}; {| Tag := 8; Val := 400 |} ] in
  last (events_of (collect_memory_stats (Domain Scenario.stat_estimated) "vm-1"
                     Scenario.scraping)) =
    Some (Send (MustNewConstMetric libvirtDomainMemoryStatUsedPercentDesc GaugeValue
                  (used_percent binary64 MemoryStats) ["vm-1"])) /\
  used_percent binary64 MemoryStats =
    F64.div (F64.sub (F64.of_N 1000) (F64.of_N 400)) (F64.div (F64.of_N 1000) (F64.of_N 100)) /\
  F64.leb F64.zero (used_percent binary64 MemoryStats) = true /\
  F64.leb (used_percent binary64 MemoryStats) (F64.of_Z 100) = true.
Proof.
  destruct (used_percent_formula (Domain Scenario.stat_estimated) "vm-1" Scenario.scraping
              [ {| Tag := 5; Val := 1000 |}; {| Tag := 8; Val := 400 |} ] eq_refl)
    as (Hlast & _ & Hformula & Hbounds).
  split; [exact Hlast | split].
  - apply Hformula; discriminate.
  - apply Hbounds; vm_compute; first [reflexivity | discriminate].
Defined.

(** C7 as stated fails: with 2^53 + 3 KiB available and 1 KiB usable the
    used-percent sent is 7036874417766401 * 2^-46, the float64 next above
    100 = 7036874417766400 * 2^-46. *)
Lemma used_percent_above_100 :
  Domain.MemoryStats (Domain Scenario.stat_huge_memory) =
    Ok [ {| Tag := 5; Val := 9007199254740995 |}; {| Tag := 8; Val := 1 |} ] /\
  libvirtSchema.Available Scenario.huge_memory = 9007199254740995%N /\
  libvirtSchema.Usable Scenario.huge_memory = 1%N /\
  (0 < libvirtSchema.Available Scenario.huge_memory)%N /\
  (libvirtSchema.Usable Scenario.huge_memory <= libvirtSchema.Available Scenario.huge_memory)%N /\
  last (events_of (CollectDomain Scenario.host Scenario.stat_huge_memory Scenario.scraping)) =
    Some (Send (MustNewConstMetric libvirtDomainMemoryStatUsedPercentDesc GaugeValue
                  (S754_finite false 7036874417766401 (-46)) ["vm-1"])) /\
  F64.of_Z 100 = S754_finite false 7036874417766400 (-46) /\
  F64.ltb (F64.of_Z 100) (S754_finite false 7036874417766401 (-46)) = true.
Proof. repeat split; vm_compute; try reflexivity; discriminate. Qed.

(** C3: on a block device that the XML description does not have, the
    [Device] pointer is nil when [Device.Serial] is read: CollectDomain
    panics, and no block metric and no memory metric is sent. *)
Theorem unknown_block_device_panics :
  find_disk (libvirtSchema.Devices_Disks Scenario.desc_vm1) (Scenario.block "vdb") = ("", None) /\
  outcome_of (CollectDomain Scenario.host Scenario.stat_unknown_disk Scenario.scraping)
    = Panicked "invalid memory address or nil pointer dereference" /\
  List.filter (block_metric_of "vdb")
    (events_of (CollectDomain Scenario.host Scenario.stat_unknown_disk Scenario.scraping))
    = [] /\
  List.filter memory_metric
    (events_of (CollectDomain Scenario.host Scenario.stat_unknown_disk Scenario.scraping))
    = [].
Proof. repeat split; vm_compute; reflexivity. Qed.

(** C4: the error dispatch after [GetBlockIoTune] runs under [!ok], so a
    [libvirt.Error] of any code is let through without a log line, and an
    error of another type is returned.  On the scenario, an invalid
    operation leaves no log line and a "Domain not found" does not stop
    CollectDomain. *)
Theorem iotune_errors_pass_unlogged :
  (forall Code text g, block_iotune_error (LibvirtError Code text) g = (Done tt, g, [])) /\
  (forall text g,
     block_iotune_error (OtherError text) g = (Raised (OtherError text), g, [])) /\
  outcome_of (CollectDomain Scenario.host (Scenario.stat_iotune Scenario.invalid_operation)
                Scenario.scraping) = Done tt /\
  List.filter log_event
    (events_of (CollectDomain Scenario.host (Scenario.stat_iotune Scenario.invalid_operation)
                  Scenario.scraping)) = [] /\
  outcome_of (CollectDomain Scenario.host (Scenario.stat_iotune Scenario.no_domain)
                Scenario.scraping) = Done tt.
Proof. repeat split; vm_compute; reflexivity. Qed.

(** C6: with two active pools, when the refresh of the first one fails
    CollectFromLibvirt returns the error after it has released the first
    pool and the domain; the handle of the second pool is never released. *)
Theorem pool_handle_leaks_on_error :
  Connect.ListAllStoragePools
    (Scenario.conn ([Scenario.stat_estimated], None)
       [Scenario.pool 1 "default" (Some Scenario.no_domain); Scenario.pool 2 "images" None])
    = ([Scenario.pool 1 "default" (Some Scenario.no_domain); Scenario.pool 2 "images" None],
       None) /\
  outcome_of (CollectFromLibvirt Scenario.host_two_pools "qemu:///system" Scenario.started)
    = Raised Scenario.no_domain /\
  List.filter release_event
    (events_of (CollectFromLibvirt Scenario.host_two_pools "qemu:///system" Scenario.started))
    = [PoolFree 1; DomainFree 1].
Proof. repeat split; vm_compute; reflexivity. Qed.
(** * Further properties of the exporter *)

(** ** Invariants of the metrics of a scrape *)

Lemma emits_set_processes (P : event -> Prop) ps : emits P (set_processes ps).
Proof. intros g. constructor. Qed.

Lemma emits_GetProcessList (P : event -> Prop) W procFS :
  emits P (GetProcessList W procFS).
Proof.
  unfold GetProcessList. destruct (os_ReadDir W procFS); [apply emits_ret | apply emits_fatal].
Qed.

Lemma emits_collect_memory_stats (P : event -> Prop) domain domainName :
  (forall MemoryStats usedPercent,
     Forall P (map Send (memory_metrics domainName MemoryStats usedPercent))) ->
  emits P (collect_memory_stats domain domainName).
Proof.
  intros HP g. rewrite run_collect_memory_stats. unfold events_of. cbn [snd].
  destruct (Domain.MemoryStats domain); apply HP.
Qed.

(** Walks down a scrape, through CollectFromLibvirt, CollectDomain and
    CollectStoragePool. *)
Ltac scrape_special leaf :=
  first
    [ apply emits_GetDomainPid | apply emits_set_processes | apply emits_GetProcessList
    | apply emits_catch | apply emits_defer
    | apply emits_collect_memory_stats; intros; cbn [map memory_metrics];
      repeat (apply List.Forall_cons; [cbv beta; leaf|]); apply List.Forall_nil
    | match goal with
      | |- emits _ (Collect _ _) => unfold Collect
      | |- emits _ (CollectFromLibvirt _ _) => unfold CollectFromLibvirt
      | |- emits _ (CollectDomain _ _) => unfold CollectDomain
      | |- emits _ (CollectStoragePool _) => unfold CollectStoragePool
      | |- emits _ (pool_body _) => unfold pool_body
      | |- emits _ (free_domains _) => unfold free_domains
      | |- emits _ (tolerate_operation_invalid _) => unfold tolerate_operation_invalid
      | |- emits _ (report_domain_info _ _ _ _) => unfold report_domain_info
      | |- emits _ (vcpu_info_body _ _) => unfold vcpu_info_body
      | |- emits _ (vcpu_stats_body _ _ _ _ _ _) => unfold vcpu_stats_body
      | |- emits _ (block_body _ _ _ _) =>
          unfold block_body, block_counters, block_iotune_error, block_iotune
      | |- emits _ (net_body _ _ _) => unfold net_body
      end ].

Ltac scrape_tac leaf := emits_with ltac:(scrape_special leaf) leaf.

Lemma Forall_metrics_of (P : Metric -> Prop) (tr : list event) :
  Forall (fun e => match e with Send m => P m | _ => True end) tr ->
  Forall P (metrics_of tr).
Proof.
  unfold metrics_of. induction 1 as [|e tr He _ IH]; [constructor|].
  destruct e; cbn; try exact IH. constructor; assumption.
Qed.

(** X1.  Every metric that a scrape sends, however the scrape ends, has as
    many label values as its descriptor has label names: no call of
    [MustNewConstMetric] panics for the number of its labels. *)
Theorem scrape_metrics_well_labelled (W : World) (uri : string) (g : globals) :
  Forall well_labelled (metrics_of (events_of (Collect W uri g))).
Proof.
  apply Forall_metrics_of. revert g. change (emits
    (fun e => match e with Send m => well_labelled m | _ => True end) (Collect W uri)).
  scrape_tac ltac:(first [exact I | reflexivity]).
Qed.

(** X2.  A scrape sends a metric as a counter exactly when the name of its
    descriptor ends in "_total"; every other metric is a gauge. *)
Theorem counters_end_in_total (W : World) (uri : string) (g : globals) :
  Forall (fun m => valueType m = CounterValue <->
                   strings_HasSuffix (fqName (desc m)) "_total" = true)
    (metrics_of (events_of (Collect W uri g))).
Proof.
  apply Forall_metrics_of. revert g. change (emits
    (fun e => match e with
              | Send m => valueType m = CounterValue <->
                          strings_HasSuffix (fqName (desc m)) "_total" = true
              | _ => True
              end) (Collect W uri)).
  scrape_tac ltac:(first [ exact I
                         | vm_compute; split; intros; first [reflexivity | discriminate] ]).
Qed.

(** X3.  Every metric of a scrape carries a descriptor that [Describe]
    announces, or is the used-percent gauge of the memory statistics or one
    of the I/O-tuning limits of a block device; [Describe] announces none of
    these. *)
Theorem scrape_descriptors_described (W : World) (uri : string) (g : globals) :
  Forall (fun m => In (desc m) Describe \/
                   desc m = libvirtDomainMemoryStatUsedPercentDesc \/
                   desc m = libvirtDomainBlockSizeIopsSecDesc \/
                   String.prefix "libvirt_domain_block_stats_limit_" (fqName (desc m)) = true)
    (metrics_of (events_of (Collect W uri g))) /\
  Forall (fun d => d <> libvirtDomainMemoryStatUsedPercentDesc /\
                   d <> libvirtDomainBlockSizeIopsSecDesc /\
                   String.prefix "libvirt_domain_block_stats_limit_" (fqName d) = false)
    Describe.
Proof.
  split.
  - apply Forall_metrics_of. revert g. change (emits
      (fun e => match e with
                | Send m =>
                    In (desc m) Describe \/
                    desc m = libvirtDomainMemoryStatUsedPercentDesc \/
                    desc m = libvirtDomainBlockSizeIopsSecDesc \/
                    String.prefix "libvirt_domain_block_stats_limit_" (fqName (desc m)) = true
                | _ => True
                end) (Collect W uri)).
    scrape_tac ltac:(first
      [ exact I
      | cbn [desc fqName];
        first [ right; right; right; reflexivity
              | right; right; left; reflexivity
              | right; left; reflexivity
              | left; unfold Describe; cbn [In];
                repeat first [left; reflexivity | right] ] ]).
  - unfold Describe. repeat (apply List.Forall_cons; [repeat split; discriminate|]).
    apply List.Forall_nil.
Qed.

Lemma emits_bind_Done {X Y} (P : event -> Prop) (m : M X) (f : X -> M Y) a :
  (forall g, m g = (Done a, g, [])) -> emits P (f a) -> emits P (m ≫= f).
Proof. intros Hm Hf g. rewrite (run_bind_pure m a f g (Hm g)). apply Hf. Qed.

(** X4.  Every metric that the collection of a domain sends names the domain:
    its first label value is the name that [GetName] returned, and the first
    label of its descriptor is "domain". *)
Theorem domain_metrics_name_the_domain (W : World) (stat : DomainStats) (g : globals)
    (domainName : string) :
  Domain.GetName (Domain stat) = Ok domainName ->
  Forall (fun m => head (labelValues m) = Some domainName /\
                   head (variableLabels (desc m)) = Some "domain")
    (metrics_of (events_of (CollectDomain W stat g))).
Proof.
  intros Hname. apply Forall_metrics_of. revert g. change (emits
    (fun e => match e with
              | Send m => head (labelValues m) = Some domainName /\
                          head (variableLabels (desc m)) = Some "domain"
              | _ => True
              end) (CollectDomain W stat)).
  unfold CollectDomain. rewrite Hname.
  apply (emits_bind_Done _ _ _ domainName); [reflexivity|].
  scrape_tac ltac:(first [exact I | split; reflexivity]).
Qed.

(** ** The package-level variables *)

Section Leaves.

Lemma leaves_pure {X} (m : M X) r tr :
  (forall g, m g = (r, g, tr)) -> leaves_errorsMap m.
Proof. intros Hm g g' Hp. rewrite !Hm. auto. Qed.

Lemma leaves_ret {X} (x : X) : leaves_errorsMap (mret x).
Proof. apply (leaves_pure _ (Done x) []). reflexivity. Qed.

Lemma leaves_raise {X} err : leaves_errorsMap (@raise X err).
Proof. apply (leaves_pure _ (Raised err) []). reflexivity. Qed.

Lemma leaves_panic {X} msg : leaves_errorsMap (@panic X msg).
Proof. apply (leaves_pure _ (Panicked msg) []). reflexivity. Qed.

Lemma leaves_try {X} (r : result X) : leaves_errorsMap (try_ r).
Proof. destruct r; [apply leaves_ret | apply leaves_raise]. Qed.

Lemma leaves_emit e : leaves_errorsMap (emit e).
Proof. apply (leaves_pure _ (Done tt) [e]). reflexivity. Qed.

Lemma leaves_send d vt v labels : leaves_errorsMap (send d vt v labels).
Proof. apply leaves_emit. Qed.

Lemma leaves_bind {X Y} (m : M X) (f : X -> M Y) :
  leaves_errorsMap m -> (forall x, leaves_errorsMap (f x)) -> leaves_errorsMap (m ≫= f).
Proof.
  intros Hm Hf g g' Hp. destruct (Hm g g' Hp) as (Ho & He & Hps & Hem).
  rewrite !run_bind.
  destruct (m g) as [[r g1] tr1], (m g') as [[r' g1'] tr1'].
  unfold outcome_of, events_of, globals_of in *. cbn [fst snd] in *. subst r' tr1'.
  destruct r as [a|err|msg|]; cbn [fst snd]; auto.
  destruct (Hf a g1 g1' Hps) as (Ho2 & He2 & Hps2 & Hem2).
  destruct (f a g1) as [[r2 g2] tr2], (f a g1') as [[r2' g2'] tr2'].
  unfold outcome_of, events_of, globals_of in *. cbn [fst snd] in *. subst.
  repeat split; congruence.
Qed.

Lemma leaves_when b (m : M unit) : leaves_errorsMap m -> leaves_errorsMap (when_ b m).
Proof. destruct b; [trivial | intros _; apply leaves_ret]. Qed.

Lemma leaves_range_from {X} (body : nat -> X -> M unit) l :
  (forall i x, leaves_errorsMap (body i x)) -> forall i, leaves_errorsMap (range_from i l body).
Proof.
  intros Hb. induction l as [|x l IH]; intros i; cbn [range_from].
  - apply leaves_ret.
  - apply leaves_bind; [apply Hb | intros _; apply IH].
Qed.

Lemma leaves_range {X} (body : nat -> X -> M unit) l :
  (forall i x, leaves_errorsMap (body i x)) -> leaves_errorsMap (range_ l body).
Proof. intros Hb. apply leaves_range_from, Hb. Qed.

Lemma leaves_catch (m : M unit) : leaves_errorsMap m -> leaves_errorsMap (catch m).
Proof.
  intros Hm g g' Hp. destruct (Hm g g' Hp) as (Ho & He & Hps & Hem). unfold catch.
  destruct (m g) as [[r g1] tr1], (m g') as [[r' g1'] tr1'].
  unfold outcome_of, events_of, globals_of in *. cbn [fst snd] in *. subst r' tr1'.
  destruct r; cbn [fst snd]; auto.
Qed.

Lemma leaves_defer {X} (cleanup : M unit) (body : M X) :
  leaves_errorsMap cleanup -> leaves_errorsMap body -> leaves_errorsMap (defer_ cleanup body).
Proof.
  intros Hc Hb g g' Hp. destruct (Hb g g' Hp) as (Ho & He & Hps & Hem). unfold defer_.
  destruct (body g) as [[r g1] tr1], (body g') as [[r' g1'] tr1'].
  unfold outcome_of, events_of, globals_of in *. cbn [fst snd] in *. subst r' tr1'.
  destruct (Hc g1 g1' Hps) as (Ho2 & He2 & Hps2 & Hem2).
  destruct (cleanup g1) as [[r2 g2] tr2], (cleanup g1') as [[r2' g2'] tr2'].
  unfold outcome_of, events_of, globals_of in *. cbn [fst snd] in *. subst.
  destruct r; cbn [fst snd]; repeat split; congruence.
Qed.

Lemma leaves_GetDomainPid W domainName : leaves_errorsMap (GetDomainPid W domainName).
Proof. intros g g' Hp. unfold GetDomainPid. cbn. rewrite Hp. auto. Qed.

(** The error check after [GetBlockIoTune] runs its [switch] for the errors
    that are no [libvirt.Error] only, whose code is the zero value: it never
    gets to [WriteErrorOnce]. *)
Lemma run_block_iotune_error err :
  block_iotune_error err =
  match err with LibvirtError _ _ => mret tt | OtherError _ => raise err end.
Proof. destruct err; reflexivity. Qed.

End Leaves.

Ltac leaves_with special :=
  repeat first
    [ special
    | apply leaves_ret | apply leaves_raise | apply leaves_panic
    | apply leaves_try | apply leaves_send | apply leaves_emit
    | apply leaves_when | apply leaves_catch
    | apply leaves_range; intros ? ?
    | apply leaves_bind; [| intros ?]
    | apply leaves_defer
    | match goal with
      | |- leaves_errorsMap (match ?x with _ => _ end) => destruct x
      end ].

Lemma CollectDomain_leaves_errorsMap W stat : leaves_errorsMap (CollectDomain W stat).
Proof.
  unfold CollectDomain.
  leaves_with
    ltac:(first
      [ apply leaves_GetDomainPid
      | match goal with
        | |- leaves_errorsMap (tolerate_operation_invalid _) =>
            unfold tolerate_operation_invalid
        | |- leaves_errorsMap (report_domain_info _ _ _ _) => unfold report_domain_info
        | |- leaves_errorsMap (vcpu_info_body _ _) => unfold vcpu_info_body
        | |- leaves_errorsMap (vcpu_stats_body _ _ _ _ _ _) => unfold vcpu_stats_body
        | |- leaves_errorsMap (block_iotune_error _) => rewrite run_block_iotune_error
        | |- leaves_errorsMap (block_body _ _ _ _) =>
            unfold block_body, block_counters, block_iotune
        | |- leaves_errorsMap (net_body _ _ _) => unfold net_body
        | |- leaves_errorsMap (collect_memory_stats _ _) =>
            eapply leaves_pure; intros; apply run_collect_memory_stats
        end ]).
Qed.

Lemma pool_body_leaves_errorsMap pool : leaves_errorsMap (pool_body pool).
Proof. unfold pool_body, CollectStoragePool. leaves_with fail. Qed.

(** What CollectFromLibvirt runs once the process list is there. *)
Lemma collection_leaves_errorsMap W conn hypervisorVersion libvirtdVersion libraryVersion :
  leaves_errorsMap
    (send libvirtVersionsInfoDesc GaugeValue (F64.of_Z 1)
       [hypervisorVersion; libvirtdVersion; libraryVersion];;
     let '(stats, err) := Connect.GetAllDomainStats conn in
     defer_ (free_domains stats)
       (match err with
        | Some err => raise err
        | None =>
            range_ stats (fun _ stat => CollectDomain W stat);;
            let '(pools, err) := Connect.ListAllStoragePools conn in
            match err with
            | Some err => raise err
            | None => range_ pools (fun _ pool => pool_body pool)
            end
        end)).
Proof.
  leaves_with
    ltac:(first [ apply CollectDomain_leaves_errorsMap
                | apply pool_body_leaves_errorsMap
                | match goal with
                  | |- leaves_errorsMap (free_domains _) => unfold free_domains
                  end ]).
Qed.

Lemma any_state_defer_emit {X} e (body : M X) g g' :
  outcome_of (body g) = outcome_of (body g') /\
  events_of (body g) = events_of (body g') /\
  errorsMap (globals_of (body g)) = errorsMap g ->
  outcome_of (defer_ (emit e) body g) = outcome_of (defer_ (emit e) body g') /\
  events_of (defer_ (emit e) body g) = events_of (defer_ (emit e) body g') /\
  errorsMap (globals_of (defer_ (emit e) body g)) = errorsMap g.
Proof.
  unfold defer_. destruct (body g) as [[r g1] tr1], (body g') as [[r' g1'] tr1'].
  unfold outcome_of, events_of, globals_of. cbn [fst snd]. intros (-> & -> & Hem).
  destruct r'; cbn [fst snd emit]; auto.
Qed.

(** From any two states, CollectFromLibvirt ends the same way with the same
    events, and leaves [errorsMap] as it was. *)
Lemma CollectFromLibvirt_any_state W uri g g' :
  outcome_of (CollectFromLibvirt W uri g) = outcome_of (CollectFromLibvirt W uri g') /\
  events_of (CollectFromLibvirt W uri g) = events_of (CollectFromLibvirt W uri g') /\
  errorsMap (globals_of (CollectFromLibvirt W uri g)) = errorsMap g.
Proof.
  unfold CollectFromLibvirt.
  destruct (libvirt_NewConnect W uri) as [conn|err]; [|auto].
  rewrite (run_bind_pure _ conn _ g), (run_bind_pure _ conn _ g') by reflexivity.
  apply any_state_defer_emit.
  destruct (Connect.GetVersion conn) as [hv|err]; [|auto].
  rewrite (run_bind_pure _ hv _ g), (run_bind_pure _ hv _ g') by reflexivity.
  destruct (Connect.GetLibVersion conn) as [lv|err]; [|auto].
  rewrite (run_bind_pure _ lv _ g), (run_bind_pure _ lv _ g') by reflexivity.
  destruct (libvirt_GetVersion W) as [libv|err]; [|auto].
  rewrite (run_bind_pure _ libv _ g), (run_bind_pure _ libv _ g') by reflexivity.
  unfold GetProcessList. destruct (os_ReadDir W (procFSPath W)) as [files|err]; [|auto].
  rewrite (run_bind_pure _ (GetProcessList_loop W files) _ g), (run_bind_pure _ (GetProcessList_loop W files) _ g') by reflexivity.
  rewrite (run_bind_Done _ _ g tt _ [] eq_refl), (run_bind_Done _ _ g' tt _ [] eq_refl).
  cbn [app].
  destruct (collection_leaves_errorsMap W conn (version_string hv) (version_string lv)
              (version_string libv)
              {| errorsMap := errorsMap g; processes := GetProcessList_loop W files |}
              {| errorsMap := errorsMap g'; processes := GetProcessList_loop W files |}
              eq_refl) as (Ho & He & _ & Hem).
  unfold outcome_of at 1 3, events_of at 1 3, globals_of at 1. cbn [fst snd].
  auto.
Qed.

(** X5.  A scrape never records an error name: whatever the hypervisor
    answers, [errorsMap] is after [Collect] what it was before, and so
    [WriteErrorOnce] has logged nothing. *)
Theorem scrape_never_records_error (W : World) (uri : string) (g : globals) :
  errorsMap (globals_of (Collect W uri g)) = errorsMap g.
Proof.
  destruct (CollectFromLibvirt_any_state W uri g g) as (_ & _ & Hem).
  unfold Collect. rewrite run_bind. unfold catch.
  destruct (CollectFromLibvirt W uri g) as [[[[]|err|msg|] g1] tr1]; exact Hem.
Qed.

(** X6.  For a scrape that runs alone (no other [Collect] overlaps it, which
    is the setting of the monad [M]): what the scrape does is independent of
    the package-level variables it starts from.  From any two states,
    [Collect] ends the same way and with the same events, since the process
    list that [GetDomainPid] reads is the one that this scrape has stored.
    Scrapes that overlap share [processes] without synchronisation and are
    not covered. *)
Theorem scrape_ignores_previous_state (W : World) (uri : string) (g g' : globals) :
  outcome_of (Collect W uri g) = outcome_of (Collect W uri g') /\
  events_of (Collect W uri g) = events_of (Collect W uri g').
Proof.
  destruct (CollectFromLibvirt_any_state W uri g g') as (Ho & He & _).
  unfold Collect. rewrite !run_bind. unfold catch.
  destruct (CollectFromLibvirt W uri g) as [[r g1] tr1],
           (CollectFromLibvirt W uri g') as [[r' g1'] tr1'].
  unfold outcome_of, events_of in Ho, He. cbn [fst snd] in Ho, He. subst r' tr1'.
  destruct r as [[]|err|msg|]; auto.
Qed.

(** X7.  [WriteErrorOnce] logs a name once: the first call for a name logs
    the message and records the name, whatever else is recorded stays, and a
    later call for that name, with any message, logs nothing and changes
    nothing. *)
Theorem WriteErrorOnce_logs_once (err err' name : string) (g : globals) :
  let r := WriteErrorOnce err name g in
  (name ∉ errorsMap g -> events_of r = [LogError [LStr "err"; LStr err]]) /\
  (name ∈ errorsMap g -> r = (Done tt, g, [])) /\
  (forall n, n ∈ errorsMap (globals_of r) <-> n = name \/ n ∈ errorsMap g) /\
  processes (globals_of r) = processes g /\
  WriteErrorOnce err' name (globals_of r) = (Done tt, globals_of r, []).
Proof.
  unfold WriteErrorOnce. cbv zeta.
  destruct (bool_decide (name ∈ errorsMap g)) eqn:Hin.
  - apply bool_decide_eq_true_1 in Hin as Hin'. cbn [globals_of events_of fst snd].
    rewrite Hin. split; [intros Hout; contradiction|].
    split; [reflexivity|].
    split; [intros n; split; [auto | intros [->|Hn]; assumption]|].
    split; reflexivity.
  - apply bool_decide_eq_false_1 in Hin as Hin'.
    cbn [globals_of events_of fst snd errorsMap processes].
    rewrite bool_decide_eq_true_2 by (apply elem_of_union_l, elem_of_singleton; reflexivity).
    split; [reflexivity|]. split; [intros Hout; contradiction|].
    split; [intros n; rewrite elem_of_union, elem_of_singleton; reflexivity|].
    split; reflexivity.
Qed.

(** ** Looking up the process of a domain *)

Lemma append_assoc (s t u : string) : (s +:+ t) +:+ u = s +:+ t +:+ u.
Proof. induction s as [|c s IH]; [reflexivity | exact (f_equal (String c) IH)]. Qed.

Lemma prefix_spec (t s : string) :
  String.prefix t s = true <-> exists v, s = t +:+ v.
Proof.
  revert s. induction t as [|c t IH]; intros s.
  - destruct s; cbn [String.prefix]; (split; [intros _; eexists; reflexivity | reflexivity]).
  - destruct s as [|d s]; cbn [String.prefix].
    + split; [discriminate | intros [v Hv]; discriminate Hv].
    + destruct (ascii_dec c d) as [->|Hne].
      * rewrite IH. split; intros [v Hv]; exists v.
        -- rewrite Hv. reflexivity.
        -- change (String d s = String d (t +:+ v)) in Hv. congruence.
      * split; [discriminate | intros [v Hv]].
        change (String d s = String c (t +:+ v)) in Hv. congruence.
Qed.

(** [strings.Contains(s, substr)]: [substr] occurs in [s]. *)
Lemma strings_Contains_spec (s substr : string) :
  strings_Contains s substr = true <-> exists u v, s = u +:+ substr +:+ v.
Proof.
  split.
  - induction s as [|c s IH]; cbn [strings_Contains];
      destruct (String.prefix substr _) eqn:Hp.
    + apply prefix_spec in Hp as [v Hv]. intros _. exists "", v. exact Hv.
    + discriminate.
    + apply prefix_spec in Hp as [v Hv]. intros _. exists "", v. exact Hv.
    + intros H. destruct (IH H) as (u & v & ->). exists (String c u), v. reflexivity.
  - intros (u & v & ->). induction u as [|c u IH].
    + change ("" +:+ substr +:+ v) with (substr +:+ v).
      assert (Hp : String.prefix substr (substr +:+ v) = true)
        by (apply prefix_spec; eexists; reflexivity).
      destruct (substr +:+ v); cbn [strings_Contains]; rewrite Hp; reflexivity.
    + change (String c u +:+ substr +:+ v) with (String c (u +:+ substr +:+ v)).
      cbn [strings_Contains]. rewrite IH. destruct (String.prefix _ _); reflexivity.
Qed.

Lemma strings_Contains_trans (s t u : string) :
  strings_Contains s t = true -> strings_Contains t u = true -> strings_Contains s u = true.
Proof.
  rewrite !strings_Contains_spec. intros (a & b & ->) (c & d & ->).
  exists (a +:+ c), (d +:+ b). rewrite !append_assoc. reflexivity.
Qed.

Lemma runs_domain_substring W a b process :
  strings_Contains b a = true ->
  runs_domain W b process = true -> runs_domain W a process = true.
Proof.
  unfold runs_domain. intros Hab H. apply andb_prop in H as [-> H]. cbn [andb].
  eapply strings_Contains_trans; eassumption.
Qed.

Lemma GetDomainPid_loop_first W domainName pre process post :
  Forall (fun p => runs_domain W domainName p = false) pre ->
  runs_domain W domainName process = true ->
  GetDomainPid_loop W domainName (pre ++ process :: post) = process.
Proof.
  unfold runs_domain. intros Hpre Hp.
  induction Hpre as [|p pre Hnot _ IH]; cbn [app GetDomainPid_loop].
  - rewrite Hp. reflexivity.
  - rewrite Hnot. exact IH.
Qed.

Lemma GetDomainPid_loop_none W domainName ps :
  Forall (fun p => runs_domain W domainName p = false) ps ->
  GetDomainPid_loop W domainName ps = 0.
Proof.
  unfold runs_domain. induction 1 as [|p ps Hnot _ IH]; cbn [GetDomainPid_loop];
    [reflexivity|]. rewrite Hnot. exact IH.
Qed.

Lemma first_running_process W domainName ps :
  Forall (fun p => runs_domain W domainName p = false) ps \/
  exists pre process post,
    ps = pre ++ process :: post /\
    Forall (fun p => runs_domain W domainName p = false) pre /\
    runs_domain W domainName process = true.
Proof.
  induction ps as [|p ps IH]; [left; constructor|].
  destruct (runs_domain W domainName p) eqn:Hp.
  - right. exists [], p, ps. repeat split; [constructor | exact Hp].
  - destruct IH as [Hnone|(pre & process & post & -> & Hpre & Hproc)].
    + left. constructor; assumption.
    + right. exists (p :: pre), process, post. repeat split; [constructor|]; assumption.
Qed.

(** X8.  [GetDomainPid] returns the first process of the list whose command
    line is not empty and contains the name of the domain, and 0 when the
    list has none; it changes nothing and sends nothing. *)
Theorem GetDomainPid_first_match (W : World) (domainName : string) (g : globals) :
  exists pid,
    GetDomainPid W domainName g = (Done pid, g, []) /\
    ((exists pre post,
        processes g = pre ++ pid :: post /\
        Forall (fun p => runs_domain W domainName p = false) pre /\
        runs_domain W domainName pid = true) \/
     (Forall (fun p => runs_domain W domainName p = false) (processes g) /\ pid = 0)).
Proof.
  unfold GetDomainPid.
  destruct (first_running_process W domainName (processes g))
    as [Hnone|(pre & process & post & Hps & Hpre & Hproc)].
  - exists 0. rewrite (GetDomainPid_loop_none W domainName _ Hnone). auto.
  - exists process. rewrite Hps at 1.
    rewrite (GetDomainPid_loop_first W domainName pre process post Hpre Hproc).
    split; [reflexivity|]. left. exists pre, post. auto.
Qed.

(** X9.  The lookup is by substring: when the name of a domain occurs inside
    the name of another, the process that runs the second is taken for the
    first as well, unless an earlier process of the list matches the first;
    both lookups then give the same PID. *)
Theorem GetDomainPid_substring_ambiguity (W : World) (a b : string) (g : globals)
    (pre : list Z) (process : Z) (post : list Z) :
  strings_Contains b a = true ->
  processes g = pre ++ process :: post ->
  Forall (fun p => runs_domain W a p = false) pre ->
  runs_domain W b process = true ->
  GetDomainPid W a g = (Done process, g, []) /\
  GetDomainPid W b g = (Done process, g, []).
Proof.
  intros Hab Hps Hpre Hproc. unfold GetDomainPid. rewrite Hps. split.
  - rewrite (GetDomainPid_loop_first W a pre process post Hpre); [reflexivity|].
    eapply runs_domain_substring; eassumption.
  - rewrite (GetDomainPid_loop_first W b pre process post); [reflexivity| |exact Hproc].
    eapply Forall_impl; [exact Hpre|]. intros p Hp. cbv beta in *.
    destruct (runs_domain W b p) eqn:Hb; [|reflexivity].
    rewrite (runs_domain_substring W a b p Hab Hb) in Hp. discriminate.
Qed.

(** X10.  [GetProcessList] lists the directories of the proc filesystem whose
    name [strconv.Atoi] reads as a number, and nothing else: files and the
    other directories are passed over.  It ends the process when the
    directory cannot be read. *)
Theorem GetProcessList_numeric_directories (W : World) (procFS : string) (g : globals) :
  match os_ReadDir W procFS with
  | Ok files =>
      exists ps,
        GetProcessList W procFS g = (Done ps, g, []) /\
        forall pid, pid ∈ ps <->
          exists f, f ∈ files /\ IsDir f = true /\ strconv_Atoi W (Name f) = (pid, None)
  | Fail _ => GetProcessList W procFS g = (Exited, g, [])
  end.
Proof.
  unfold GetProcessList. destruct (os_ReadDir W procFS) as [files|err]; [|reflexivity].
  eexists. split; [reflexivity|]. intros pid.
  induction files as [|f files IH]; cbn [GetProcessList_loop].
  - split; [intros H; inversion H | intros (f & H & _); inversion H].
  - destruct (IsDir f) eqn:Hdir; cbn [negb].
    + destruct (strconv_Atoi W (Name f)) as [n [e|]] eqn:Hatoi.
      * rewrite IH. split; intros (f' & Hin & Hd & Ha).
        -- exists f'. split; [right; exact Hin | auto].
        -- apply elem_of_cons in Hin as [->|Hin]; [congruence|]. exists f'. auto.
      * rewrite elem_of_cons, IH. split.
        -- intros [->|(f' & Hin & Hd & Ha)].
           ++ exists f. split; [left | auto].
           ++ exists f'. split; [right; exact Hin | auto].
        -- intros (f' & Hin & Hd & Ha). apply elem_of_cons in Hin as [->|Hin].
           ++ left. congruence.
           ++ right. exists f'. auto.
    + rewrite IH. split; intros (f' & Hin & Hd & Ha).
      * exists f'. split; [right; exact Hin | auto].
      * apply elem_of_cons in Hin as [->|Hin]; [congruence|]. exists f'. auto.
Qed.

(** X11.  When the proc filesystem cannot be read, the scrape ends the
    process ([log.Fatal]) right after the version calls: nothing is sent, not
    even the "up" gauge, nothing is logged through the exporter's logger, and
    the connection is not closed. *)
Theorem unreadable_procfs_ends_process (W : World) (uri : string) (g : globals)
    (conn : Connect.t) (hypervisorVersionNum libvirtdVersionNum libraryVersionNum : N)
    (err : error) :
  libvirt_NewConnect W uri = Ok conn ->
  Connect.GetVersion conn = Ok hypervisorVersionNum ->
  Connect.GetLibVersion conn = Ok libvirtdVersionNum ->
  libvirt_GetVersion W = Ok libraryVersionNum ->
  os_ReadDir W (procFSPath W) = Fail err ->
  Collect W uri g = (Exited, g, []).
Proof.
  intros Hconn Hhv Hlv Hlibv Hdir.
  assert (Hrun : CollectFromLibvirt W uri g = (Exited, g, [])).
  { unfold CollectFromLibvirt. rewrite Hconn, (run_bind_pure _ conn) by reflexivity.
    unfold defer_.
    rewrite Hhv, (run_bind_pure _ hypervisorVersionNum) by reflexivity.
    rewrite Hlv, (run_bind_pure _ libvirtdVersionNum) by reflexivity.
    rewrite Hlibv, (run_bind_pure _ libraryVersionNum) by reflexivity.
    unfold GetProcessList. rewrite Hdir. reflexivity. }
  unfold Collect. rewrite run_bind. unfold catch. rewrite Hrun. reflexivity.
Qed.

(** X12.  When the monitor command fails, the list of thread IDs is empty:
    if the collection goes on (the error is an invalid operation), the
    scheduler-statistics reader is called for no VCPU, and the only delay
    metrics are those of the VCPUs whose delay the hypervisor reports. *)
Theorem monitor_failure_disables_estimator (W : World) (stat : DomainStats) (g : globals)
    (err : error) :
  Domain.QemuMonitorCommand (Domain stat) = Fail err ->
  Forall (fun e =>
            match e with
            | SchedStatCall _ _ _ => False
            | Send m =>
                fqName (desc m) = fqName libvirtDomainVcpuDelayDesc ->
                exists cpuNum vcpu,
                  Vcpu stat !! cpuNum = Some vcpu /\ DelaySet vcpu = true /\
                  value m = F64.div (F64.of_N (Delay vcpu)) f_1e9
            | _ => True
            end)
    (events_of (CollectDomain W stat g)).
Proof.
  intros Hmon. revert g.
  match goal with |- forall g, Forall ?P _ => change (emits P (CollectDomain W stat)) end.
  unfold CollectDomain, GetDomainVcpuPids. rewrite Hmon.
  emits_with
    ltac:(first
      [ match goal with
        | |- emits _ (range_ (Vcpu _) _) =>
            let k := fresh "k" in
            let Hk := fresh "Hk" in
            apply emits_range_lookup; intros k ? Hk; unfold vcpu_stats_body;
            change (length (@nil Z) <=? k)%nat with true; cbv iota;
            apply emits_bind; [| intros _; destruct (DelaySet _) eqn:?]
        end
      | scrape_special ltac:(first [exact I | discriminate]) ])
    ltac:(first
      [ exact I
      | discriminate
      | intros _; eexists _, _; split; [eassumption | split; [assumption | reflexivity]] ]).
Qed.

(** ** The memory statistics *)

Lemma last_cons_default {X} (x d : X) (l : list X) :
  List.last (x :: l) d = List.last l x.
Proof.
  revert x d. induction l as [|y l IH]; intros x d; [reflexivity|].
  change (List.last (x :: y :: l) d) with (List.last (y :: l) d).
  rewrite (IH y d), (IH y x). reflexivity.
Qed.

(** One step of the loop: the entry sets the field of its tag and leaves
    the other fields. *)
Lemma memoryStat_step_fields MemoryStats s :
  let field (tag : Z) (old : N) := if Z.eqb (Tag s) tag then Val s else old in
  memoryStat_step MemoryStats s =
  {| libvirtSchema.MajorFault := field 2 (libvirtSchema.MajorFault MemoryStats);
     libvirtSchema.MinorFault := field 3 (libvirtSchema.MinorFault MemoryStats);
     libvirtSchema.Unused := field 4 (libvirtSchema.Unused MemoryStats);
     libvirtSchema.Available := field 5 (libvirtSchema.Available MemoryStats);
     libvirtSchema.ActualBalloon := field 6 (libvirtSchema.ActualBalloon MemoryStats);
     libvirtSchema.Rss := field 7 (libvirtSchema.Rss MemoryStats);
     libvirtSchema.Usable := field 8 (libvirtSchema.Usable MemoryStats);
     libvirtSchema.DiskCaches := field 10 (libvirtSchema.DiskCaches MemoryStats) |}.
Proof.
  destruct MemoryStats, s as [tag v]. cbv zeta. unfold memoryStat_step. cbn [Tag Val].
  destruct tag as [|p|p]; [reflexivity| |reflexivity].
  do 4 (try (destruct p as [p|p|]; try reflexivity)).
Qed.

Lemma latest_cons tag s memorystat d :
  List.last (map Val (List.filter (fun s => Z.eqb (Tag s) tag) (s :: memorystat))) d =
  List.last (map Val (List.filter (fun s => Z.eqb (Tag s) tag) memorystat))
    (if Z.eqb (Tag s) tag then Val s else d).
Proof.
  cbn [List.filter]. destruct (Z.eqb (Tag s) tag); [|reflexivity].
  cbn [map]. apply last_cons_default.
Qed.

Lemma fold_memoryStat_step memorystat : forall MemoryStats,
  let field (tag : Z) (old : N) :=
    List.last (map Val (List.filter (fun s => Z.eqb (Tag s) tag) memorystat)) old in
  fold_left memoryStat_step memorystat MemoryStats =
  {| libvirtSchema.MajorFault := field 2 (libvirtSchema.MajorFault MemoryStats);
     libvirtSchema.MinorFault := field 3 (libvirtSchema.MinorFault MemoryStats);
     libvirtSchema.Unused := field 4 (libvirtSchema.Unused MemoryStats);
     libvirtSchema.Available := field 5 (libvirtSchema.Available MemoryStats);
     libvirtSchema.ActualBalloon := field 6 (libvirtSchema.ActualBalloon MemoryStats);
     libvirtSchema.Rss := field 7 (libvirtSchema.Rss MemoryStats);
     libvirtSchema.Usable := field 8 (libvirtSchema.Usable MemoryStats);
     libvirtSchema.DiskCaches := field 10 (libvirtSchema.DiskCaches MemoryStats) |}.
Proof.
  induction memorystat as [|s memorystat IH]; intros MemoryStats; cbv zeta in *.
  - destruct MemoryStats. reflexivity.
  - cbn [fold_left]. rewrite IH, memoryStat_step_fields. cbv zeta.
    cbn [libvirtSchema.MajorFault libvirtSchema.MinorFault libvirtSchema.Unused
         libvirtSchema.Available libvirtSchema.ActualBalloon libvirtSchema.Rss
         libvirtSchema.Usable libvirtSchema.DiskCaches].
    rewrite !latest_cons. reflexivity.
Qed.

(** X13.  [memoryStatCollect] gives every field the value of the latest
    entry that carries its tag, and zero when the list has no such entry;
    entries with any other tag change nothing. *)
Theorem memoryStatCollect_last_wins (memorystat : list DomainMemoryStat) :
  memoryStatCollect memorystat =
  {| libvirtSchema.MajorFault := latest 2 memorystat;
     libvirtSchema.MinorFault := latest 3 memorystat;
     libvirtSchema.Unused := latest 4 memorystat;
     libvirtSchema.Available := latest 5 memorystat;
     libvirtSchema.ActualBalloon := latest 6 memorystat;
     libvirtSchema.Rss := latest 7 memorystat;
     libvirtSchema.Usable := latest 8 memorystat;
     libvirtSchema.DiskCaches := latest 10 memorystat |}.
Proof. unfold memoryStatCollect. rewrite fold_memoryStat_step. reflexivity. Qed.

(** ** Handles and the connection *)

Lemma releases_pools_raise pools err : releases_pools pools (raise err).
Proof. intros g. exists 0%nat. split; [reflexivity | discriminate]. Qed.

Lemma releases_pools_bind {X} pools (m : M X) (f : X -> M unit) :
  emits (fun e => pool_release e = false) m ->
  (forall a, releases_pools pools (f a)) ->
  releases_pools pools (m ≫= f).
Proof.
  intros Hm Hf g. rewrite events_bind, List.filter_app, (filter_nil_emits _ m g Hm).
  rewrite run_bind. destruct (m g) as [[[a|err|msg|] g1] tr1];
    cbn [outcome_of globals_of fst snd app];
    try (exists 0%nat; split; [reflexivity | discriminate]).
  destruct (Hf a g1) as (n & Hn & Hall). exists n.
  destruct (f a g1) as [[r g2] tr2]. auto.
Qed.

Lemma releases_pools_defer pools (cleanup body : M unit) :
  emits (fun e => pool_release e = false) cleanup ->
  releases_pools pools body ->
  releases_pools pools (defer_ cleanup body).
Proof.
  intros Hc Hb g. destruct (Hb g) as (n & Hn & Hall). exists n. unfold defer_.
  destruct (body g) as [[r g1] tr1]. specialize (Hc g1).
  destruct (cleanup g1) as [[r2 g2] tr2].
  unfold outcome_of, events_of in *. cbn [fst snd] in *.
  apply filter_nil_Forall in Hc.
  destruct r; cbn [fst snd]; rewrite ?List.filter_app, ?Hc, ?app_nil_r; auto.
Qed.

(** One iteration of the pool loop: the metrics of the pool, then its
    release; it returns the error of the collection, and never panics. *)
Lemma run_pool_body pool g :
  exists r tr,
    pool_body pool g = (r, g, tr ++ [PoolFree (StoragePool.ptr pool)]) /\
    List.filter pool_release tr = [] /\
    (r = Done tt \/ exists err, r = Raised err).
Proof.
  unfold pool_body, CollectStoragePool.
  destruct (StoragePool.Refresh pool) as [err|].
  { exists (Raised err), []. eauto. }
  destruct (StoragePool.GetName pool) as [pool_name|err].
  2:{ exists (Raised err), []. eauto. }
  destruct (StoragePool.GetInfo pool) as [pool_info|err].
  2:{ exists (Raised err), []. eauto. }
  eexists (Done tt), [_; _; _]. eauto.
Qed.

Lemma releases_pools_loop pools : releases_pools pools (range_ pools (fun _ pool => pool_body pool)).
Proof.
  unfold range_. generalize 0%nat.
  induction pools as [|pool pools IH]; intros i g; cbn [range_from].
  - exists 0%nat. auto.
  - destruct (run_pool_body pool g) as (r & tr & Hrun & Htr & Hr).
    rewrite run_bind, Hrun.
    destruct Hr as [->|[err ->]].
    + destruct (IH (S i) g) as (n & Hn & Hall). exists (S n).
      destruct (range_from (S i) pools _ g) as [[r2 g2] tr2].
      unfold outcome_of, events_of in *. cbn [fst snd take map length] in *.
      rewrite !List.filter_app, Htr, Hn. split; [reflexivity | auto].
    + exists 1%nat. unfold outcome_of, events_of. cbn [fst snd take map].
      rewrite List.filter_app, Htr, take_0. split; [reflexivity | discriminate].
Qed.

(** X14.  The pool handles that CollectFromLibvirt releases are the first
    pools of the list that [ListAllStoragePools] returned, each released
    once and in the order of the list; when CollectFromLibvirt returns nil,
    these are all the pools of the list. *)
Theorem pools_released_in_order (W : World) (uri : string) (g : globals)
    (conn : Connect.t) :
  libvirt_NewConnect W uri = Ok conn ->
  exists n,
    List.filter pool_release (events_of (CollectFromLibvirt W uri g)) =
      map (fun pool => PoolFree (StoragePool.ptr pool))
        (take n (Connect.ListAllStoragePools conn).1) /\
    (outcome_of (CollectFromLibvirt W uri g) = Done tt ->
     n = length (Connect.ListAllStoragePools conn).1).
Proof.
  intros Hconn. unfold CollectFromLibvirt.
  rewrite Hconn, (run_bind_pure _ conn) by reflexivity. revert g.
  match goal with
  | |- forall g, exists n, List.filter _ (events_of (?m g)) = _ /\ _ =>
      change (releases_pools (Connect.ListAllStoragePools conn).1 m)
  end.
  destruct (Connect.ListAllStoragePools conn) as [pools err]. cbn [fst].
  repeat first
    [ apply releases_pools_raise
    | apply releases_pools_loop
    | apply releases_pools_defer; [scrape_tac ltac:(reflexivity)|]
    | apply releases_pools_bind; [scrape_tac ltac:(reflexivity) | intros ?]
    | match goal with
      | |- releases_pools _ (match ?x with _ => _ end) => destruct x
      end ].
Qed.

Lemma CollectDomain_quiet W stat :
  emits (fun e => domain_release e = false /\ close_event e = false) (CollectDomain W stat).
Proof. scrape_tac ltac:(split; reflexivity). Qed.

Lemma pool_body_quiet pool :
  emits (fun e => domain_release e = false /\ close_event e = false) (pool_body pool).
Proof. scrape_tac ltac:(split; reflexivity). Qed.

Lemma run_defer_emit {X} e (body : M X) g :
  defer_ (emit e) body g =
  (outcome_of (body g), globals_of (body g),
   events_of (body g) ++ match outcome_of (body g) with Exited => [] | _ => [e] end).
Proof.
  unfold defer_. destruct (body g) as [[[a|err|msg|] g1] tr1];
    cbn [emit outcome_of globals_of events_of fst snd]; rewrite ?app_nil_r; reflexivity.
Qed.

(** X15.  Once the connection is open, CollectFromLibvirt closes it exactly
    once, as its last action, however it returns (also when a collection
    panics); it does not close it when the process is ended. *)
Theorem connection_closed_last (W : World) (uri : string) (g : globals)
    (conn : Connect.t) :
  libvirt_NewConnect W uri = Ok conn ->
  exists tr,
    List.filter close_event tr = [] /\
    events_of (CollectFromLibvirt W uri g) =
    tr ++ match outcome_of (CollectFromLibvirt W uri g) with
          | Exited => []
          | _ => [ConnClose]
          end.
Proof.
  intros Hconn. unfold CollectFromLibvirt.
  rewrite Hconn, (run_bind_pure _ conn) by reflexivity.
  rewrite run_defer_emit. eexists. split; [|reflexivity].
  apply filter_nil_emits. scrape_tac ltac:(reflexivity).
Qed.

(** X16.  The domain handles are released after everything that the
    collection of the domains and pools does, and before the connection is
    closed: the deferred calls run in reverse order. *)
Theorem domain_handles_released_before_close (W : World) (uri : string) (g : globals)
    (conn : Connect.t) (hypervisorVersionNum libvirtdVersionNum libraryVersionNum : N)
    (files : list DirEntry) :
  libvirt_NewConnect W uri = Ok conn ->
  Connect.GetVersion conn = Ok hypervisorVersionNum ->
  Connect.GetLibVersion conn = Ok libvirtdVersionNum ->
  libvirt_GetVersion W = Ok libraryVersionNum ->
  os_ReadDir W (procFSPath W) = Ok files ->
  exists collected,
    Forall (fun e => domain_release e = false /\ close_event e = false) collected /\
    events_of (CollectFromLibvirt W uri g) =
    Send (MustNewConstMetric libvirtVersionsInfoDesc GaugeValue (F64.of_Z 1)
            [version_string hypervisorVersionNum; version_string libvirtdVersionNum;
             version_string libraryVersionNum]) ::
    collected ++
    map (fun stat => DomainFree (Domain.ptr (Domain stat))) (Connect.GetAllDomainStats conn).1 ++
    [ConnClose].
Proof.
  intros Hconn Hhv Hlv Hlibv Hdir. unfold CollectFromLibvirt.
  rewrite Hconn, (run_bind_pure _ conn) by reflexivity.
  destruct (Connect.GetAllDomainStats conn) as [stats err]. cbn [fst].
  set (body := match err with
               | Some err => raise err
               | None =>
                   range_ stats (fun _ stat => CollectDomain W stat);;
                   let '(pools, err) := Connect.ListAllStoragePools conn in
                   match err with
                   | Some err => raise err
                   | None => range_ pools (fun _ pool => pool_body pool)
                   end
               end).
  assert (Hbody_exit : no_exit body).
  { unfold body. destruct err; [apply no_exit_raise|].
    apply no_exit_bind; [apply no_exit_range; intros; apply CollectDomain_no_exit | intros _].
    destruct (Connect.ListAllStoragePools conn) as [pools [e|]]; [apply no_exit_raise|].
    apply no_exit_range. intros. apply pool_body_no_exit. }
  assert (Hbody_quiet :
    emits (fun e => domain_release e = false /\ close_event e = false) body).
  { unfold body. destruct err; [apply emits_raise|].
    apply emits_bind; [apply emits_range; intros; apply CollectDomain_quiet | intros _].
    destruct (Connect.ListAllStoragePools conn) as [pools [e|]]; [apply emits_raise|].
    apply emits_range. intros. apply pool_body_quiet. }
  rewrite events_defer.
  2:{ rewrite Hhv, Hlv, Hlibv. unfold GetProcessList. rewrite Hdir.
      no_exit_with ltac:(first [ apply no_exit_defer; exact Hbody_exit
                               | apply no_exit_pure; intros; eexists; reflexivity ]). }
  rewrite Hhv, (run_bind_pure _ hypervisorVersionNum) by reflexivity.
  rewrite Hlv, (run_bind_pure _ libvirtdVersionNum) by reflexivity.
  rewrite Hlibv, (run_bind_pure _ libraryVersionNum) by reflexivity.
  unfold GetProcessList. rewrite Hdir.
  rewrite (run_bind_pure _ (GetProcessList_loop W files)) by reflexivity.
  rewrite (run_bind_Done _ _ g tt _ [] eq_refl).
  rewrite (run_bind_Done _ _ _ tt _ [_] eq_refl).
  cbn [events_of snd app emit]. fold body.
  change (events_of (defer_ (free_domains stats) body ?g')) with
    (events_of (defer_ (free_domains stats) body g')).
  rewrite (events_defer (free_domains stats) body _ Hbody_exit), run_free_domains.
  eexists. split; [apply Hbody_quiet|].
  cbn [events_of snd]. rewrite <- app_assoc. reflexivity.
Qed.

(** X17.  [Collect] sends the "up" gauge exactly once, as the last thing it
    does: 1 when CollectFromLibvirt returns nil, and 0, after one line in
    the log, when it returns an error.  When the scrape panics or ends the
    process, no "up" gauge is sent at all. *)
Theorem exactly_one_up_gauge (W : World) (uri : string) (g : globals) :
  let r := CollectFromLibvirt W uri g in
  List.filter up_metric (events_of r) = [] /\
  Collect W uri g =
  match outcome_of r with
  | Done _ =>
      (Done tt, globals_of r,
       events_of r ++ [Send (MustNewConstMetric libvirtUpDesc GaugeValue (F64.of_Z 1) [])])
  | Raised err =>
      (Done tt, globals_of r,
       events_of r ++
       [LogError [LStr "err"; LStr "failed to scrape metrics"; LStr "uri"; LStr uri;
                  LStr "msg"; LErr err];
        Send (MustNewConstMetric libvirtUpDesc GaugeValue (F64.of_Z 0) [])])
  | Panicked msg => (Panicked msg, globals_of r, events_of r)
  | Exited => (Exited, globals_of r, events_of r)
  end.
Proof.
  cbv zeta. split.
  - apply filter_nil_emits. scrape_tac ltac:(reflexivity).
  - unfold Collect. rewrite run_bind. unfold catch.
    destruct (CollectFromLibvirt W uri g) as [[[[]|err|msg|] g1] tr1]; reflexivity.
Qed.

(** ** How a scrape ends *)

Lemma run_range_from_app {X} (body : nat -> X -> M unit) l1 l2 i g :
  range_from i (l1 ++ l2) body g =
  (range_from i l1 body;; range_from (i + length l1) l2 body) g.
Proof.
  revert i g. induction l1 as [|x l1 IH]; intros i g; cbn [app range_from length].
  - rewrite Nat.add_0_r, (run_bind_pure _ tt) by reflexivity. reflexivity.
  - rewrite !run_bind. destruct (body i x g) as [[[[]|err|msg|] g1] tr1]; try reflexivity.
    rewrite IH, run_bind, Nat.add_succ_r.
    destruct (range_from (S i) l1 body g1) as [[[[]|err|msg|] g2] tr2]; try reflexivity.
    destruct (range_from _ l2 body g2) as [[r g3] tr3]. rewrite app_assoc. reflexivity.
Qed.

(** X18.  The first domain whose collection fails ends the scrape: the
    domains after it and the storage pools are not collected, every domain
    handle of the batch is released all the same, the connection is closed,
    the error is logged and the "up" gauge is 0; what was sent for the
    domains before it stays sent. *)
Theorem failing_domain_aborts_scrape (W : World) (uri : string) (g : globals)
    (conn : Connect.t) (hypervisorVersionNum libvirtdVersionNum libraryVersionNum : N)
    (files : list DirEntry) (before : list DomainStats) (stat : DomainStats)
    (after : list DomainStats) (err : error) (g1 g2 : globals) (tr1 tr2 : list event) :
  libvirt_NewConnect W uri = Ok conn ->
  Connect.GetVersion conn = Ok hypervisorVersionNum ->
  Connect.GetLibVersion conn = Ok libvirtdVersionNum ->
  libvirt_GetVersion W = Ok libraryVersionNum ->
  os_ReadDir W (procFSPath W) = Ok files ->
  Connect.GetAllDomainStats conn = (before ++ stat :: after, None) ->
  range_ before (fun _ stat => CollectDomain W stat)
    {| errorsMap := errorsMap g; processes := GetProcessList_loop W files |} =
    (Done tt, g1, tr1) ->
  CollectDomain W stat g1 = (Raised err, g2, tr2) ->
  Collect W uri g =
  (Done tt, g2,
   Send (MustNewConstMetric libvirtVersionsInfoDesc GaugeValue (F64.of_Z 1)
           [version_string hypervisorVersionNum; version_string libvirtdVersionNum;
            version_string libraryVersionNum]) ::
   tr1 ++ tr2 ++
   map (fun stat => DomainFree (Domain.ptr (Domain stat))) (before ++ stat :: after) ++
   [ConnClose;
    LogError [LStr "err"; LStr "failed to scrape metrics"; LStr "uri"; LStr uri;
              LStr "msg"; LErr err];
    Send (MustNewConstMetric libvirtUpDesc GaugeValue (F64.of_Z 0) [])]).
Proof.
  intros Hconn Hhv Hlv Hlibv Hdir Hstats Hbefore Hstat.
  assert (Hrun : CollectFromLibvirt W uri g =
    (Raised err, g2,
     Send (MustNewConstMetric libvirtVersionsInfoDesc GaugeValue (F64.of_Z 1)
             [version_string hypervisorVersionNum; version_string libvirtdVersionNum;
              version_string libraryVersionNum]) ::
     tr1 ++ tr2 ++
     map (fun stat => DomainFree (Domain.ptr (Domain stat))) (before ++ stat :: after) ++
     [ConnClose])).
  { unfold CollectFromLibvirt. rewrite Hconn, (run_bind_pure _ conn) by reflexivity.
    rewrite (app_assoc tr1), (app_assoc (tr1 ++ tr2)), app_comm_cons.
    apply run_defer; [|discriminate|reflexivity].
    rewrite Hhv, (run_bind_pure _ hypervisorVersionNum) by reflexivity.
    rewrite Hlv, (run_bind_pure _ libvirtdVersionNum) by reflexivity.
    rewrite Hlibv, (run_bind_pure _ libraryVersionNum) by reflexivity.
    unfold GetProcessList. rewrite Hdir.
    rewrite (run_bind_pure _ (GetProcessList_loop W files)) by reflexivity.
    rewrite (run_bind_Done _ _ g tt _ [] eq_refl).
    rewrite (run_bind_Done _ _ _ tt _ [_] eq_refl).
    rewrite Hstats.
    rewrite (run_defer _ _ _ (Raised err) g2 (tr1 ++ tr2)
               (map (fun stat => DomainFree (Domain.ptr (Domain stat)))
                  (before ++ stat :: after)));
      [reflexivity | | discriminate | apply run_free_domains].
    rewrite run_bind. unfold range_ in *. rewrite run_range_from_app, run_bind, Hbefore.
    cbn [range_from]. rewrite run_bind, Hstat. reflexivity. }
  unfold Collect. rewrite run_bind. unfold catch. rewrite Hrun.
  rewrite (run_bind_Done _ _ _ tt _ [_] eq_refl).
  cbn [events_of outcome_of globals_of fst snd send emit app].
  rewrite <- !app_assoc. reflexivity.
Qed.

(** X19.  When libvirt cannot be reached, the scrape logs the error and
    sends the "up" gauge with 0, and nothing else; when the connection is
    there and one of the version calls fails, it closes the connection
    first.  No version metric is sent in either case. *)
Theorem early_failure_reports_down (W : World) (uri : string) (g : globals) (err : error) :
  let down :=
    [LogError [LStr "err"; LStr "failed to scrape metrics"; LStr "uri"; LStr uri;
               LStr "msg"; LErr err];
     Send (MustNewConstMetric libvirtUpDesc GaugeValue (F64.of_Z 0) [])] in
  (libvirt_NewConnect W uri = Fail err -> Collect W uri g = (Done tt, g, down)) /\
  (forall conn,
     libvirt_NewConnect W uri = Ok conn ->
     Connect.GetVersion conn = Fail err \/
     (exists hv, Connect.GetVersion conn = Ok hv /\ Connect.GetLibVersion conn = Fail err) \/
     (exists hv lv, Connect.GetVersion conn = Ok hv /\ Connect.GetLibVersion conn = Ok lv /\
                    libvirt_GetVersion W = Fail err) ->
     Collect W uri g = (Done tt, g, ConnClose :: down)).
Proof.
  cbv zeta. unfold Collect, CollectFromLibvirt. split.
  - intros ->. reflexivity.
  - intros conn -> [Hhv|[(hv & Hhv & Hlv)|(hv & lv & Hhv & Hlv & Hlibv)]].
    + rewrite run_bind. unfold catch. rewrite (run_bind_pure _ conn) by reflexivity.
      rewrite run_defer_emit, Hhv. reflexivity.
    + rewrite run_bind. unfold catch. rewrite (run_bind_pure _ conn) by reflexivity.
      rewrite run_defer_emit, Hhv, (run_bind_pure _ hv), Hlv by reflexivity. reflexivity.
    + rewrite run_bind. unfold catch. rewrite (run_bind_pure _ conn) by reflexivity.
      rewrite run_defer_emit, Hhv, (run_bind_pure _ hv), Hlv, (run_bind_pure _ lv), Hlibv
        by reflexivity.
      reflexivity.
Qed.

(** X20.  The version string spells the three components of a libvirt
    version number (major * 1,000,000 + minor * 1,000 + release), the major
    one taken modulo 1000. *)
Theorem version_string_components (major minor release : N) :
  (minor < 1000)%N -> (release < 1000)%N ->
  version_string (major * 1000000 + minor * 1000 + release) =
  Itoa (Z.of_N (major mod 1000)) +:+ "." +:+ Itoa (Z.of_N minor) +:+ "." +:+
  Itoa (Z.of_N release).
Proof.
  intros Hminor Hrelease. unfold version_string.
  replace ((major * 1000000 + minor * 1000 + release) / 1000000)%N with major.
  2:{ apply (N.div_unique _ _ _ (minor * 1000 + release)); lia. }
  replace ((major * 1000000 + minor * 1000 + release) / 1000)%N
    with (major * 1000 + minor)%N.
  2:{ apply (N.div_unique _ _ _ release); lia. }
  replace ((major * 1000 + minor) mod 1000)%N with minor.
  2:{ apply (N.mod_unique _ _ major); lia. }
  replace ((major * 1000000 + minor * 1000 + release) mod 1000)%N with release.
  2:{ apply (N.mod_unique _ _ (major * 1000 + minor)); lia. }
  reflexivity.
Qed.

(** X21.  The body of the interface loop always returns normally.  For an
    interface that the XML description does not have it sends no
    interface_meta metric, and the counters that the statistics carry all the
    same: an unknown interface does not end the collection of the domain. *)
Theorem unknown_interface_is_harmless (domainName : string) (desc : libvirtSchema.Domain)
    (iface : DomainStatsNet) (g : globals) :
  outcome_of (net_body domainName desc iface g) = Done tt /\
  globals_of (net_body domainName desc iface g) = g /\
  (Forall (fun net => libvirtSchema.if_Target_Device net <> net_Name iface)
     (libvirtSchema.Devices_Interfaces desc) ->
   List.filter interface_meta_metric (events_of (net_body domainName desc iface g)) = [] /\
   (RxBytesSet iface = true ->
    Send (MustNewConstMetric libvirtDomainInterfaceRxBytesDesc CounterValue
            (F64.of_N (RxBytes iface)) [domainName; net_Name iface])
    ∈ events_of (net_body domainName desc iface g))).
Proof.
  assert (Htotal : total (net_body domainName desc iface)).
  { unfold net_body. destruct (find_interface _ _). total_tac. }
  split; [apply Htotal|]. split; [apply Htotal|].
  intros Hunknown.
  assert (Hfind : find_interface (libvirtSchema.Devices_Interfaces desc) iface = ("", "")).
  { induction Hunknown as [|net l Hnet _ IH]; cbn [find_interface]; [reflexivity|].
    apply String.eqb_neq in Hnet. rewrite Hnet. exact IH. }
  unfold net_body. rewrite Hfind. cbn [String.eqb negb orb when_]. split.
  - apply filter_nil_emits. emits_tac ltac:(reflexivity).
  - intros ->. rewrite (run_bind_pure _ tt) by reflexivity. cbn [when_].
    rewrite events_bind. apply elem_of_app. left. left.
Qed.

(** ** How the collection of a domain ends *)

(** X22.  An error of [GetVcpus] that is no invalid operation ends the
    collection of the domain: CollectDomain returns it after the six
    domain-info metrics, and sends nothing for the VCPUs, the block devices,
    the interfaces and the memory. *)
Theorem GetVcpus_error_ends_domain (W : World) (stat : DomainStats) (g : globals)
    (domainName domainUUID xmlDesc : string) (desc : libvirtSchema.Domain)
    (info : DomainInfo) (err : error) :
  Domain.GetName (Domain stat) = Ok domainName ->
  tolerated (GetDomainVcpuPids W (Domain stat)).2 = true ->
  Domain.GetUUIDString (Domain stat) = Ok domainUUID ->
  Domain.GetXMLDesc (Domain stat) = Ok xmlDesc ->
  xml_Unmarshal W xmlDesc = Ok desc ->
  Domain.GetInfo (Domain stat) = Ok info ->
  Domain.GetVcpus (Domain stat) = Fail err ->
  tolerated (Some err) = false ->
  CollectDomain W stat g =
    (Raised err, g, events_of (report_domain_info domainName domainUUID desc info g)) /\
  length (events_of (report_domain_info domainName domainUUID desc info g)) = 6%nat.
Proof.
  intros Hname Hmon Huuid Hxml Hdesc Hinfo Hvcpus Herr. split; [|reflexivity].
  unfold CollectDomain.
  rewrite Hname, (run_bind_pure _ domainName) by reflexivity.
  rewrite (run_bind_pure _ (GetDomainPid_loop W domainName (processes g))) by reflexivity.
  destruct (GetDomainVcpuPids W (Domain stat)) as [domainVcpuPids e]. cbn [snd] in Hmon.
  rewrite (run_bind_pure _ tt).
  2:{ destruct e as [e|]; [apply tolerated_run, Hmon | reflexivity]. }
  rewrite Huuid, (run_bind_pure _ domainUUID) by reflexivity.
  rewrite Hxml, (run_bind_pure _ xmlDesc) by reflexivity.
  rewrite Hdesc, (run_bind_pure _ desc) by reflexivity.
  rewrite Hinfo, (run_bind_pure _ info) by reflexivity.
  rewrite (run_bind_Done _ _ g tt g _
             (total_run _ g (report_domain_info_total domainName domainUUID desc info))).
  rewrite Hvcpus.
  assert (Hraise : tolerate_operation_invalid err g = (Raised err, g, [])).
  { unfold tolerated in Herr. unfold tolerate_operation_invalid.
    destruct (as_libvirt_Error err) as [Code ok].
    destruct ok, (Z.eqb Code ERR_OPERATION_INVALID); try discriminate; reflexivity. }
  rewrite run_bind, Hraise. cbn [outcome_of globals_of events_of fst snd].
  rewrite app_nil_r. reflexivity.
Qed.

(** X23.  CollectDomain either returns an error before it has sent or logged
    anything, or starts with the domain-info metadata metric of the domain:
    no other metric of a domain is ever sent without it. *)
Theorem CollectDomain_nothing_or_info_first (W : World) (stat : DomainStats)
    (g : globals) :
  (exists err, CollectDomain W stat g = (Raised err, g, [])) \/
  (exists domainName labels rest,
     Domain.GetName (Domain stat) = Ok domainName /\
     events_of (CollectDomain W stat g) =
     Send (MustNewConstMetric libvirtDomainInfoMetaDesc GaugeValue (F64.of_Z 1)
             (domainName :: labels)) :: rest).
Proof.
  unfold CollectDomain.
  destruct (Domain.GetName (Domain stat)) as [domainName|err]; [|left; eauto].
  rewrite (run_bind_pure _ domainName) by reflexivity.
  rewrite (run_bind_pure _ (GetDomainPid_loop W domainName (processes g))) by reflexivity.
  destruct (GetDomainVcpuPids W (Domain stat)) as [domainVcpuPids e].
  destruct (tolerated e) eqn:Htol.
  2:{ left. destruct e as [e|]; [|discriminate]. exists e.
      unfold tolerated in Htol. unfold tolerate_operation_invalid.
      destruct (as_libvirt_Error e) as [Code ok].
      destruct ok, (Z.eqb Code ERR_OPERATION_INVALID); try discriminate; reflexivity. }
  rewrite (run_bind_pure _ tt).
  2:{ destruct e as [e|]; [apply tolerated_run, Htol | reflexivity]. }
  destruct (Domain.GetUUIDString (Domain stat)) as [domainUUID|err]; [|left; eauto].
  rewrite (run_bind_pure _ domainUUID) by reflexivity.
  destruct (Domain.GetXMLDesc (Domain stat)) as [xmlDesc|err]; [|left; eauto].
  rewrite (run_bind_pure _ xmlDesc) by reflexivity.
  destruct (xml_Unmarshal W xmlDesc) as [desc|err]; [|left; eauto].
  rewrite (run_bind_pure _ desc) by reflexivity.
  destruct (Domain.GetInfo (Domain stat)) as [info|err]; [|left; eauto].
  rewrite (run_bind_pure _ info) by reflexivity.
  right. eexists domainName, _, _. split; [reflexivity|].
  rewrite events_bind. unfold report_domain_info at 1. rewrite events_bind.
  reflexivity.
Qed.

(** ** Panics and duplicates *)

Section NoPanic.

Lemma no_panic_ret {X} (x : X) : no_panic (mret x).
Proof. intros g msg. discriminate. Qed.

Lemma no_panic_raise {X} err : no_panic (@raise X err).
Proof. intros g msg. discriminate. Qed.

Lemma no_panic_try {X} (r : result X) : no_panic (try_ r).
Proof. destruct r; [apply no_panic_ret | apply no_panic_raise]. Qed.

Lemma no_panic_emit e : no_panic (emit e).
Proof. intros g msg. discriminate. Qed.

Lemma no_panic_send d vt v labels : no_panic (send d vt v labels).
Proof. apply no_panic_emit. Qed.

Lemma no_panic_bind {X Y} (m : M X) (f : X -> M Y) :
  no_panic m -> (forall x, no_panic (f x)) -> no_panic (m ≫= f).
Proof.
  intros Hm Hf g msg. rewrite run_bind. specialize (Hm g).
  destruct (m g) as [[[a|err|msg'|] g1] tr1]; cbn in *; try discriminate.
  - specialize (Hf a g1 msg). destruct (f a g1) as [[r g2] tr2]. exact Hf.
  - exfalso. apply (Hm msg'). reflexivity.
Qed.

Lemma no_panic_bind_try {X Y} (r : result X) (f : X -> M Y) :
  (forall x, r = Ok x -> no_panic (f x)) -> no_panic (try_ r ≫= f).
Proof.
  intros Hf. destruct r as [x|err]; [|intros g msg; discriminate].
  intros g msg. rewrite (run_bind_pure _ x) by reflexivity. apply Hf. reflexivity.
Qed.

Lemma no_panic_when b (m : M unit) : no_panic m -> no_panic (when_ b m).
Proof. destruct b; [trivial | intros _; apply no_panic_ret]. Qed.

Lemma no_panic_range_from {X} (body : nat -> X -> M unit) l :
  (forall i x, x ∈ l -> no_panic (body i x)) -> forall i, no_panic (range_from i l body).
Proof.
  induction l as [|x l IH]; intros Hb i; cbn [range_from].
  - apply no_panic_ret.
  - apply no_panic_bind; [apply Hb; left | intros _; apply IH].
    intros j y Hy. apply Hb. right. exact Hy.
Qed.

Lemma no_panic_range {X} (body : nat -> X -> M unit) l :
  (forall i x, x ∈ l -> no_panic (body i x)) -> no_panic (range_ l body).
Proof. intros Hb. apply no_panic_range_from, Hb. Qed.

Lemma no_panic_pure {X} (m : M X) :
  (forall g, exists x tr, m g = (Done x, g, tr)) -> no_panic m.
Proof. intros H g msg. destruct (H g) as (x & tr & ->). discriminate. Qed.

End NoPanic.

Ltac no_panic_with special :=
  repeat first
    [ special
    | apply no_panic_ret | apply no_panic_raise
    | apply no_panic_try | apply no_panic_send | apply no_panic_emit
    | apply no_panic_when
    | apply no_panic_range; intros ? ? ?
    | apply no_panic_bind; [| intros ?]
    | match goal with
      | |- no_panic (match ?x with _ => _ end) => destruct x eqn:?
      end ].

Lemma find_disk_known Disks disk :
  Exists (fun dev => libvirtSchema.Target_Device dev = blk_Name disk) Disks ->
  exists DiskSource Device, find_disk Disks disk = (DiskSource, Some Device).
Proof.
  induction 1 as [dev Disks Hdev|dev Disks _ IH]; cbn [find_disk].
  - apply String.eqb_eq in Hdev. rewrite Hdev. eauto.
  - destruct (String.eqb _ _); eauto.
Qed.

Lemma block_body_no_panic domain domainName desc disk :
  blk_Name disk = "hdc" \/ blk_Name disk = "hda" \/
  Exists (fun dev => libvirtSchema.Target_Device dev = blk_Name disk)
    (libvirtSchema.Devices_Disks desc) ->
  no_panic (block_body domain domainName desc disk).
Proof.
  intros Hdisk. unfold block_body.
  destruct (String.eqb (blk_Name disk) "hdc" || String.eqb (blk_Name disk) "hda") eqn:Hcd;
    [apply no_panic_ret|].
  apply orb_false_elim in Hcd as [Hhdc Hhda].
  apply String.eqb_neq in Hhdc, Hhda.
  destruct Hdisk as [?|[?|Hknown]]; try contradiction.
  destruct (find_disk_known _ _ Hknown) as (DiskSource & Device & ->).
  unfold block_counters, block_iotune.
  no_panic_with
    ltac:(first
      [ match goal with
        | |- no_panic (block_iotune_error _) => rewrite run_block_iotune_error
        end ]).
Qed.

(** X24.  The nil dereference of the block loop is the only run-time panic
    in the code of CollectDomain: when every block device of the statistics
    is a CD-ROM ("hdc", "hda") or a disk of the XML description, it does not
    occur, and CollectDomain returns, with nil or with an error.  (The checks
    of [MustNewConstMetric] on the label values are not part of [send].) *)
Theorem known_block_devices_never_panic (W : World) (stat : DomainStats) (g : globals)
    (msg : string) :
  (forall xmlDesc desc,
     Domain.GetXMLDesc (Domain stat) = Ok xmlDesc ->
     xml_Unmarshal W xmlDesc = Ok desc ->
     Forall (fun disk =>
               blk_Name disk = "hdc" \/ blk_Name disk = "hda" \/
               Exists (fun dev => libvirtSchema.Target_Device dev = blk_Name disk)
                 (libvirtSchema.Devices_Disks desc))
       (Block stat)) ->
  outcome_of (CollectDomain W stat g) <> Panicked msg.
Proof.
  intros Hknown. revert g msg. change (no_panic (CollectDomain W stat)).
  unfold CollectDomain.
  no_panic_with
    ltac:(first
      [ apply no_panic_bind_try; intros ? ?
      | match goal with
        | |- no_panic (GetDomainPid _ _) => apply no_panic_pure; intros; eexists _, _; reflexivity
        | |- no_panic (tolerate_operation_invalid _) => unfold tolerate_operation_invalid
        | |- no_panic (report_domain_info _ _ _ _) => unfold report_domain_info
        | |- no_panic (vcpu_info_body _ _) => unfold vcpu_info_body
        | |- no_panic (vcpu_stats_body _ _ _ _ _ _) => unfold vcpu_stats_body
        | Hin : ?disk ∈ Block stat |- no_panic (block_body _ _ _ ?disk) =>
            apply block_body_no_panic;
            eapply (proj1 (Forall_forall _ _)) in Hin; [exact Hin|];
            eapply Hknown; eassumption
        | |- no_panic (net_body _ _ _) => unfold net_body
        | |- no_panic (collect_memory_stats _ _) =>
            apply no_panic_pure; intros; eexists _, _; apply run_collect_memory_stats
        end ]).
Qed.

Lemma filter_delay_metric_le domainName cpuNum tr :
  List.filter (delay_metric_of domainName cpuNum) tr =
  List.filter (delay_metric_of domainName cpuNum) (List.filter vcpu_delay_event tr).
Proof.
  induction tr as [|e tr IH]; [reflexivity|]. cbn [List.filter].
  destruct (vcpu_delay_event e) eqn:He; cbn [List.filter]; rewrite <- IH; [reflexivity|].
  destruct e as [m| | | | |]; try reflexivity. cbn in *. rewrite He. reflexivity.
Qed.

(** X25.  The collection of a domain sends at most one delay metric for a
    VCPU index: the explicit delay and the estimated one are never both
    sent, and no other stage sends one. *)
Theorem at_most_one_delay_metric (W : World) (stat : DomainStats) (g : globals)
    (domainName : string) (cpuNum : nat) :
  Domain.GetName (Domain stat) = Ok domainName ->
  (length (List.filter (delay_metric_of domainName cpuNum)
             (events_of (CollectDomain W stat g))) <= 1)%nat.
Proof.
  intros Hname.
  destruct (reaches_vcpu_stats W stat) eqn:Hr.
  2:{ rewrite filter_delay_metric_le, (CollectDomain_unreached W stat g Hr). cbn. lia. }
  destruct (Vcpu stat !! cpuNum) as [vcpu|] eqn:Hvcpu.
  - rewrite (CollectDomain_delay_of W stat g domainName cpuNum vcpu Hr Hname Hvcpu).
    rewrite events_vcpu_stats_body, List.filter_app.
    destruct (WaitSet vcpu), (DelaySet vcpu),
      ((GetDomainVcpuPids W (Domain stat)).1 !! cpuNum) as [vcpuPid|];
      cbv zeta; try destruct (GetProcPIDSchedStat W _ vcpuPid);
      cbn [List.filter app]; rewrite ?delay_metric_of_self;
      change (delay_metric_of domainName cpuNum (SchedStatCall ?a ?b ?c)) with false;
      cbn; lia.
  - rewrite (CollectDomain_vcpu_filter W _ stat g domainName); trivial.
    + unfold range_. rewrite filter_range_from_nil; [cbn; lia | |].
      * intros. apply vcpu_stats_body_total.
      * intros k y g' Hk. apply vcpu_stats_body_other_delay. cbn [Nat.add].
        intros ->. congruence.
    + intros [m| | | | |] He; try reflexivity. cbn in *. rewrite He. reflexivity.
Qed.

(** ** The further properties on the scenarios *)

Lemma domain_metrics_name_the_domain_witness :
  Forall (fun m => head (labelValues m) = Some "vm-1" /\
                   head (variableLabels (desc m)) = Some "domain")
    (metrics_of (events_of (CollectDomain Scenario.host Scenario.stat_estimated
                              Scenario.scraping))).
Proof.
  apply (domain_metrics_name_the_domain Scenario.host Scenario.stat_estimated
           Scenario.scraping "vm-1").
  reflexivity.
Defined.

(** The lookup of a domain named "vm" finds the process of "vm-1". *)
Lemma GetDomainPid_substring_ambiguity_witness :
  GetDomainPid Scenario.host "vm" Scenario.scraping = (Done 100, Scenario.scraping, []) /\
  GetDomainPid Scenario.host "vm-1" Scenario.scraping = (Done 100, Scenario.scraping, []).
Proof.
  apply (GetDomainPid_substring_ambiguity Scenario.host "vm" "vm-1" Scenario.scraping
           [] 100 []).
  - reflexivity.
  - reflexivity.
  - constructor.
  - reflexivity.
Defined.

Lemma unreadable_procfs_ends_process_witness :
  Collect Scenario.host_no_procfs "qemu:///system" Scenario.started =
  (Exited, Scenario.started, []).
Proof.
  apply (unreadable_procfs_ends_process Scenario.host_no_procfs "qemu:///system"
           Scenario.started
           (Scenario.conn ([Scenario.stat_estimated], None) [Scenario.pool 1 "default" None])
           6002000%N 7002000%N 8000000%N Scenario.ENOENT); reflexivity.
Defined.

Lemma monitor_failure_disables_estimator_witness :
  Forall (fun e =>
            match e with
            | SchedStatCall _ _ _ => False
            | Send m =>
                fqName (desc m) = fqName libvirtDomainVcpuDelayDesc ->
                exists cpuNum vcpu,
                  Vcpu Scenario.stat_no_monitor !! cpuNum = Some vcpu /\
                  DelaySet vcpu = true /\
                  value m = F64.div (F64.of_N (Delay vcpu)) f_1e9
            | _ => True
            end)
    (events_of (CollectDomain Scenario.host Scenario.stat_no_monitor Scenario.scraping)).
Proof.
  apply (monitor_failure_disables_estimator Scenario.host Scenario.stat_no_monitor
           Scenario.scraping Scenario.invalid_operation).
  reflexivity.
Defined.

Lemma pools_released_in_order_witness :
  exists n,
    List.filter pool_release
      (events_of (CollectFromLibvirt Scenario.host "qemu:///system" Scenario.started)) =
      map (fun pool => PoolFree (StoragePool.ptr pool))
        (take n [Scenario.pool 1 "default" None]) /\
    (outcome_of (CollectFromLibvirt Scenario.host "qemu:///system" Scenario.started) =
       Done tt ->
     n = 1%nat).
Proof.
  apply (pools_released_in_order Scenario.host "qemu:///system" Scenario.started
           (Scenario.conn ([Scenario.stat_estimated], None)
              [Scenario.pool 1 "default" None])).
  reflexivity.
Defined.

Lemma connection_closed_last_witness :
  exists tr,
    List.filter close_event tr = [] /\
    events_of (CollectFromLibvirt Scenario.host_two_pools "qemu:///system"
                 Scenario.started) =
    tr ++ match outcome_of (CollectFromLibvirt Scenario.host_two_pools "qemu:///system"
                              Scenario.started) with
          | Exited => []
          | _ => [ConnClose]
          end.
Proof.
  apply (connection_closed_last Scenario.host_two_pools "qemu:///system" Scenario.started
           (Scenario.conn ([Scenario.stat_estimated], None)
              [Scenario.pool 1 "default" (Some Scenario.no_domain);
               Scenario.pool 2 "images" None])).
  reflexivity.
Defined.

Lemma domain_handles_released_before_close_witness :
  exists collected,
    Forall (fun e => domain_release e = false /\ close_event e = false) collected /\
    events_of (CollectFromLibvirt Scenario.host "qemu:///system" Scenario.started) =
    Send (MustNewConstMetric libvirtVersionsInfoDesc GaugeValue (F64.of_Z 1)
            [version_string 6002000; version_string 7002000; version_string 8000000]) ::
    collected ++ [DomainFree 1] ++ [ConnClose].
Proof.
  apply (domain_handles_released_before_close Scenario.host "qemu:///system"
           Scenario.started
           (Scenario.conn ([Scenario.stat_estimated], None) [Scenario.pool 1 "default" None])
           6002000%N 7002000%N 8000000%N
           [ {| Name := "100"; IsDir := true |};
             {| Name := "cpuinfo"; IsDir := false |};
             {| Name := "sys"; IsDir := true |} ]); reflexivity.
Defined.

(** The first of two domains is gone: its six domain-info metrics are sent,
    the second domain and the pool are not collected, both handles are
    released. *)
Lemma failing_domain_aborts_scrape_witness :
  Collect Scenario.host_failing_domain "qemu:///system" Scenario.started =
  (Done tt, Scenario.scraping,
   Send (MustNewConstMetric libvirtVersionsInfoDesc GaugeValue (F64.of_Z 1)
           [version_string 6002000; version_string 7002000; version_string 8000000]) ::
   events_of (CollectDomain Scenario.host_failing_domain Scenario.stat_vcpus_lost
                Scenario.scraping) ++
   [DomainFree 1; DomainFree 1; ConnClose;
    LogError [LStr "err"; LStr "failed to scrape metrics"; LStr "uri";
              LStr "qemu:///system"; LStr "msg"; LErr Scenario.no_domain];
    Send (MustNewConstMetric libvirtUpDesc GaugeValue (F64.of_Z 0) [])]) /\
  length (events_of (CollectDomain Scenario.host_failing_domain Scenario.stat_vcpus_lost
                       Scenario.scraping)) = 6%nat.
Proof.
  split; [|reflexivity].
  apply (failing_domain_aborts_scrape Scenario.host_failing_domain "qemu:///system"
           Scenario.started
           (Scenario.conn ([Scenario.stat_vcpus_lost; Scenario.stat_estimated], None)
              [Scenario.pool 1 "default" None])
           6002000%N 7002000%N 8000000%N
           [ {| Name := "100"; IsDir := true |};
             {| Name := "cpuinfo"; IsDir := false |};
             {| Name := "sys"; IsDir := true |} ]
           [] Scenario.stat_vcpus_lost [Scenario.stat_estimated] Scenario.no_domain
           Scenario.scraping Scenario.scraping []); reflexivity.
Defined.

Lemma early_failure_reports_down_witness :
  Collect Scenario.host_unreachable "qemu:///system" Scenario.started =
  (Done tt, Scenario.started,
   [LogError [LStr "err"; LStr "failed to scrape metrics"; LStr "uri";
              LStr "qemu:///system"; LStr "msg"; LErr Scenario.connection_refused];
    Send (MustNewConstMetric libvirtUpDesc GaugeValue (F64.of_Z 0) [])]).
Proof.
  apply (proj1 (early_failure_reports_down Scenario.host_unreachable "qemu:///system"
                  Scenario.started Scenario.connection_refused)).
  reflexivity.
Defined.

Lemma version_string_components_witness : version_string 7002000 = "7.2.0".
Proof. apply (version_string_components 7 2 0); reflexivity. Defined.

Lemma unknown_interface_is_harmless_witness :
  List.filter interface_meta_metric
    (events_of (net_body "vm-1" Scenario.desc_vm1 Scenario.iface_vnet0 Scenario.scraping)) =
    [] /\
  Send (MustNewConstMetric libvirtDomainInterfaceRxBytesDesc CounterValue
          (F64.of_N 1500) ["vm-1"; "vnet0"])
  ∈ events_of (net_body "vm-1" Scenario.desc_vm1 Scenario.iface_vnet0 Scenario.scraping).
Proof.
  destruct (unknown_interface_is_harmless "vm-1" Scenario.desc_vm1 Scenario.iface_vnet0
              Scenario.scraping) as (_ & _ & Hunknown).
  destruct (Hunknown ltac:(constructor)) as [Hmeta Hrx].
  split; [exact Hmeta | apply Hrx; reflexivity].
Defined.

Lemma GetVcpus_error_ends_domain_witness :
  CollectDomain Scenario.host Scenario.stat_vcpus_lost Scenario.scraping =
    (Raised Scenario.no_domain, Scenario.scraping,
     events_of (report_domain_info "vm-1" "uuid-1" Scenario.desc_vm1
                  {| info_State := 1; info_MaxMem := 2048; info_Memory := 1024;
                     info_NrVirtCpu := 1; info_CpuTime := 3000000000 |}
                  Scenario.scraping)) /\
  length (events_of (report_domain_info "vm-1" "uuid-1" Scenario.desc_vm1
                       {| info_State := 1; info_MaxMem := 2048; info_Memory := 1024;
                          info_NrVirtCpu := 1; info_CpuTime := 3000000000 |}
                       Scenario.scraping)) = 6%nat.
Proof.
  apply (GetVcpus_error_ends_domain Scenario.host Scenario.stat_vcpus_lost
           Scenario.scraping "vm-1" "uuid-1" "<domain/>" Scenario.desc_vm1 _
           Scenario.no_domain); reflexivity.
Defined.

Lemma known_block_devices_never_panic_witness :
  outcome_of (CollectDomain Scenario.host Scenario.stat_cdrom Scenario.scraping) <>
  Panicked "invalid memory address or nil pointer dereference".
Proof.
  apply (known_block_devices_never_panic Scenario.host Scenario.stat_cdrom
           Scenario.scraping).
  intros xmlDesc desc Hxml Hdesc. injection Hxml as <-.
  change (Ok Scenario.desc_vm1 = Ok desc) in Hdesc. injection Hdesc as <-.
  constructor; [left; reflexivity|].
  constructor; [right; right; constructor; reflexivity|].
  constructor.
Defined.

Lemma at_most_one_delay_metric_witness :
  (length (List.filter (delay_metric_of "vm-1" 0)
             (events_of (CollectDomain Scenario.host Scenario.stat_estimated
                           Scenario.scraping))) <= 1)%nat.
Proof.
  apply (at_most_one_delay_metric Scenario.host Scenario.stat_estimated Scenario.scraping
           "vm-1" 0).
  reflexivity.
Defined.
